(** * NXLog configuration analyzer: block parser and flow-graph builder

    A shallow embedding of [nxlog_analyzer.py]: the line-oriented block
    parser [NXLogConfigAnalyzer.parse_config_file] and the flow mapper
    [FlowMapper] (route paths, flow edges, unconnected sections,
    statistics, Graphviz text).

    Conventions of the embedding.
    - A Python [str] is a [string]; one [ascii] stands for one code point
      below 256, so the character classes below are Python's classes
      restricted to that range.
    - A Python [dict] is an association list in insertion order ([dict]);
      assigning an existing key keeps its position.
    - A Python [set] of names is a duplicate-free list; only membership
      and size are meaningful, as Python leaves the iteration order of a
      set unspecified.  Where the program makes a list from a set, the
      order of that list is the one of the running interpreter, a
      parameter [listing] of the function.
    - [None] is [None : option _]; truthiness tests are written out. *)

From Stdlib Require Import Bool Arith Lia List Ascii String Permutation.
Import ListNotations.
Open Scope list_scope.
Open Scope string_scope.

(** ** Python strings *)

Module PyStr.

Definition code (c : ascii) : nat := nat_of_ascii c.

Definition between (lo hi n : nat) : bool := ((lo <=? n) && (n <=? hi))%nat.

(** [str.isspace] and the regex class [\s] on code points below 256. *)
Definition is_space (c : ascii) : bool :=
  let n := code c in
  between 9 13 n || between 28 32 n || (n =? 133)%nat || (n =? 160)%nat.

(** The regex class [\w] (alphanumeric or underscore) below 256. *)
Definition is_word (c : ascii) : bool :=
  let n := code c in
  between 48 57 n || between 65 90 n || (n =? 95)%nat || between 97 122 n
  || (n =? 170)%nat || between 178 179 n || (n =? 181)%nat || between 185 186 n
  || between 188 190 n || between 192 214 n || between 216 246 n
  || between 248 255 n.

(** [str.lower] on one code point below 256. *)
Definition lower_char (c : ascii) : ascii :=
  let n := code c in
  if between 65 90 n || between 192 214 n || between 216 222 n
  then ascii_of_nat (n + 32) else c.

Fixpoint lower (s : string) : string :=
  match s with
  | EmptyString => EmptyString
  | String c s' => String (lower_char c) (lower s')
  end.

Definition is_empty (s : string) : bool :=
  match s with EmptyString => true | _ => false end.

(** Truthiness of a string: non-empty. *)
Definition truthy (s : string) : bool := negb (is_empty s).

(** Truthiness of a value that is a string or [None]. *)
Definition truthy_opt (o : option string) : bool :=
  match o with Some s => truthy s | None => false end.

Fixpoint lstrip (s : string) : string :=
  match s with
  | EmptyString => EmptyString
  | String c s' => if is_space c then lstrip s' else s
  end.

Fixpoint rstrip (s : string) : string :=
  match s with
  | EmptyString => EmptyString
  | String c s' =>
      match rstrip s' with
      | EmptyString => if is_space c then EmptyString else String c EmptyString
      | r => String c r
      end
  end.

(** [s.strip()] *)
Definition strip (s : string) : string := rstrip (lstrip s).

Definition cons_head (c : ascii) (parts : list string) : list string :=
  match parts with
  | h :: t => String c h :: t
  | [] => [String c EmptyString]
  end.

(** [s.split(sep)] for a non-empty separator: occurrences are found
    from the left and do not overlap.  [skip] counts the characters of
    the current occurrence still to be passed over. *)
Fixpoint split_from (sep : string) (skip : nat) (s : string) : list string :=
  match s with
  | EmptyString => [EmptyString]
  | String c s' =>
      match skip with
      | S k => split_from sep k s'
      | O =>
          if prefix sep s
          then EmptyString :: split_from sep (String.length sep - 1) s'
          else cons_head c (split_from sep 0 s')
      end
  end.

Definition split (sep s : string) : list string := split_from sep 0 s.

(** [sub in s] *)
Fixpoint contains (sub s : string) : bool :=
  prefix sub s ||
  match s with
  | EmptyString => false
  | String _ s' => contains sub s'
  end.

(** [sep.join(parts)] *)
Definition join (sep : string) (parts : list string) : string :=
  String.concat sep parts.

Definition startswith_char (c : ascii) (s : string) : bool :=
  match s with String a _ => Ascii.eqb a c | EmptyString => false end.

Fixpoint endswith_char (c : ascii) (s : string) : bool :=
  match s with
  | EmptyString => false
  | String a EmptyString => Ascii.eqb a c
  | String _ s' => endswith_char c s'
  end.

Fixpoint drop_last (s : string) : string :=
  match s with
  | EmptyString => EmptyString
  | String _ EmptyString => EmptyString
  | String a s' => String a (drop_last s')
  end.

(** [s[1:-1]] *)
Definition slice_1_m1 (s : string) : string :=
  match s with
  | EmptyString => EmptyString
  | String _ s' => drop_last s'
  end.

(** [s[:n]] *)
Definition take (n : nat) (s : string) : string := substring 0 n s.

(** [s[n:]] *)
Fixpoint drop (n : nat) (s : string) : string :=
  match n, s with
  | S k, String _ s' => drop k s'
  | _, _ => s
  end.

Definition newline : ascii := ascii_of_nat 10.
Definition dquote : ascii := ascii_of_nat 34.
Definition squote : ascii := ascii_of_nat 39.
Definition nl : string := String newline EmptyString.
Definition dq : string := String dquote EmptyString.
Definition sq : string := String squote EmptyString.

End PyStr.

(** ** The regular expressions of the parser

    Every pattern used by the parser is a sequence of single-character
    tests and greedy one-or-more repetitions of a character class, some
    of them capturing.  [re_match] is [re.match]: anchored at the start,
    greedy, backtracking to shorter repetitions when the rest fails. *)

Module Re.
Import PyStr.

Inductive item : Type :=
| Lit (p : ascii -> bool)       (* one character satisfying [p] *)
| Plus (p : ascii -> bool)      (* [p+] *)
| Group (p : ascii -> bool).    (* [(p+)], capturing *)

Fixpoint span (p : ascii -> bool) (s : string) : nat :=
  match s with
  | String c s' => if p c then S (span p s') else 0
  | EmptyString => 0
  end.

(** Try the repetition with [k], [k-1], ..., 1 characters. *)
Fixpoint backtrack (capture : bool) (cont : string -> option (list string))
         (s : string) (k : nat) : option (list string) :=
  match k with
  | O => None
  | S k' =>
      match cont (drop k s) with
      | Some gs => Some (if capture then take k s :: gs else gs)
      | None => backtrack capture cont s k'
      end
  end.

Fixpoint re_match (r : list item) (s : string) : option (list string) :=
  match r with
  | [] => Some []
  | Lit p :: r' =>
      match s with
      | String c s' => if p c then re_match r' s' else None
      | EmptyString => None
      end
  | Plus p :: r' => backtrack false (re_match r') s (span p s)
  | Group p :: r' => backtrack true (re_match r') s (span p s)
  end.

Definition matches (r : list item) (s : string) : bool :=
  match re_match r s with Some _ => true | None => false end.

Definition chr (c : ascii) : ascii -> bool := fun x => Ascii.eqb x c.
(** A literal letter under [re.IGNORECASE]. *)
Definition chr_i (c : ascii) : ascii -> bool :=
  fun x => Ascii.eqb (lower_char x) (lower_char c).
Definition not_chr (c : ascii) : ascii -> bool := fun x => negb (Ascii.eqb x c).
(** [.] matches anything but a newline. *)
Definition dot : ascii -> bool := not_chr newline.

(** [<(\w+)\s+([^>]+)>] *)
Definition section_re : list item :=
  [Lit (chr "<"); Group is_word; Plus is_space; Group (not_chr ">"); Lit (chr ">")].
(** [</\w+>] *)
Definition close_re : list item :=
  [Lit (chr "<"); Lit (chr "/"); Plus is_word; Lit (chr ">")].
(** [<Exec>], ignoring case *)
Definition exec_open_re : list item :=
  [Lit (chr "<"); Lit (chr_i "E"); Lit (chr_i "x"); Lit (chr_i "e");
   Lit (chr_i "c"); Lit (chr ">")].
(** [</Exec>], ignoring case *)
Definition exec_close_re : list item :=
  [Lit (chr "<"); Lit (chr "/"); Lit (chr_i "E"); Lit (chr_i "x");
   Lit (chr_i "e"); Lit (chr_i "c"); Lit (chr ">")].
(** [(\w+)\s+(.+)] *)
Definition param_re : list item :=
  [Group is_word; Plus is_space; Group dot].
(** [Exec\s+(.+)], ignoring case *)
Definition next_exec_re : list item :=
  [Lit (chr_i "E"); Lit (chr_i "x"); Lit (chr_i "e"); Lit (chr_i "c");
   Plus is_space; Group dot].

End Re.

(** ** Python dictionaries and sets *)

Section Dict.
Context {V : Type}.

Definition dict : Type := list (string * V).

Fixpoint dict_get (d : dict) (k : string) : option V :=
  match d with
  | [] => None
  | (k', v) :: d' => if String.eqb k' k then Some v else dict_get d' k
  end.

(** [d[k] = v] *)
Fixpoint dict_set (d : dict) (k : string) (v : V) : dict :=
  match d with
  | [] => [(k, v)]
  | (k', v') :: d' =>
      if String.eqb k' k then (k', v) :: d' else (k', v') :: dict_set d' k v
  end.

Definition dict_keys (d : dict) : list string := map fst d.
Definition dict_values (d : dict) : list V := map snd d.
Definition dict_mem (d : dict) (k : string) : bool :=
  match dict_get d k with Some _ => true | None => false end.

(** [d.update(e)] *)
Definition dict_update (d e : dict) : dict :=
  fold_left (fun acc kv => dict_set acc (fst kv) (snd kv)) e d.

End Dict.
Arguments dict V : clear implicits.

Definition pyset : Type := list string.

Definition set_mem (x : string) (s : pyset) : bool :=
  existsb (String.eqb x) s.

(** [s.add(x)] *)
Definition set_add (s : pyset) (x : string) : pyset :=
  if set_mem x s then s else (s ++ [x])%list.

(** [set(xs)] *)
Definition set_of_list (xs : list string) : pyset := fold_left set_add xs [].

(** [a - b] *)
Definition set_diff (a b : pyset) : pyset :=
  filter (fun x => negb (set_mem x b)) a.

Import PyStr Re.

(** ** FlowMapper *)

(** One entry of [FlowMapper.routes]. *)
Record RouteInfo : Type := mkRoute {
  r_path : string;
  r_priority : option string;
  r_condition : option string;
  r_inputs : list string;
  r_outputs : list string;
  r_processors : list string
}.

(** One entry of [FlowMapper.sections]. *)
Record SectionEntry : Type := mkSection {
  s_type : string;
  s_module : option string;
  s_details : dict string;
  s_connected_routes : list string
}.

(** One entry of [FlowMapper.sections_info]. *)
Record SectionInfo : Type := mkInfo {
  i_type : string;
  i_module : string;
  i_details : dict string
}.

(** One element of [FlowMapper.flows]. *)
Record Flow : Type := mkFlow {
  f_route : string;
  f_source : string;
  f_target : string;
  f_destination : string;
  f_source_type : string;
  f_target_type : string;
  f_source_module : option string;
  f_target_module : option string;
  f_priority : string;
  f_condition : string
}.

(** The attributes of a [FlowMapper] object ([connections] is never read
    or written after construction and is left out). *)
Record FlowMapper : Type := mkMapper {
  routes : dict RouteInfo;
  sections : dict SectionEntry;
  flows : list Flow;
  sections_info : dict SectionInfo;
  unconnected_sections : pyset;
  graphviz_content : string
}.

(** [FlowMapper()] *)
Definition new_mapper : FlowMapper :=
  mkMapper [] [] [] [] [] EmptyString.

Definition set_routes (m : FlowMapper) (r : dict RouteInfo) : FlowMapper :=
  mkMapper r (sections m) (flows m) (sections_info m)
           (unconnected_sections m) (graphviz_content m).

(** [[x.strip() for x in s.split(',')]] *)
Definition split_names (s : string) : list string :=
  map strip (split "," s).

(** [[part.strip() for part in path.split('=>')]] *)
Definition split_stages (path : string) : list string :=
  map strip (split "=>" path).

(** [parts[1 : len(parts) - 1]], the stages visited by
    [for i in range(1, len(parts) - 1)]. *)
Definition middle (parts : list string) : list string :=
  firstn (List.length parts - 2) (skipn 1 parts).

(** [_parse_route_path], as the update it makes to the route's entry. *)
Definition _parse_route_path (path : string) (r : RouteInfo) : RouteInfo :=
  if contains "=>" path then
    let parts := split_stages path in
    let first := hd EmptyString parts in
    let last_ := List.last parts EmptyString in
    let inputs := if truthy first then split_names first else r_inputs r in
    let outputs :=
      if (1 <? List.length parts)%nat && truthy last_
      then split_names last_ else r_outputs r in
    let processors :=
      if (2 <? List.length parts)%nat
      then fold_left
             (fun acc part =>
                if truthy part then (acc ++ split_names part)%list else acc)
             (middle parts) (r_processors r)
      else r_processors r in
    mkRoute (r_path r) (r_priority r) (r_condition r) inputs outputs processors
  else r.

(** [add_route] *)
Definition add_route (m : FlowMapper) (route_name path : string)
           (priority condition : option string) : FlowMapper :=
  let fresh := mkRoute path priority condition [] [] [] in
  set_routes m (dict_set (routes m) route_name (_parse_route_path path fresh)).

(** [x or ''] for a string or [None]. *)
Definition or_empty (o : option string) : string :=
  match o with Some s => s | None => EmptyString end.

(** [x or 'N/A'] for a string or [None]. *)
Definition or_na (o : option string) : string :=
  if truthy_opt o then or_empty o else "N/A".

(** [add_section] ([details or {}] is [details]: an empty dict is
    replaced by an empty dict). *)
Definition add_section (m : FlowMapper) (section_name section_type : string)
           (module : option string) (details : dict string) : FlowMapper :=
  mkMapper (routes m)
           (dict_set (sections m) section_name
                     (mkSection section_type module details []))
           (flows m)
           (dict_set (sections_info m) section_name
                     (mkInfo section_type (or_empty module) details))
           (unconnected_sections m) (graphviz_content m).

(** *** Flow analysis *)

(** The first loop over a route's components: every component that is a
    declared section gets the route name appended to its
    [connected_routes]. *)
Definition mark_connected (route_name : string) (secs : dict SectionEntry)
           (names : list string) : dict SectionEntry :=
  fold_left
    (fun acc section_name =>
       match dict_get acc section_name with
       | Some e =>
           dict_set acc section_name
                    (mkSection (s_type e) (s_module e) (s_details e)
                               (s_connected_routes e ++ [route_name])%list)
       | None => acc
       end)
    names secs.

(** [self.sections.get(name, {}).get('type', 'Unknown')] *)
Definition type_of (secs : dict SectionEntry) (name : string) : string :=
  match dict_get secs name with
  | Some e => s_type e
  | None => "Unknown"
  end.

(** [self.sections.get(name, {}).get('module', 'Unknown')] *)
Definition module_of (secs : dict SectionEntry) (name : string) : option string :=
  match dict_get secs name with
  | Some e => s_module e
  | None => Some "Unknown"
  end.

Definition all_components (r : RouteInfo) : list string :=
  (r_inputs r ++ r_processors r ++ r_outputs r)%list.

Definition make_flow (secs : dict SectionEntry) (route_name : string)
           (r : RouteInfo) (source target : string) : Flow :=
  mkFlow route_name source target target
         (type_of secs source) (type_of secs target)
         (module_of secs source) (module_of secs target)
         (or_na (r_priority r)) (or_na (r_condition r)).

(** The flows appended by [for i in range(len(all_components) - 1)]. *)
Definition route_flows (secs : dict SectionEntry) (route_name : string)
           (r : RouteInfo) : list Flow :=
  let comps := all_components r in
  map (fun i =>
         make_flow secs route_name r
                   (nth i comps EmptyString) (nth (i + 1) comps EmptyString))
      (seq 0 (List.length comps - 1)).

(** One iteration of [for route_name, route_info in self.routes.items()]. *)
Definition analyze_route (acc : dict SectionEntry * list Flow)
           (kv : string * RouteInfo) : dict SectionEntry * list Flow :=
  let secs := mark_connected (fst kv) (fst acc) (all_components (snd kv)) in
  (secs, (snd acc ++ route_flows secs (fst kv) (snd kv))%list).

(** The set of all flow sources and targets. *)
Definition connected_sections (fl : list Flow) : pyset :=
  fold_left (fun acc f => set_add (set_add acc (f_source f)) (f_target f)) fl [].

(** *** Statistics *)

(** The per-type counts computed by [_get_flow_stats]. *)
Definition type_counts (info : dict SectionInfo) : dict nat :=
  fold_left
    (fun acc i =>
       dict_set acc (i_type i)
                (match dict_get acc (i_type i) with Some n => n | None => 0 end + 1))
    (dict_values info) [].

(** [_get_flow_stats] *)
Definition _get_flow_stats (m : FlowMapper) : dict nat :=
  dict_update
    [("total_routes", List.length (routes m));
     ("total_sections", List.length (sections_info m));
     ("total_flows", List.length (flows m));
     ("unconnected_sections", List.length (unconnected_sections m))]
    (type_counts (sections_info m)).

(** *** Graphviz text *)

Definition e_acute : string := String (ascii_of_nat 233) EmptyString.

(** The value between double quotes. *)
Definition quoted (s : string) : string := dq ++ s ++ dq.

(** The fixed table of fill colours by section type, in its order. *)
Definition colors : dict string :=
  [("Input", "#E8F5E8"); ("Output", "#FFE8E8"); ("Processor", "#E8E8FF");
   ("Extension", "#FFFFE8"); ("Route", "#F0F0F0")].

Definition route_colors : list string :=
  ["#FF6B6B"; "#4ECDC4"; "#45B7D1"; "#96CEB4"; "#FFEAA7"; "#DDA0DD"].

(** The line written for one section. *)
Definition node_line (unconnected : pyset) (section_name : string)
           (info : SectionInfo) : string :=
  let color :=
    match dict_get colors (i_type info) with Some c => c | None => "#FFFFFF" end in
  let label := section_name ++ "\n(" ++ i_type info ++ ")" in
  let label := if truthy (i_module info) then label ++ "\n" ++ i_module info else label in
  if set_mem section_name unconnected
  then "    " ++ quoted section_name ++ " [label=" ++ quoted label
       ++ ", fillcolor=" ++ quoted color ++ ", style=" ++ quoted "filled,dashed" ++ "];"
  else "    " ++ quoted section_name ++ " [label=" ++ quoted label
       ++ ", fillcolor=" ++ quoted color ++ "];".

(** The line written for one flow, once its colour is known. *)
Definition edge_line (f : Flow) (edge_color : string) : string :=
  let edge_label := "Route: " ++ f_route f in
  let edge_label :=
    if negb (String.eqb (f_priority f) "N/A")
    then edge_label ++ "\nPriorit" ++ e_acute ++ ": " ++ f_priority f
    else edge_label in
  let edge_label :=
    if negb (String.eqb (f_condition f) "N/A")
    then
      let short_condition :=
        if (30 <? String.length (f_condition f))%nat
        then take 30 (f_condition f) ++ "..." else f_condition f in
      edge_label ++ "\nCondition: " ++ short_condition
    else edge_label in
  "    " ++ quoted (f_source f) ++ " -> " ++ quoted (f_destination f)
  ++ " [label=" ++ quoted edge_label ++ ", color=" ++ quoted edge_color
  ++ ", fontcolor=" ++ quoted edge_color ++ "];".

(** The state of the loop over the flows: [route_color_map],
    [color_index] and the lines written so far. *)
Record EdgeLoop : Type := mkEdgeLoop {
  route_color_map : dict string;
  color_index : nat;
  edge_lines : list string
}.

(** One iteration of [for flow in self.flows]. *)
Definition edge_step (st : EdgeLoop) (f : Flow) : EdgeLoop :=
  let route := f_route f in
  let st1 :=
    if dict_mem (route_color_map st) route then st
    else mkEdgeLoop
           (dict_set (route_color_map st) route
                     (nth (color_index st mod List.length route_colors)
                          route_colors EmptyString))
           (color_index st + 1) (edge_lines st) in
  let edge_color :=
    match dict_get (route_color_map st1) route with
    | Some c => c
    | None => EmptyString
    end in
  mkEdgeLoop (route_color_map st1) (color_index st1)
             (edge_lines st1 ++ [edge_line f edge_color])%list.

Definition edge_loop (fl : list Flow) : EdgeLoop :=
  fold_left edge_step fl (mkEdgeLoop [] 0 []).

(** The legend entries: one per colour-table type that some section has. *)
Definition legend_lines (info : dict SectionInfo) : list string :=
  flat_map
    (fun tc =>
       if existsb (fun i => String.eqb (i_type i) (fst tc)) (dict_values info)
       then ["        " ++ quoted ("legend_" ++ fst tc) ++ " [label="
             ++ quoted (fst tc) ++ ", fillcolor=" ++ quoted (snd tc)
             ++ ", shape=box];"]
       else [])
    colors.

(** The lines written before the sections, between the sections and the
    flows, between the flows and the legend entries, and at the end. *)
Definition dot_header : list string :=
  ["digraph NXLogFlow {"; "    rankdir=LR;";
   "    node [shape=box, style=filled];"; "    edge [fontsize=10];";
   EmptyString; "    // Sections"].

Definition dot_flows_header : list string :=
  [EmptyString; "    // Flux de donn" ++ e_acute ++ "es"].

Definition dot_legend_header : list string :=
  [EmptyString; "    // L" ++ e_acute ++ "gende";
   "    subgraph cluster_legend {";
   "        label=" ++ quoted ("L" ++ e_acute ++ "gende") ++ ";";
   "        style=filled;";
   "        fillcolor=" ++ quoted "#F5F5F5" ++ ";";
   "        fontsize=12;"; EmptyString].

Definition dot_footer : list string :=
  ["        " ++ quoted "legend_disconnected" ++ " [label="
   ++ quoted ("Non connect" ++ e_acute) ++ ", fillcolor="
   ++ quoted "#FFFFFF" ++ ", style=" ++ quoted "filled,dashed"
   ++ ", shape=box];";
   "    }"; EmptyString; "}"].

(** [_generate_graphviz], as a function of the three attributes it reads. *)
Definition _generate_graphviz (info : dict SectionInfo) (unconnected : pyset)
           (fl : list Flow) : string :=
  join nl
    (dot_header
     ++ map (fun kv => node_line unconnected (fst kv) (snd kv)) info
     ++ dot_flows_header
     ++ edge_lines (edge_loop fl)
     ++ dot_legend_header
     ++ legend_lines info
     ++ dot_footer)%list.

(** *** [analyze_flows] *)

(** The dictionary returned by [analyze_flows].  Its entry
    ['unconnected'] is [list(self.unconnected_sections)], a list made
    from a set. *)
Record Analysis : Type := mkAnalysis {
  a_flows : list Flow;
  a_sections : dict SectionInfo;
  a_unconnected : list string;
  a_stats : dict nat;
  a_graphviz : string
}.

(** The mapper after [analyze_flows]. *)
Definition analyzed (m : FlowMapper) : FlowMapper :=
  let acc := fold_left analyze_route (routes m) (sections m, []) in
  let unconnected :=
    set_diff (set_of_list (dict_keys (sections_info m)))
             (connected_sections (snd acc)) in
  mkMapper (routes m) (fst acc) (snd acc) (sections_info m) unconnected
           (_generate_graphviz (sections_info m) unconnected (snd acc)).

(** [analyze_flows]: the mapper afterwards and the value returned.
    [listing] is the order in which the interpreter iterates over a set
    of names, which for texts depends on the hash seed of the run: it
    gives the list [list(self.unconnected_sections)]. *)
Definition analyze_flows (listing : pyset -> list string) (m : FlowMapper)
  : FlowMapper * Analysis :=
  let m' := analyzed m in
  (m', mkAnalysis (flows m') (sections_info m')
                  (listing (unconnected_sections m'))
                  (_get_flow_stats m') (graphviz_content m')).

(** *** The auxiliary path helper *)

(** [_parse_path_expression] *)
Definition _parse_path_expression (path_expr : string) : list (string * string) :=
  let segments := split_stages (strip path_expr) in
  flat_map
    (fun i =>
       let sources := split_names (nth i segments EmptyString) in
       let destinations := split_names (nth (i + 1) segments EmptyString) in
       flat_map
         (fun source =>
            flat_map
              (fun dest =>
                 if truthy source && truthy dest
                 then [(strip source, strip dest)] else [])
              destinations)
         sources)
    (seq 0 (List.length segments - 1)).

(** ** The block parser *)

(** One element of [file_data]. *)
Record ParamRecord : Type := mkRecord {
  p_Section : option string;
  p_Nom_Section : option string;
  p_Parametre : string;
  p_Valeur : string;
  p_Description : string
}.

(** The analyzer object, as far as [parse_config_file] reads it. *)
Record NXLogConfigAnalyzer : Type := mkAnalyzer {
  parameter_descriptions : dict string
}.

(** The local variables of [parse_config_file] during the scan. *)
Record PState : Type := mkState {
  current_section : option string;
  current_section_name : option string;
  line_i : nat;
  file_data : list ParamRecord;
  flow_mapper : FlowMapper;
  section_module : option string;
  section_details : dict string
}.

(** [re.sub(r'#.*$', '', content, flags=re.MULTILINE)]: from each [#] to
    the end of its line. *)
Fixpoint strip_comments_from (in_comment : bool) (content : string) : string :=
  match content with
  | EmptyString => EmptyString
  | String c rest =>
      if Ascii.eqb c newline then String c (strip_comments_from false rest)
      else if in_comment then strip_comments_from true rest
      else if Ascii.eqb c "#" then strip_comments_from true rest
      else String c (strip_comments_from false rest)
  end.

Definition strip_comments (content : string) : string :=
  strip_comments_from false content.

(** [self.parameter_descriptions.get(name, default)] *)
Definition describe (self : NXLogConfigAnalyzer) (name default : string) : string :=
  match dict_get (parameter_descriptions self) name with
  | Some d => d
  | None => default
  end.

(** The inner loop of the [<Exec>] block: [rest] is [lines[i:]]. *)
Fixpoint collect_exec_block (rest : list string) (exec_lines : list string)
         (i : nat) : list string * nat :=
  match rest with
  | [] => (exec_lines, i)
  | l :: rest' =>
      let exec_line := strip l in
      if matches exec_close_re exec_line then (exec_lines, i)
      else collect_exec_block rest'
             (if truthy exec_line then (exec_lines ++ [exec_line])%list
              else exec_lines)
             (S i)
  end.

(** The inner loop of the bare [Exec] lines: [rest] is [lines[j:]]. *)
Fixpoint collect_exec_lines (rest : list string) (exec_lines : list string)
         (j : nat) : list string * nat :=
  match rest with
  | [] => (exec_lines, j)
  | l :: rest' =>
      let next_line := strip l in
      if is_empty next_line then collect_exec_lines rest' exec_lines (S j)
      else
        match re_match next_exec_re next_line with
        | Some (g1 :: _) =>
            collect_exec_lines rest' (exec_lines ++ [strip g1])%list (S j)
        | _ => (exec_lines, j)
        end
  end.

(** The quote removal of a parameter value. *)
Definition strip_quotes (param_value : string) : string :=
  if startswith_char dquote param_value && endswith_char dquote param_value
  then slice_1_m1 param_value
  else if startswith_char squote param_value && endswith_char squote param_value
  then slice_1_m1 param_value
  else param_value.

(** The value of a parameter line before quote removal and the index of
    the last line it consumed: bare [Exec] lines are merged. *)
Definition merged_value (lines : list string) (i : nat)
           (param_name param_value : string) : string * nat :=
  if String.eqb (lower param_name) "exec" then
    let '(exec_lines, j) :=
      collect_exec_lines (skipn (i + 1) lines) [param_value] (i + 1) in
    (join " | " exec_lines, j - 1)
  else (param_value, i).

(** The body of the branch for a parameter line inside a section. *)
Definition param_step (self : NXLogConfigAnalyzer) (lines : list string)
           (st : PState) (param_name group2 : string) : PState :=
  let '(param_value, i) :=
    merged_value lines (line_i st) param_name (strip group2) in
  let param_value := strip_quotes param_value in
  let section_module :=
    if String.eqb param_name "Module" then Some param_value
    else section_module st in
  let flow_mapper :=
    if match current_section st with
       | Some s => String.eqb s "Route"
       | None => false
       end && String.eqb param_name "Path"
    then add_route (flow_mapper st)
                   (or_empty (current_section_name st)) param_value
                   (dict_get (section_details st) "Priority")
                   (dict_get (section_details st) "Condition")
    else flow_mapper st in
  mkState (current_section st) (current_section_name st) (i + 1)
          (file_data st
           ++ [mkRecord (current_section st) (current_section_name st)
                        param_name param_value
                        (describe self param_name
                                  ("Param" ++ String (ascii_of_nat 232) "tre sp"
                                   ++ e_acute ++ "cifique au module"))])%list
          flow_mapper section_module
          (dict_set (section_details st) param_name param_value).

Definition advance (st : PState) : PState :=
  mkState (current_section st) (current_section_name st) (line_i st + 1)
          (file_data st) (flow_mapper st) (section_module st)
          (section_details st).

(** The branch for an opening tag [<type name>]. *)
Definition open_step (st : PState) (group1 group2 : string) : PState :=
  mkState (Some group1) (Some group2) (line_i st + 1)
          (file_data st) (flow_mapper st) None [].

(** The branch for a closing tag: the open section, if any, is added to
    the flow mapper. *)
Definition close_step (st : PState) : PState :=
  let flow_mapper :=
    if truthy_opt (current_section st) && truthy_opt (current_section_name st)
    then add_section (flow_mapper st)
                     (or_empty (current_section_name st))
                     (or_empty (current_section st))
                     (section_module st) (section_details st)
    else flow_mapper st in
  mkState None None (line_i st + 1) (file_data st) flow_mapper None [].

(** The branch for an [<Exec>] line: the block up to [</Exec>] becomes
    one parameter. *)
Definition exec_block_step (self : NXLogConfigAnalyzer) (lines : list string)
           (st : PState) : PState :=
  let '(exec_lines, i) :=
    collect_exec_block (skipn (line_i st + 1) lines) [] (line_i st + 1) in
  let file_data :=
    if negb (List.length exec_lines =? 0)%nat && truthy_opt (current_section st)
    then (file_data st
          ++ [mkRecord (current_section st) (current_section_name st)
                       "Exec" (join nl exec_lines)
                       (describe self "Exec"
                                 ("Bloc de commandes " ++ String (ascii_of_nat 224)
                                  " ex" ++ e_acute ++ "cuter"))])%list
    else file_data st in
  mkState (current_section st) (current_section_name st) (i + 1)
          file_data (flow_mapper st) (section_module st) (section_details st).

(** What the tests at the head of the loop body find in a line, in the
    order in which they are made. *)
Inductive LineKind : Type :=
| Blank
| OpenTag (section_type section_name : string)
| CloseTag
| ExecOpen
| ParamLine (param_name group2 : string)
| Noise.

Definition classify (raw : string) : LineKind :=
  let line := strip raw in
  if is_empty line then Blank
  else
    match re_match section_re line with
    | Some (g1 :: g2 :: _) => OpenTag g1 g2
    | _ =>
        if matches close_re line then CloseTag
        else if matches exec_open_re line then ExecOpen
        else
          match re_match param_re line with
          | Some (g1 :: g2 :: _) => ParamLine g1 g2
          | _ => Noise
          end
    end.

(** One iteration of [while i < len(lines)]; a state whose cursor is
    past the end is left as it is. *)
Definition step (self : NXLogConfigAnalyzer) (lines : list string)
           (st : PState) : PState :=
  match nth_error lines (line_i st) with
  | None => st
  | Some raw =>
      match classify raw with
      | Blank => advance st
      | OpenTag g1 g2 => open_step st g1 g2
      | CloseTag => close_step st
      | ExecOpen => exec_block_step self lines st
      | ParamLine g1 g2 =>
          if truthy_opt (current_section st)
          then param_step self lines st g1 g2
          else advance st
      | Noise => advance st
      end
  end.

Fixpoint run (self : NXLogConfigAnalyzer) (lines : list string)
         (fuel : nat) (st : PState) : PState :=
  match fuel with
  | O => st
  | S fuel' => run self lines fuel' (step self lines st)
  end.

Definition initial_state : PState :=
  mkState None None 0 [] new_mapper None [].

(** The lines scanned by the parser for a file content. *)
Definition lines_of (content : string) : list string :=
  split nl (strip_comments content).

(** The state at the exit of the scanning loop.  Every iteration moves
    the cursor forward, so [len(lines)] iterations reach the end (lemma
    [scan_reaches_end]). *)
Definition scan (self : NXLogConfigAnalyzer) (lines : list string) : PState :=
  run self lines (List.length lines) initial_state.

(** [parse_config_file] on the content read from the file: the records,
    the flow mapper after [analyze_flows], which is called for its
    effect on the mapper and whose returned value is dropped. *)
Definition parse_config_file (self : NXLogConfigAnalyzer) (content : string)
  : list ParamRecord * FlowMapper :=
  let st := scan self (lines_of content) in
  (file_data st, analyzed (flow_mapper st)).

(** *** [get_flow_summary] *)

(** The dictionary returned by [get_flow_summary]. *)
Record FlowSummary : Type := mkSummary {
  fs_total_routes : nat;
  fs_total_sections : nat;
  fs_total_flows : nat;
  fs_input_sections : nat;
  fs_output_sections : nat;
  fs_processor_sections : nat;
  fs_extension_sections : nat;
  fs_unconnected_sections : nat
}.

(** [len([s for s in self.sections.values() if s['type'] == t])] *)
Definition count_type (secs : dict SectionEntry) (t : string) : nat :=
  List.length (filter (fun s => String.eqb (s_type s) t) (dict_values secs)).

(** [not s['connected_routes']] *)
Definition no_connected_routes (s : SectionEntry) : bool :=
  match s_connected_routes s with [] => true | _ => false end.

(** [get_flow_summary] *)
Definition get_flow_summary (m : FlowMapper) : FlowSummary :=
  mkSummary (List.length (routes m)) (List.length (sections m))
            (List.length (flows m))
            (count_type (sections m) "Input")
            (count_type (sections m) "Output")
            (count_type (sections m) "Processor")
            (count_type (sections m) "Extension")
            (List.length (filter no_connected_routes (dict_values (sections m)))).

(** *** The function [parse_nxlog_config] *)

(** One element of [config_data]. *)
Record ConfigEntry : Type := mkEntry {
  e_section_type : option string;
  e_section_name : option string;
  e_parameter : string;
  e_value : string
}.

(** The local variables of [parse_nxlog_config] during the scan. *)
Record CState : Type := mkCState {
  c_current_section : option string;
  c_current_section_name : option string;
  c_i : nat;
  config_data : list ConfigEntry;
  c_flow_mapper : FlowMapper;
  c_section_module : option string;
  c_section_details : dict string
}.

(** The tests at the head of the loop body of [parse_nxlog_config], in
    their order: there is none for [<Exec>]. *)
Definition classify_config (raw : string) : LineKind :=
  let line := strip raw in
  if is_empty line then Blank
  else
    match re_match section_re line with
    | Some (g1 :: g2 :: _) => OpenTag g1 g2
    | _ =>
        if matches close_re line then CloseTag
        else
          match re_match param_re line with
          | Some (g1 :: g2 :: _) => ParamLine g1 g2
          | _ => Noise
          end
    end.

Definition config_advance (st : CState) : CState :=
  mkCState (c_current_section st) (c_current_section_name st) (c_i st + 1)
           (config_data st) (c_flow_mapper st) (c_section_module st)
           (c_section_details st).

Definition config_open_step (st : CState) (group1 group2 : string) : CState :=
  mkCState (Some group1) (Some group2) (c_i st + 1)
           (config_data st) (c_flow_mapper st) None [].

(** The branch for a closing tag: the call is
    [add_section(current_section, current_section_name, section_module)],
    whose first parameter is the key and whose second is the type. *)
Definition config_close_step (st : CState) : CState :=
  let flow_mapper :=
    if truthy_opt (c_current_section st)
       && truthy_opt (c_current_section_name st)
    then add_section (c_flow_mapper st)
                     (or_empty (c_current_section st))
                     (or_empty (c_current_section_name st))
                     (c_section_module st) []
    else c_flow_mapper st in
  mkCState None None (c_i st + 1) (config_data st) flow_mapper None [].

(** The branch for a parameter line inside a section. *)
Definition config_param_step (st : CState) (param_name group2 : string)
  : CState :=
  let param_value := strip_quotes (strip group2) in
  let section_module :=
    if String.eqb param_name "Module" then Some param_value
    else c_section_module st in
  let flow_mapper :=
    if match c_current_section st with
       | Some s => String.eqb s "Route"
       | None => false
       end && String.eqb param_name "Path"
    then add_route (c_flow_mapper st)
                   (or_empty (c_current_section_name st)) param_value
                   (dict_get (c_section_details st) "Priority")
                   (dict_get (c_section_details st) "Condition")
    else c_flow_mapper st in
  mkCState (c_current_section st) (c_current_section_name st) (c_i st + 1)
           (config_data st
            ++ [mkEntry (c_current_section st) (c_current_section_name st)
                        param_name param_value])%list
           flow_mapper section_module
           (dict_set (c_section_details st) param_name param_value).

(** One iteration of [while i < len(lines)]; a state whose cursor is
    past the end is left as it is. *)
Definition config_step (lines : list string) (st : CState) : CState :=
  match nth_error lines (c_i st) with
  | None => st
  | Some raw =>
      match classify_config raw with
      | Blank => config_advance st
      | OpenTag g1 g2 => config_open_step st g1 g2
      | CloseTag => config_close_step st
      | ParamLine g1 g2 =>
          if truthy_opt (c_current_section st)
          then config_param_step st g1 g2
          else config_advance st
      | ExecOpen | Noise => config_advance st
      end
  end.

Fixpoint config_run (lines : list string) (fuel : nat) (st : CState) : CState :=
  match fuel with
  | O => st
  | S fuel' => config_run lines fuel' (config_step lines st)
  end.

Definition config_initial_state : CState :=
  mkCState None None 0 [] new_mapper None [].

(** The state at the exit of the loop: every iteration moves the cursor
    by one line, so [len(lines)] iterations reach the end (lemma
    [config_run_cursor]). *)
Definition config_scan (lines : list string) : CState :=
  config_run lines (List.length lines) config_initial_state.

(** [parse_nxlog_config] on the content read from the file: the entries
    ['config'] and ['flows'] of the result, the latter being the value
    returned by [analyze_flows]. *)
Definition parse_nxlog_config (listing : pyset -> list string)
           (content : string) : list ConfigEntry * Analysis :=
  let st := config_scan (lines_of content) in
  (config_data st, snd (analyze_flows listing (c_flow_mapper st))).

(** *** The analyzer object *)

(** The text of one character of code point [n]. *)
Definition latin (n : nat) : string := String (ascii_of_nat n) EmptyString.

(** The table [self.parameter_descriptions] set by [__init__]. *)
Definition init_parameter_descriptions : dict string :=
  [("Module",
    "Type de module utilis" ++ latin 233 ++ " (im_file, om_file, etc.)");
   ("File",
    "Chemin du fichier de log");
   ("InputType",
    "Type d'entr" ++ latin 233 ++ "e des donn" ++ latin 233 ++ "es");
   ("OutputType",
    "Type de sortie des donn" ++ latin 233 ++ "es");
   ("Host",
    "Adresse IP ou nom d'h" ++ latin 244 ++ "te");
   ("Port",
    "Port de connexion");
   ("Protocol",
    "Protocole de communication (TCP/UDP)");
   ("Facility",
    "Facilit" ++ latin 233 ++ " syslog");
   ("Severity",
    "Niveau de s" ++ latin 233 ++ "v" ++ latin 233 ++ "rit" ++ latin 233);
   ("SourceName",
    "Nom de la source");
   ("Exec",
    "Commande ou script " ++ latin 224 ++ " ex" ++ latin 233 ++ "cuter (peut " ++ latin 234 ++ "tre multi-lignes)");
   ("Schedule",
    "Planification d'ex" ++ latin 233 ++ "cution");
   ("SavePos",
    "Sauvegarde de la position de lecture");
   ("ReadFromLast",
    "Lecture depuis la derni" ++ latin 232 ++ "re position");
   ("PollInterval",
    "Intervalle de polling en secondes");
   ("DirCheckInterval",
    "Intervalle de v" ++ latin 233 ++ "rification des r" ++ latin 233 ++ "pertoires");
   ("ActiveFiles",
    "Nombre maximum de fichiers actifs");
   ("CloseWhenIdle",
    "Fermer les fichiers inactifs");
   ("Format",
    "Format des donn" ++ latin 233 ++ "es");
   ("CSVDelimiter",
    "D" ++ latin 233 ++ "limiteur CSV");
   ("CSVQuoteChar",
    "Caract" ++ latin 232 ++ "re de guillemet CSV");
   ("Fields",
    "Champs d" ++ latin 233 ++ "finis");
   ("Types",
    "Types de donn" ++ latin 233 ++ "es");
   ("Reconnect",
    "Reconnexion automatique");
   ("ConnectionTimeout",
    "Timeout de connexion");
   ("FlushInterval",
    "Intervalle de flush");
   ("SyncInterval",
    "Intervalle de synchronisation");
   ("CreateDir",
    "Cr" ++ latin 233 ++ "er le r" ++ latin 233 ++ "pertoire s'il n'existe pas");
   ("Truncate",
    "Tronquer le fichier");
   ("Sync",
    "Synchronisation forc" ++ latin 233 ++ "e");
   ("BufferSize",
    "Taille du buffer");
   ("LogLevel",
    "Niveau de log");
   ("LogFile",
    "Fichier de log");
   ("LogToConsole",
    "Affichage des logs sur la console");
   ("SpoolDir",
    "R" ++ latin 233 ++ "pertoire de spool");
   ("CacheDir",
    "R" ++ latin 233 ++ "pertoire de cache");
   ("PidFile",
    "Fichier PID");
   ("RootDir",
    "R" ++ latin 233 ++ "pertoire racine");
   ("User",
    "Utilisateur d'ex" ++ latin 233 ++ "cution");
   ("Group",
    "Groupe d'ex" ++ latin 233 ++ "cution");
   ("ModuleDir",
    "R" ++ latin 233 ++ "pertoire des modules");
   ("IncludeDir",
    "R" ++ latin 233 ++ "pertoire d'inclusion");
   ("SharedDir",
    "R" ++ latin 233 ++ "pertoire partag" ++ latin 233);
   ("DefaultCharset",
    "Jeu de caract" ++ latin 232 ++ "res par d" ++ latin 233 ++ "faut");
   ("NoCache",
    "D" ++ latin 233 ++ "sactiver le cache");
   ("Threads",
    "Nombre de threads");
   ("MaxEvents",
    "Nombre maximum d'" ++ latin 233 ++ "v" ++ latin 233 ++ "nements");
   ("MaxQueueSize",
    "Taille maximale de la queue");
   ("Route",
    "Route de traitement");
   ("Path",
    "Chemin de traitement");
   ("Priority",
    "Priorit" ++ latin 233);
   ("Condition",
    "Condition d'ex" ++ latin 233 ++ "cution");
   ("Drop",
    "Abandonner l'" ++ latin 233 ++ "v" ++ latin 233 ++ "nement");
   ("Transform",
    "Transformation des donn" ++ latin 233 ++ "es");
   ("Regex",
    "Expression r" ++ latin 233 ++ "guli" ++ latin 232 ++ "re");
   ("Pattern",
    "Motif de recherche");
   ("Replacement",
    "Cha" ++ latin 238 ++ "ne de remplacement");
   ("Global",
    "Remplacement global");
   ("CaseSensitive",
    "Sensible " ++ latin 224 ++ " la casse");
   ("Multiline",
    "Multi-lignes");
   ("DotAll",
    "Point correspond " ++ latin 224 ++ " tout");
   ("Extended",
    "Mode " ++ latin 233 ++ "tendu");
   ("Ungreedy",
    "Mode non-gourmand");
   ("Key",
    "Cl" ++ latin 233 ++ " de configuration");
   ("Value",
    "Valeur de configuration");
   ("SSL",
    "Utiliser SSL/TLS");
   ("CertFile",
    "Fichier de certificat");
   ("CertKeyFile",
    "Fichier de cl" ++ latin 233 ++ " priv" ++ latin 233 ++ "e");
   ("CAFile",
    "Fichier CA");
   ("CRLFile",
    "Fichier CRL");
   ("AllowUntrusted",
    "Autoriser les certificats non fiables");
   ("Compression",
    "Compression des donn" ++ latin 233 ++ "es");
   ("Gzip",
    "Compression gzip");
   ("Bzip2",
    "Compression bzip2");
   ("XZ",
    "Compression xz");
   ("Password",
    "Mot de passe");
   ("Username",
    "Nom d'utilisateur");
   ("Domain",
    "Domaine");
   ("Workstation",
    "Nom de la station de travail");
   ("HTTPSProxy",
    "Proxy HTTPS");
   ("HTTPProxy",
    "Proxy HTTP");
   ("ProxyUser",
    "Utilisateur proxy");
   ("ProxyPass",
    "Mot de passe proxy");
   ("ContentType",
    "Type de contenu");
   ("Headers",
    "En-t" ++ latin 234 ++ "tes HTTP");
   ("URL",
    "URL de destination");
   ("HTTPSCertFile",
    "Fichier de certificat HTTPS");
   ("HTTPSCertKeyFile",
    "Fichier de cl" ++ latin 233 ++ " priv" ++ latin 233 ++ "e HTTPS");
   ("HTTPSCAFile",
    "Fichier CA HTTPS");
   ("HTTPSCRLFile",
    "Fichier CRL HTTPS");
   ("HTTPSAllowUntrusted",
    "Autoriser les certificats HTTPS non fiables");
   ("JSONDateFormat",
    "Format de date JSON");
   ("JSONDateField",
    "Champ de date JSON");
   ("JSONTimeFormat",
    "Format d'heure JSON");
   ("JSONTimeField",
    "Champ d'heure JSON");
   ("XMLDateFormat",
    "Format de date XML");
   ("XMLDateField",
    "Champ de date XML");
   ("XMLTimeFormat",
    "Format d'heure XML");
   ("XMLTimeField",
    "Champ d'heure XML");
   ("Delimiter",
    "D" ++ latin 233 ++ "limiteur");
   ("QuoteChar",
    "Caract" ++ latin 232 ++ "re de guillemet");
   ("EscapeChar",
    "Caract" ++ latin 232 ++ "re d'" ++ latin 233 ++ "chappement");
   ("EscapeControl",
    latin 201 ++ "chapper les caract" ++ latin 232 ++ "res de contr" ++ latin 244 ++ "le");
   ("UndefValue",
    "Valeur ind" ++ latin 233 ++ "finie");
   ("HeaderLine",
    "Ligne d'en-t" ++ latin 234 ++ "te");
   ("FieldTypes",
    "Types de champs");
   ("FieldNames",
    "Noms de champs")].

(** [NXLogConfigAnalyzer()], as far as [parse_config_file] reads it. *)
Definition new_analyzer : NXLogConfigAnalyzer :=
  mkAnalyzer init_parameter_descriptions.

(** *** Statistics of the records *)

(** Equality of two values of [item['Section']], a text or [None]. *)
Definition opt_eqb (a b : option string) : bool :=
  match a, b with
  | Some x, Some y => String.eqb x y
  | None, None => true
  | _, _ => false
  end.

(** [s.add(x)] for a set of such values. *)
Definition oset_add (s : list (option string)) (x : option string)
  : list (option string) :=
  if existsb (opt_eqb x) s then s else (s ++ [x])%list.

(** The dictionary returned by [get_statistics].  The two lists are
    made from sets, in an order that the language leaves open; they are
    given here in the order of first insertion. *)
Record Statistics : Type := mkStatistics {
  stat_total_parameters : nat;
  stat_sections_count : nat;
  stat_modules_count : nat;
  stat_exec_count : nat;
  stat_sections : list (option string);
  stat_modules : pyset
}.

(** One iteration of [for item in data], on [sections], [modules] and
    [exec_count]. *)
Definition statistics_step (acc : list (option string) * pyset * nat)
           (item : ParamRecord) : list (option string) * pyset * nat :=
  let '(sections, modules, exec_count) := acc in
  (oset_add sections (p_Section item),
   if String.eqb (p_Parametre item) "Module"
   then set_add modules (p_Valeur item) else modules,
   if String.eqb (lower (p_Parametre item)) "exec"
   then exec_count + 1 else exec_count).

(** [get_statistics] *)
Definition get_statistics (data : list ParamRecord) : Statistics :=
  let '(sections, modules, exec_count) :=
    fold_left statistics_step data ([], [], 0) in
  mkStatistics (List.length data) (List.length sections)
               (List.length modules) exec_count sections modules.

(** One entry of ['files_stats']. *)
Record FileLine : Type := mkFileLine {
  line_parameters : nat;
  line_sections : nat;
  line_modules : nat;
  line_exec_count : nat
}.

(** The dictionary returned by [get_consolidated_statistics]. *)
Record Consolidated : Type := mkConsolidated {
  all_total_parameters : nat;
  all_total_sections : nat;
  all_total_modules : nat;
  all_total_exec_count : nat;
  all_sections : list (option string);
  all_modules : pyset;
  files_stats : dict FileLine
}.

(** One iteration of [for file_name, file_data in self.files_data.items()];
    the two counts of distinct values are set after the loop. *)
Definition consolidate_step (acc : Consolidated)
           (kv : string * list ParamRecord) : Consolidated :=
  let file_stats := get_statistics (snd kv) in
  mkConsolidated
    (all_total_parameters acc + stat_total_parameters file_stats)
    (all_total_sections acc)
    (all_total_modules acc)
    (all_total_exec_count acc + stat_exec_count file_stats)
    (fold_left oset_add (stat_sections file_stats) (all_sections acc))
    (fold_left set_add (stat_modules file_stats) (all_modules acc))
    (dict_set (files_stats acc) (fst kv)
              (mkFileLine (stat_total_parameters file_stats)
                          (stat_sections_count file_stats)
                          (stat_modules_count file_stats)
                          (stat_exec_count file_stats))).

(** [get_consolidated_statistics], on the attribute [files_data] of the
    analyzer. *)
Definition get_consolidated_statistics (files_data : dict (list ParamRecord))
  : Consolidated :=
  let acc :=
    fold_left consolidate_step files_data
              (mkConsolidated 0 0 0 0 [] [] []) in
  mkConsolidated (all_total_parameters acc)
                 (List.length (all_sections acc))
                 (List.length (all_modules acc))
                 (all_total_exec_count acc)
                 (all_sections acc) (all_modules acc) (files_stats acc).

(** * Notions used in the statements *)

(** The consecutive pairs of a list. *)
Definition adjacent_pairs {A : Type} (l : list A) : list (A * A) :=
  combine l (tl l).

(** The route, source and target of a flow. *)
Definition edge_of (f : Flow) : string * (string * string) :=
  (f_route f, (f_source f, f_target f)).

(** The edges that pairwise adjacency gives for one entry of [routes]. *)
Definition route_edges (kv : string * RouteInfo)
  : list (string * (string * string)) :=
  map (pair (fst kv)) (adjacent_pairs (all_components (snd kv))).

(** A configuration whose only route has the path of the example. *)
Definition route_example_doc : string :=
  "<Route r>" ++ nl ++ "Path a, b => c => d, e" ++ nl ++ "</Route>" ++ nl.

(** The non-empty names of a stage. *)
Definition stage_names (stage : string) : list string :=
  filter truthy (split_names stage).

(** The helper as the specification words it: for every adjacent pair of
    stages, the whole cartesian product of their comma-separated names. *)
Definition expandPairs_spec (path_expr : string) : list (string * string) :=
  flat_map
    (fun sd => list_prod (split_names (fst sd)) (split_names (snd sd)))
    (adjacent_pairs (split_stages (strip path_expr))).

(** The edges of the primary construction for a single route with the
    given path. *)
Definition primary_edges (path : string) : list (string * string) :=
  map (fun f => (f_source f, f_target f))
      (flows (analyzed (add_route new_mapper "r" path None None))).

(** A name is an endpoint of some flow of the list. *)
Definition endpoint_in (fl : list Flow) (name : string) : Prop :=
  exists f, In f fl /\ (f_source f = name \/ f_target f = name).

(** A configuration with a route from [in1] to [out1] and a section
    [spare] that no path names. *)
Definition spare_doc : string :=
  "<Input in1>" ++ nl ++ "Module im_file" ++ nl ++ "</Input>" ++ nl
  ++ "<Input spare>" ++ nl ++ "Module im_null" ++ nl ++ "</Input>" ++ nl
  ++ "<Output out1>" ++ nl ++ "Module om_file" ++ nl ++ "</Output>" ++ nl
  ++ "<Route r1>" ++ nl ++ "Path in1 => out1" ++ nl ++ "</Route>" ++ nl.

(** The mapper at the end of the scan of [spare_doc]. *)
Definition spare_mapper : FlowMapper :=
  flow_mapper (scan (mkAnalyzer []) (lines_of spare_doc)).

(** A configuration with one section whose tag is [total_flows]. *)
Definition clash_doc : string :=
  "<total_flows x>" ++ nl ++ "</total_flows>" ++ nl.

(** A configuration with two sections, one of which has the tag
    [total_sections]. *)
Definition clash_sections_doc : string :=
  "<total_sections a>" ++ nl ++ "</total_sections>" ++ nl
  ++ "<Input b>" ++ nl ++ "</Input>" ++ nl.

(** The statistics returned for a configuration text; the order given
    to the unconnected names plays no part in them. *)
Definition stats_of (self : NXLogConfigAnalyzer) (content : string) : Analysis :=
  snd (analyze_flows (fun names => names)
                     (flow_mapper (scan self (lines_of content)))).

(** Two section tables that give every name the same type and module. *)
Definition same_kinds (s s' : dict SectionEntry) : Prop :=
  forall name, type_of s name = type_of s' name
               /\ module_of s name = module_of s' name.

(** The position of the first occurrence of [x] in [l]. *)
Fixpoint index_of (x : string) (l : list string) : nat :=
  match l with
  | [] => 0
  | y :: l' => if String.eqb y x then 0 else S (index_of x l')
  end.

(** A name is added at the end unless it was seen before. *)
Definition add_seen (seen : list string) (r : string) : list string :=
  if set_mem r seen then seen else (seen ++ [r])%list.

(** The distinct names of a list in the order of their first occurrence. *)
Definition first_seen_order (names : list string) : list string :=
  fold_left add_seen names [].

(** The palette taken cyclically. *)
Definition palette_color (k : nat) : string :=
  nth (k mod List.length route_colors) route_colors EmptyString.

(** The colour of a route: the palette entry at its rank among the
    routes of the flows, in first-seen order. *)
Definition route_color (fl : list Flow) (route : string) : string :=
  palette_color (index_of route (first_seen_order (map f_route fl))).

(** The colour map of the loop holds, for the routes seen so far, the
    palette entry at their rank. *)
Definition colors_of (seen : list string) (st : EdgeLoop) : Prop :=
  color_index st = List.length seen
  /\ forall r,
      dict_get (route_color_map st) r
      = if set_mem r seen then Some (palette_color (index_of r seen)) else None.

(** The section context is either closed or open with a non-empty type
    and a non-empty name. *)
Definition context_ok (st : PState) : Prop :=
  match current_section st, current_section_name st with
  | Some t, Some n => truthy t = true /\ truthy n = true
  | None, None => True
  | _, _ => False
  end.

(** The section tables of the mapper hold the same names. *)
Definition tables_agree (m : FlowMapper) : Prop :=
  dict_keys (sections m) = dict_keys (sections_info m).

(** The closing tag of a section [name] is reached: some iteration of
    the scan finds a closing tag at the cursor while [name] is the open
    section. *)
Definition closing_tag_reached (self : NXLogConfigAnalyzer)
           (lines : list string) (name : string) : Prop :=
  exists k raw,
    nth_error lines (line_i (run self lines k initial_state)) = Some raw
    /\ classify raw = CloseTag
    /\ current_section_name (run self lines k initial_state) = Some name.

(** The name is a declared section of the mapper. *)
Definition registered (m : FlowMapper) (name : string) : Prop :=
  In name (dict_keys (sections_info m)).

(** The opening tag of a section of type [t] and name [n] is reached:
    some iteration of the scan finds it at the cursor. *)
Definition opening_tag_reached (self : NXLogConfigAnalyzer)
           (lines : list string) (t n : string) : Prop :=
  exists k raw,
    nth_error lines (line_i (run self lines k initial_state)) = Some raw
    /\ classify raw = OpenTag t n.

(** A record names a section whose opening tag was reached. *)
Definition record_opened (self : NXLogConfigAnalyzer) (lines : list string)
           (r : ParamRecord) : Prop :=
  exists t n,
    p_Section r = Some t /\ p_Nom_Section r = Some n
    /\ opening_tag_reached self lines t n.

(** The open section, if any, and every record so far come from an
    opening tag that was reached. *)
Definition all_opened (self : NXLogConfigAnalyzer) (lines : list string)
           (st : PState) : Prop :=
  (forall t n,
      current_section st = Some t -> current_section_name st = Some n ->
      opening_tag_reached self lines t n)
  /\ Forall (record_opened self lines) (file_data st).

(** A configuration whose only section is never closed. *)
Definition unclosed_doc : string :=
  "<Input in1>" ++ nl ++ "Module im_file" ++ nl.

(** The open section is of type [Route]. *)
Definition in_route (st : PState) : bool :=
  match current_section st with
  | Some s => String.eqb s "Route"
  | None => false
  end.

(** A route block with [Path] before [Priority], and the same block with
    the two lines exchanged. *)
Definition path_first_doc : string :=
  "<Route r1>" ++ nl ++ "Path in1 => out1" ++ nl ++ "Priority 10" ++ nl
  ++ "</Route>" ++ nl.

Definition priority_first_doc : string :=
  "<Route r1>" ++ nl ++ "Priority 10" ++ nl ++ "Path in1 => out1" ++ nl
  ++ "</Route>" ++ nl.

(** The priorities of the registered routes and of the flows, and the
    [Priority] attribute of each registered section. *)
Definition priorities (m : FlowMapper)
  : list (string * option string) * list string * list (option string) :=
  (map (fun kv => (fst kv, r_priority (snd kv))) (routes m),
   map f_priority (flows m),
   map (fun kv => dict_get (s_details (snd kv)) "Priority") (sections m)).

(** The number of blank lines at the head of a list of lines. *)
Fixpoint leading_blanks (l : list string) : nat :=
  match l with
  | x :: l' => if is_empty (strip x) then S (leading_blanks l') else 0
  | [] => 0
  end.

(** The first non-blank line, if there is one, is not a bare [Exec]
    line. *)
Definition exec_run_ends (post : list string) : Prop :=
  match skipn (leading_blanks post) post with
  | [] => True
  | l :: _ => re_match next_exec_re (strip l) = None
  end.

(** A section holding the three lines of the example. *)
Definition exec_merge_doc : string :=
  "<Input in1>" ++ nl ++ "Exec a" ++ nl ++ "Exec b" ++ nl ++ "Exec c" ++ nl
  ++ "</Input>" ++ nl.

(** A section holding a tagged block. *)
Definition exec_block_doc : string :=
  "<Input in1>" ++ nl ++ "<Exec>" ++ nl ++ "  foo();" ++ nl ++ "bar();  " ++ nl
  ++ "</Exec>" ++ nl ++ "</Input>" ++ nl.

(** A section whose [Exec] line has a lone double quote as value and is
    followed by another bare [Exec] line. *)
Definition quote_exec_doc : string :=
  "<Input in1>" ++ nl ++ "Exec " ++ dq ++ nl ++ "Exec b" ++ nl
  ++ "</Input>" ++ nl.

(** Sections with a parameter whose whole value is one quote character. *)
Definition quote_doc (q : string) : string :=
  "<Input in1>" ++ nl ++ "Key " ++ q ++ nl ++ "</Input>" ++ nl.

(** The number of occurrences of a character in a string. *)
Fixpoint count_char (c : ascii) (s : string) : nat :=
  match s with
  | EmptyString => 0
  | String a s' => (if Ascii.eqb a c then 1 else 0) + count_char c s'
  end.

(** Every character of the string satisfies [p]. *)
Fixpoint all_chars (p : ascii -> bool) (s : string) : bool :=
  match s with
  | EmptyString => true
  | String c s' => p c && all_chars p s'
  end.

(** A non-empty string of word characters. *)
Definition is_identifier (s : string) : bool :=
  truthy s && all_chars is_word s.

(** A record with an identifier as section type, a non-empty section
    name and an identifier as parameter name. *)
Definition record_ok (r : ParamRecord) : bool :=
  match p_Section r with Some t => is_identifier t | None => false end
  && truthy_opt (p_Nom_Section r)
  && is_identifier (p_Parametre r).

(** The type of the open section, if any, is an identifier. *)
Definition context_word (st : PState) : Prop :=
  match current_section st with
  | Some t => is_identifier t = true
  | None => True
  end.

(** The line is an opening tag. *)
Definition is_open_tag (raw : string) : bool :=
  match classify raw with OpenTag _ _ => true | _ => false end.

(** The scan has seen no section so far. *)
Definition nothing_seen (st : PState) : Prop :=
  current_section st = None
  /\ file_data st = []
  /\ flow_mapper st = new_mapper.

(** The captured lines of a tagged block: the trimmed lines that are
    not blank. *)
Definition block_content (body : list string) : list string :=
  filter truthy (map strip body).

(** The line does not match [</Exec>]. *)
Definition no_close (l : string) : bool :=
  negb (matches exec_close_re (strip l)).

(** The records after a tagged block with the given body. *)
Definition with_block_record (self : NXLogConfigAnalyzer) (st : PState)
           (body : list string) : list ParamRecord :=
  if negb (List.length (block_content body) =? 0)%nat
     && truthy_opt (current_section st)
  then (file_data st
        ++ [mkRecord (current_section st) (current_section_name st)
              "Exec" (join nl (block_content body))
              (describe self "Exec"
                 ("Bloc de commandes " ++ String (ascii_of_nat 224)
                  " ex" ++ e_acute ++ "cuter"))])%list
  else file_data st.

(** The value that a line contributes to a run of bare [Exec] lines:
    none for a blank line. *)
Definition exec_value (l : string) : list string :=
  if is_empty (strip l) then []
  else
    match re_match next_exec_re (strip l) with
    | Some (g1 :: _) => [strip g1]
    | _ => []
    end.

(** The line is blank or a bare [Exec] line. *)
Definition is_run_line (l : string) : bool :=
  is_empty (strip l)
  || match re_match next_exec_re (strip l) with
     | Some (_ :: _) => true
     | _ => false
     end.

(** The name and the recorded value of a parameter line other than
    [Exec]; nothing for any other line. *)
Definition param_entry (raw : string) : option (string * string) :=
  match classify raw with
  | ParamLine n g2 =>
      if String.eqb (lower n) "exec" then None
      else Some (n, strip_quotes (strip g2))
  | _ => None
  end.

(** The value of the last entry named [k], starting from [start]. *)
Definition last_value_from (k : string) (start : option string)
           (params : list (string * string)) : option string :=
  fold_left (fun acc nv => if String.eqb (fst nv) k then Some (snd nv) else acc)
            params start.

(** The value of the last entry named [k], if there is one. *)
Definition last_value (k : string) (params : list (string * string))
  : option string :=
  last_value_from k None params.

(** The attribute map after the assignments of the entries, in order. *)
Definition set_all (params : list (string * string)) (d : dict string)
  : dict string :=
  fold_left (fun acc nv => dict_set acc (fst nv) (snd nv)) params d.

(** The record of a parameter entry in the section [t], [name]. *)
Definition entry_record (self : NXLogConfigAnalyzer) (t name : option string)
           (nv : string * string) : ParamRecord :=
  mkRecord t name (fst nv) (snd nv)
           (describe self (fst nv)
              ("Param" ++ String (ascii_of_nat 232) "tre sp"
               ++ e_acute ++ "cifique au module")).

(** The type and the module that a flow shows for one of its ends:
    those of the section declared under that name, and [Unknown] for
    both when no section is declared under it. *)
Definition end_described (secs : dict SectionEntry) (name type : string)
           (module : option string) : Prop :=
  match dict_get secs name with
  | Some e => type = s_type e /\ module = s_module e
  | None => type = "Unknown" /\ module = Some "Unknown"
  end.

(** The text that a flow shows for a priority or a condition of its
    route: the value itself, and [N/A] when it is absent or empty. *)
Definition shown_as (value : option string) (text : string) : Prop :=
  match value with
  | Some (String c v) => text = String c v
  | Some EmptyString | None => text = "N/A"
  end.

(** What the analysis writes into a flow, read against the section
    table and the route table it was given: the flow belongs to a route
    of the table, of which its source and target are two consecutive
    components; the types and modules of its two ends are those of the
    declared sections; the destination repeats the target; priority and
    condition are those of the route. *)
Definition flow_described (secs : dict SectionEntry) (rts : dict RouteInfo)
           (f : Flow) : Prop :=
  end_described secs (f_source f) (f_source_type f) (f_source_module f)
  /\ end_described secs (f_target f) (f_target_type f) (f_target_module f)
  /\ f_destination f = f_target f
  /\ exists r,
      In (f_route f, r) rts
      /\ In (f_source f, f_target f) (adjacent_pairs (all_components r))
      /\ shown_as (r_priority r) (f_priority f)
      /\ shown_as (r_condition r) (f_condition f).

(** The route names that the analysis appends to the [connected_routes]
    of the section [name]: each route once per occurrence of the name
    among its components, in the order of the routes. *)
Definition marks (rts : dict RouteInfo) (name : string) : list string :=
  flat_map
    (fun kv => repeat (fst kv)
                      (count_occ string_dec (all_components (snd kv)) name))
    rts.

(** A section entry with route names appended to its
    [connected_routes]. *)
Definition add_marks (l : list string) (e : SectionEntry) : SectionEntry :=
  mkSection (s_type e) (s_module e) (s_details e)
            (s_connected_routes e ++ l)%list.

(** The entry of [parse_nxlog_config] that corresponds to a record of
    [parse_config_file]: the record without its description. *)
Definition config_entry_of (r : ParamRecord) : ConfigEntry :=
  mkEntry (p_Section r) (p_Nom_Section r) (p_Parametre r) (p_Valeur r).

(** The line neither opens an [<Exec>] block nor is a bare [Exec]
    line. *)
Definition exec_free (raw : string) : bool :=
  match classify raw with
  | ExecOpen => false
  | ParamLine n _ => negb (String.eqb (lower n) "exec")
  | _ => true
  end.

(** A flow without the types and modules of its two ends. *)
Definition wiring (f : Flow)
  : string * string * string * string * string * string :=
  (f_route f, f_source f, f_target f, f_destination f,
   f_priority f, f_condition f).

(** The two scans are at the same point with the same context, entries
    and routes. *)
Definition scans_agree (st : PState) (ct : CState) : Prop :=
  c_current_section ct = current_section st
  /\ c_current_section_name ct = current_section_name st
  /\ c_i ct = line_i st
  /\ config_data ct = map config_entry_of (file_data st)
  /\ routes (c_flow_mapper ct) = routes (flow_mapper st)
  /\ c_section_module ct = section_module st
  /\ c_section_details ct = section_details st.

(** Some line of the text is the opening tag [<t n>]. *)
Definition tag_in (kind : string -> LineKind) (lines : list string)
           (t n : string) : Prop :=
  exists raw, In raw lines /\ kind raw = OpenTag t n.

(** The number of declared sections of type [t]. *)
Definition sections_of_type (info : dict SectionInfo) (t : string) : nat :=
  List.length (filter (fun i => String.eqb (i_type i) t) (dict_values info)).

(** The four totals that [_get_flow_stats] computes first. *)
Definition totals (m : FlowMapper) : dict nat :=
  [("total_routes", List.length (routes m));
   ("total_sections", List.length (sections_info m));
   ("total_flows", List.length (flows m));
   ("unconnected_sections", List.length (unconnected_sections m))].

(** The name has no white space at either end. *)
Definition trimmed (s : string) : Prop := strip s = s.

(** The description given to a parameter that the table does not
    hold. *)
Definition fallback_description : string :=
  "Param" ++ latin 232 ++ "tre sp" ++ latin 233 ++ "cifique au module".

(** The description of the record is the one of its parameter name. *)
Definition described_by_name (self : NXLogConfigAnalyzer) (r : ParamRecord)
  : Prop :=
  p_Description r = describe self (p_Parametre r) fallback_description.

(** The record is a [Module] line. *)
Definition is_module_record (r : ParamRecord) : bool :=
  String.eqb (p_Parametre r) "Module".

(** The record is an [Exec] parameter, in any case of letters. *)
Definition is_exec_record (r : ParamRecord) : bool :=
  String.eqb (lower (p_Parametre r)) "exec".

(** The list holds exactly the distinct values of [values], once each. *)
Definition distinct_of {A : Type} (values s : list A) : Prop :=
  NoDup s /\ forall x, In x s <-> In x values.

(** A line of the body of a block: a parameter line, a blank line or a
    line that the scan passes over; not an opening tag, a closing tag or
    the start of a tagged [<Exec>] block. *)
Definition body_line (raw : string) : bool :=
  match classify raw with
  | OpenTag _ _ | CloseTag | ExecOpen => false
  | Blank | ParamLine _ _ | Noise => true
  end.

(** The lines of a body that the scan reads as lines of the section:
    those outside the tagged [<Exec>] blocks, each of which runs to the
    first line that matches [</Exec>].  [in_block] tells whether the
    body starts inside such a block. *)
Fixpoint outer_lines (in_block : bool) (ls : list string) : list string :=
  match ls with
  | [] => []
  | l :: ls' =>
      if in_block
      then outer_lines (negb (matches exec_close_re (strip l))) ls'
      else
        match classify l with
        | ExecOpen => outer_lines true ls'
        | _ => l :: outer_lines false ls'
        end
  end.

(** A well-formed body: outside the tagged blocks no line is an opening
    or a closing tag, and every tagged block is closed. *)
Fixpoint well_formed (in_block : bool) (ls : list string) : bool :=
  match ls with
  | [] => negb in_block
  | l :: ls' =>
      if in_block
      then well_formed (negb (matches exec_close_re (strip l))) ls'
      else
        match classify l with
        | ExecOpen => well_formed true ls'
        | OpenTag _ _ | CloseTag => false
        | Blank | ParamLine _ _ | Noise => well_formed false ls'
        end
  end.

(** The line is a parameter line named [k]. *)
Definition is_param (k raw : string) : bool :=
  match classify raw with
  | ParamLine n _ => String.eqb n k
  | _ => false
  end.

(** The line is not a [Path] line. *)
Definition not_path (raw : string) : bool := negb (is_param "Path" raw).

(** The value given to [k] by the last parameter line named [k] among
    the lines, and [start] when none of them is named [k]. *)
Definition assigned_from (k : string) (start : option string)
           (ls : list string) : option string :=
  fold_left
    (fun acc raw =>
       match classify raw with
       | ParamLine n g2 =>
           if String.eqb n k then Some (strip_quotes (strip g2)) else acc
       | _ => acc
       end)
    ls start.

Definition assigned (k : string) (ls : list string) : option string :=
  assigned_from k None ls.

(** The name begins with the letter E in either case, as [Exec] does. *)
Definition exec_initial (k : string) : bool :=
  match k with
  | String c _ => chr_i "E" c
  | EmptyString => false
  end.

(** A route block in which [Path] comes again after [Priority]. *)
Definition path_again_doc : string :=
  "<Route r1>" ++ nl ++ "Path in1 => out1" ++ nl ++ "Priority 10" ++ nl
  ++ "Path in1 => out1" ++ nl ++ "</Route>" ++ nl.

(** An iteration order of sets: the list made from a set holds the
    elements of the set, each once. *)
Definition enumerates (listing : pyset -> list string) : Prop :=
  forall s, Permutation (listing s) s.

(** A mapper with three sections, one of them in no route, and seven
    routes between the same two sections, the first with a priority and
    a long condition. *)
Definition palette_mapper : FlowMapper :=
  let m := add_section new_mapper "in1" "Input" (Some "im_file") [] in
  let m := add_section m "out1" "Output" None [] in
  let m := add_section m "spare" "Processor" (Some "pm_null") [] in
  let m := add_route m "r1" "in1 => out1" (Some "10")
                     (Some "$Severity == 'error' and $Host == 'web'") in
  fold_left (fun m name => add_route m name "in1 => out1" None None)
            ["r2"; "r3"; "r4"; "r5"; "r6"; "r7"] m.
(** The text expected for the diagram of [palette_mapper], line by
    line. *)
Definition palette_diagram : list string :=
  ["digraph NXLogFlow {";
   "    rankdir=LR;";
   "    node [shape=box, style=filled];";
   "    edge [fontsize=10];";
   EmptyString;
   "    // Sections";
   "    " ++ dq ++ "in1" ++ dq ++ " [label=" ++ dq
     ++ "in1\n(Input)\nim_file" ++ dq ++ ", fillcolor=" ++ dq ++ "#E8F5E8"
     ++ dq ++ "];";
   "    " ++ dq ++ "out1" ++ dq ++ " [label=" ++ dq ++ "out1\n(Output)"
     ++ dq ++ ", fillcolor=" ++ dq ++ "#FFE8E8" ++ dq ++ "];";
   "    " ++ dq ++ "spare" ++ dq ++ " [label=" ++ dq
     ++ "spare\n(Processor)\npm_null" ++ dq ++ ", fillcolor=" ++ dq
     ++ "#E8E8FF" ++ dq ++ ", style=" ++ dq ++ "filled,dashed" ++ dq ++ "];";
   EmptyString;
   "    // Flux de donn" ++ latin 233 ++ "es";
   "    " ++ dq ++ "in1" ++ dq ++ " -> " ++ dq ++ "out1" ++ dq ++ " [label="
     ++ dq ++ "Route: r1\nPriorit" ++ latin 233
     ++ ": 10\nCondition: $Severity == 'error' and $Host..." ++ dq
     ++ ", color=" ++ dq ++ "#FF6B6B" ++ dq ++ ", fontcolor=" ++ dq
     ++ "#FF6B6B" ++ dq ++ "];";
   "    " ++ dq ++ "in1" ++ dq ++ " -> " ++ dq ++ "out1" ++ dq ++ " [label="
     ++ dq ++ "Route: r2" ++ dq ++ ", color=" ++ dq ++ "#4ECDC4" ++ dq
     ++ ", fontcolor=" ++ dq ++ "#4ECDC4" ++ dq ++ "];";
   "    " ++ dq ++ "in1" ++ dq ++ " -> " ++ dq ++ "out1" ++ dq ++ " [label="
     ++ dq ++ "Route: r3" ++ dq ++ ", color=" ++ dq ++ "#45B7D1" ++ dq
     ++ ", fontcolor=" ++ dq ++ "#45B7D1" ++ dq ++ "];";
   "    " ++ dq ++ "in1" ++ dq ++ " -> " ++ dq ++ "out1" ++ dq ++ " [label="
     ++ dq ++ "Route: r4" ++ dq ++ ", color=" ++ dq ++ "#96CEB4" ++ dq
     ++ ", fontcolor=" ++ dq ++ "#96CEB4" ++ dq ++ "];";
   "    " ++ dq ++ "in1" ++ dq ++ " -> " ++ dq ++ "out1" ++ dq ++ " [label="
     ++ dq ++ "Route: r5" ++ dq ++ ", color=" ++ dq ++ "#FFEAA7" ++ dq
     ++ ", fontcolor=" ++ dq ++ "#FFEAA7" ++ dq ++ "];";
   "    " ++ dq ++ "in1" ++ dq ++ " -> " ++ dq ++ "out1" ++ dq ++ " [label="
     ++ dq ++ "Route: r6" ++ dq ++ ", color=" ++ dq ++ "#DDA0DD" ++ dq
     ++ ", fontcolor=" ++ dq ++ "#DDA0DD" ++ dq ++ "];";
   "    " ++ dq ++ "in1" ++ dq ++ " -> " ++ dq ++ "out1" ++ dq ++ " [label="
     ++ dq ++ "Route: r7" ++ dq ++ ", color=" ++ dq ++ "#FF6B6B" ++ dq
     ++ ", fontcolor=" ++ dq ++ "#FF6B6B" ++ dq ++ "];";
   EmptyString;
   "    // L" ++ latin 233 ++ "gende";
   "    subgraph cluster_legend {";
   "        label=" ++ dq ++ "L" ++ latin 233 ++ "gende" ++ dq ++ ";";
   "        style=filled;";
   "        fillcolor=" ++ dq ++ "#F5F5F5" ++ dq ++ ";";
   "        fontsize=12;";
   EmptyString;
   "        " ++ dq ++ "legend_Input" ++ dq ++ " [label=" ++ dq ++ "Input"
     ++ dq ++ ", fillcolor=" ++ dq ++ "#E8F5E8" ++ dq ++ ", shape=box];";
   "        " ++ dq ++ "legend_Output" ++ dq ++ " [label=" ++ dq ++ "Output"
     ++ dq ++ ", fillcolor=" ++ dq ++ "#FFE8E8" ++ dq ++ ", shape=box];";
   "        " ++ dq ++ "legend_Processor" ++ dq ++ " [label=" ++ dq
     ++ "Processor" ++ dq ++ ", fillcolor=" ++ dq ++ "#E8E8FF" ++ dq
     ++ ", shape=box];";
   "        " ++ dq ++ "legend_disconnected" ++ dq ++ " [label=" ++ dq
     ++ "Non connect" ++ latin 233 ++ dq ++ ", fillcolor=" ++ dq
     ++ "#FFFFFF" ++ dq ++ ", style=" ++ dq ++ "filled,dashed" ++ dq
     ++ ", shape=box];";
   "    }";
   EmptyString;
   "}"].

(** The lines of the diagram for given sections, unconnected names and
    flows, every edge in the colour [color] gives to its route. *)
Definition diagram_lines (color : string -> string)
           (info : dict SectionInfo) (unconnected : list string)
           (fl : list Flow) : list string :=
  (dot_header
   ++ map (fun kv => node_line unconnected (fst kv) (snd kv)) info
   ++ dot_flows_header
   ++ map (fun f => edge_line f (color (f_route f))) fl
   ++ dot_legend_header
   ++ legend_lines info
   ++ dot_footer)%list.

(** A route block with a priority and a condition before its [Path]
    line and others after it. *)
Definition snapshot_doc : string :=
  "<Route r1>" ++ nl ++ "Priority 5" ++ nl ++ "Condition $a == 2" ++ nl
  ++ "Path in1 => out1" ++ nl ++ "Priority 10" ++ nl
  ++ "Condition $x == 1" ++ nl ++ "</Route>" ++ nl.

(** The priority and the condition of the registered routes, and the
    [Priority] and [Condition] attributes of the registered sections. *)
Definition snapshots (m : FlowMapper)
  : list (string * (option string * option string))
    * list (string * (option string * option string)) :=
  (map (fun kv => (fst kv, (r_priority (snd kv), r_condition (snd kv))))
       (routes m),
   map (fun kv => (fst kv, (dict_get (s_details (snd kv)) "Priority",
                            dict_get (s_details (snd kv)) "Condition")))
       (sections m)).

(** * Properties *)

(** ** Lists, dictionaries and sets *)

Section ListFacts.
Context {A : Type}.

Lemma adjacent_pairs_length (l : list A) :
  List.length (adjacent_pairs l) = List.length l - 1.
Proof.
  unfold adjacent_pairs. rewrite length_combine.
  destruct l; cbn [tl List.length]; lia.
Qed.

(** The index loop [for i in range(len(l) - 1)] over [l[i], l[i+1]]
    visits the consecutive pairs in order. *)
Lemma index_pairs (d : A) (l : list A) :
  map (fun i => (nth i l d, nth (i + 1) l d)) (seq 0 (List.length l - 1))
  = adjacent_pairs l.
Proof.
  unfold adjacent_pairs.
  induction l as [|a l IH]; [reflexivity|].
  destruct l as [|b l]; [reflexivity|].
  replace (List.length (a :: b :: l) - 1) with (S (List.length (b :: l) - 1))
    by (simpl; lia).
  cbn [seq map tl]. cbn [tl] in IH.
  change (combine (a :: b :: l) (b :: l)) with ((a, b) :: combine (b :: l) l).
  f_equal.
  rewrite <- seq_shift, map_map.
  rewrite <- IH. apply map_ext. intros i. reflexivity.
Qed.

Lemma adjacent_pairs_nth (d : A) (l : list A) (i : nat) :
  i < List.length l - 1 ->
  nth_error (adjacent_pairs l) i = Some (nth i l d, nth (i + 1) l d).
Proof.
  intros Hi. rewrite <- (index_pairs d).
  rewrite nth_error_map, nth_error_nth' with (d := 0)
    by (rewrite length_seq; exact Hi).
  rewrite seq_nth by exact Hi. reflexivity.
Qed.

End ListFacts.

(** ** Flow edges of a route *)

Lemma route_flows_edges (secs : dict SectionEntry) (name : string) (r : RouteInfo) :
  map edge_of (route_flows secs name r) = route_edges (name, r).
Proof.
  unfold route_flows, route_edges. cbn [fst snd].
  rewrite <- (index_pairs EmptyString), !map_map.
  apply map_ext. intros i. reflexivity.
Qed.

Lemma analyze_fold_edges (l : dict RouteInfo) :
  forall (secs : dict SectionEntry) (fl : list Flow),
    map edge_of (snd (fold_left analyze_route l (secs, fl)))
    = (map edge_of fl ++ flat_map route_edges l)%list.
Proof.
  induction l as [|[name r] l IH]; intros secs fl.
  - cbn. now rewrite app_nil_r.
  - cbn [fold_left flat_map]. unfold analyze_route at 2. cbn [fst snd].
    rewrite IH, map_app, route_flows_edges, <- app_assoc. reflexivity.
Qed.

Lemma analyzed_edges (m : FlowMapper) :
  map edge_of (flows (analyzed m)) = flat_map route_edges (routes m).
Proof.
  unfold analyzed. cbn [flows]. now rewrite analyze_fold_edges.
Qed.

(** C1. Flow analysis gives each route, in the order of the routes,
    exactly the edges between consecutive elements of its flattened list
    [inputs ++ processors ++ outputs]: one edge [(l[i], l[i+1])] for each
    [i] in [0 .. len-2] and no other.  For the path ["a, b => c => d, e"]
    the list is [a,b,c,d,e] and the edges are a->b, b->c, c->d, d->e. *)
Theorem C1_pairwise_edges :
  (forall m : FlowMapper,
      map edge_of (flows (analyzed m))
      = flat_map
          (fun kv =>
             let l := all_components (snd kv) in
             map (fun i => (fst kv, (nth i l EmptyString, nth (i + 1) l EmptyString)))
                 (seq 0 (List.length l - 1)))
          (routes m))
  /\ (forall m : FlowMapper,
         map edge_of (flows (analyzed m)) = flat_map route_edges (routes m))
  /\ (forall r : RouteInfo,
         List.length (adjacent_pairs (all_components r))
         = List.length (all_components r) - 1)
  /\ (let m := add_route new_mapper "r" "a, b => c => d, e" None None in
      map (fun kv => all_components (snd kv)) (routes m)
      = [["a"; "b"; "c"; "d"; "e"]]
      /\ map edge_of (flows (analyzed m))
         = [("r", ("a", "b")); ("r", ("b", "c")); ("r", ("c", "d"));
            ("r", ("d", "e"))])
  /\ (forall self : NXLogConfigAnalyzer,
         map edge_of (flows (snd (parse_config_file self route_example_doc)))
         = [("r", ("a", "b")); ("r", ("b", "c")); ("r", ("c", "d"));
            ("r", ("d", "e"))]).
Proof.
  split; [|split; [|split; [|split]]].
  - intros m. rewrite analyzed_edges. apply flat_map_ext. intros [name r].
    unfold route_edges. cbn [fst snd].
    rewrite <- (index_pairs EmptyString), map_map. reflexivity.
  - exact analyzed_edges.
  - intros r. apply adjacent_pairs_length.
  - split; vm_compute; reflexivity.
  - intros self. vm_compute. reflexivity.
Qed.

(** ** Trimming *)

Lemma lstrip_head (s : string) :
  lstrip s = EmptyString
  \/ exists c t, lstrip s = String c t /\ is_space c = false.
Proof.
  induction s as [|c s IH]; [now left|].
  cbn [lstrip]. destruct (is_space c) eqn:Hc; [exact IH|].
  right. now exists c, s.
Qed.

Lemma rstrip_head (c : ascii) (t : string) :
  is_space c = false -> exists t', rstrip (String c t) = String c t'.
Proof.
  intros Hc. cbn [rstrip]. destruct (rstrip t) as [|a r].
  - rewrite Hc. now exists EmptyString.
  - now exists (String a r).
Qed.

Lemma rstrip_idempotent (s : string) : rstrip (rstrip s) = rstrip s.
Proof.
  induction s as [|c s IH]; [reflexivity|].
  cbn [rstrip]. destruct (rstrip s) as [|a r] eqn:Hr.
  - destruct (is_space c) eqn:Hc; [reflexivity|].
    cbn [rstrip]. now rewrite Hc.
  - change (rstrip (String c (String a r))) with
      (match rstrip (String a r) with
       | EmptyString => if is_space c then EmptyString else String c EmptyString
       | String _ _ as r0 => String c r0
       end).
    now rewrite IH.
Qed.

Lemma strip_idempotent (s : string) : strip (strip s) = strip s.
Proof.
  unfold strip. destruct (lstrip_head s) as [H | (c & t & H & Hc)]; rewrite H.
  - reflexivity.
  - destruct (rstrip_head c t Hc) as [t' Ht']. rewrite Ht'.
    cbn [lstrip]. rewrite Hc, <- Ht'. apply rstrip_idempotent.
Qed.

Lemma split_names_stripped (s x : string) :
  In x (split_names s) -> strip x = x.
Proof.
  unfold split_names. rewrite in_map_iff. intros (y & <- & _).
  apply strip_idempotent.
Qed.

(** ** The cartesian helper *)

Lemma flat_map_nil {A B : Type} (l : list A) :
  flat_map (fun _ : A => @nil B) l = [].
Proof. induction l; [reflexivity | exact IHl]. Qed.

Lemma guarded_pairs_dests (source : string) (D : list string) :
  (forall d, In d D -> strip d = d) ->
  strip source = source ->
  truthy source = true ->
  flat_map
    (fun dest =>
       if truthy source && truthy dest
       then [(strip source, strip dest)] else [])
    D
  = map (pair source) (filter truthy D).
Proof.
  intros HD Hs Ht. induction D as [|d D IH]; [reflexivity|].
  cbn [flat_map filter]. rewrite IH by (intros; apply HD; now right).
  rewrite Ht, Hs, (HD d) by now left.
  cbn [andb]. now destruct (truthy d).
Qed.

Lemma guarded_pairs_product (S D : list string) :
  (forall s, In s S -> strip s = s) ->
  (forall d, In d D -> strip d = d) ->
  flat_map
    (fun source =>
       flat_map
         (fun dest =>
            if truthy source && truthy dest
            then [(strip source, strip dest)] else [])
         D)
    S
  = list_prod (filter truthy S) (filter truthy D).
Proof.
  intros HS HD. induction S as [|s S IH]; [reflexivity|].
  cbn [flat_map filter]. rewrite IH by (intros; apply HS; now right).
  pose proof (guarded_pairs_dests s D HD (HS s (or_introl eq_refl))) as HG.
  destruct (truthy s) eqn:Ht.
  - rewrite HG by reflexivity. reflexivity.
  - cbn [andb]. now rewrite flat_map_nil.
Qed.

Lemma flat_map_map {A B C : Type} (g : B -> list C) (h : A -> B) (l : list A) :
  flat_map g (map h l) = flat_map (fun x => g (h x)) l.
Proof.
  induction l as [|a l IH]; [reflexivity|]. cbn. now rewrite IH.
Qed.

Lemma parse_path_expression_product (path_expr : string) :
  _parse_path_expression path_expr
  = flat_map
      (fun sd => list_prod (stage_names (fst sd)) (stage_names (snd sd)))
      (adjacent_pairs (split_stages (strip path_expr))).
Proof.
  unfold _parse_path_expression.
  rewrite <- (index_pairs EmptyString), flat_map_map.
  apply flat_map_ext. intros i. cbn [fst snd].
  apply guarded_pairs_product; intros x; apply split_names_stripped.
Qed.

(** C2, as stated, fails: in ["a, => b"] the first stage splits at its
    comma into the names [a] and the empty name; the pair of the empty
    name with [b] is in the cartesian product and is not emitted. *)
Lemma C2_counterexample :
  In (EmptyString, "b") (expandPairs_spec "a, => b")
  /\ ~ In (EmptyString, "b") (_parse_path_expression "a, => b").
Proof.
  split.
  - vm_compute. right. now left.
  - vm_compute. intros [H | []]. discriminate H.
Qed.

(** C2, amended. For any path expression the helper splits it at the
    stage separator and, for every adjacent pair of stages in order,
    emits the cartesian product of the two stages' non-empty
    comma-separated names (a pair with an empty name is skipped).  For
    ["a, b => c, d"] it yields a->c, a->d, b->c, b->d, whereas the primary
    pairwise construction yields a->b, b->c, c->d. *)
Theorem C2_cartesian_helper :
  (forall path_expr : string,
      _parse_path_expression path_expr
      = flat_map
          (fun sd => list_prod (stage_names (fst sd)) (stage_names (snd sd)))
          (adjacent_pairs (split_stages (strip path_expr))))
  /\ _parse_path_expression "a, b => c, d"
     = [("a", "c"); ("a", "d"); ("b", "c"); ("b", "d")]
  /\ primary_edges "a, b => c, d" = [("a", "b"); ("b", "c"); ("c", "d")].
Proof.
  split; [exact parse_path_expression_product|].
  split; vm_compute; reflexivity.
Qed.

(** ** Sets of names *)

Lemma set_mem_In (x : string) (s : pyset) : set_mem x s = true <-> In x s.
Proof.
  unfold set_mem. rewrite existsb_exists. split.
  - intros (y & Hy & Heq). apply String.eqb_eq in Heq. now subst.
  - intros H. exists x. split; [exact H | apply String.eqb_refl].
Qed.

Lemma set_mem_false (x : string) (s : pyset) : set_mem x s = false <-> ~ In x s.
Proof.
  rewrite <- set_mem_In. destruct (set_mem x s); split; congruence.
Qed.

Lemma set_add_In (s : pyset) (x y : string) :
  In y (set_add s x) <-> In y s \/ y = x.
Proof.
  unfold set_add. destruct (set_mem x s) eqn:Hm.
  - apply set_mem_In in Hm. split; [now left|]. intros [H | ->]; assumption.
  - rewrite in_app_iff. cbn. intuition congruence.
Qed.

Lemma set_of_list_acc (xs : list string) :
  forall (acc : pyset) (y : string),
    In y (fold_left set_add xs acc) <-> In y acc \/ In y xs.
Proof.
  induction xs as [|x xs IH]; intros acc y; cbn [fold_left].
  - cbn. intuition.
  - rewrite IH, set_add_In. cbn. intuition congruence.
Qed.

Lemma set_of_list_In (xs : list string) (y : string) :
  In y (set_of_list xs) <-> In y xs.
Proof.
  unfold set_of_list. rewrite set_of_list_acc. cbn. intuition.
Qed.

Lemma set_diff_In (a b : pyset) (y : string) :
  In y (set_diff a b) <-> In y a /\ ~ In y b.
Proof.
  unfold set_diff. rewrite filter_In, negb_true_iff, set_mem_false. reflexivity.
Qed.

Lemma connected_sections_acc (fl : list Flow) :
  forall (acc : pyset) (y : string),
    In y (fold_left (fun a f => set_add (set_add a (f_source f)) (f_target f))
                    fl acc)
    <-> In y acc \/ endpoint_in fl y.
Proof.
  unfold endpoint_in.
  induction fl as [|f fl IH]; intros acc y; cbn [fold_left].
  - split; [now left|]. intros [H | (f & [] & _)]. exact H.
  - rewrite IH, !set_add_In. split.
    + intros [[[H | ->] | ->] | (g & Hg & Hy)].
      * now left.
      * right. exists f. split; [now left | now left].
      * right. exists f. split; [now left | now right].
      * right. exists g. split; [now right | exact Hy].
    + intros [H | (g & [<- | Hg] & Hy)].
      * now left; left; left.
      * left. destruct Hy as [<- | <-]; [left; now right | now right].
      * right. now exists g.
Qed.

Lemma connected_sections_In (fl : list Flow) (y : string) :
  In y (connected_sections fl) <-> endpoint_in fl y.
Proof.
  unfold connected_sections. rewrite connected_sections_acc. cbn. intuition.
Qed.

(** ** Unconnected sections *)

Lemma unconnected_iff (m : FlowMapper) (name : string) :
  In name (unconnected_sections (analyzed m))
  <-> In name (dict_keys (sections_info m))
      /\ ~ endpoint_in (flows (analyzed m)) name.
Proof.
  unfold analyzed. cbn [unconnected_sections flows].
  now rewrite set_diff_In, set_of_list_In, connected_sections_In.
Qed.

Lemma edge_endpoints (fl : list Flow) (name : string) :
  endpoint_in fl name ->
  exists e, In e (map edge_of fl) /\ (fst (snd e) = name \/ snd (snd e) = name).
Proof.
  intros (f & Hf & Hy). exists (edge_of f). split; [now apply in_map | exact Hy].
Qed.

Lemma adjacent_pairs_In {A : Type} (l : list A) (x y : A) :
  In (x, y) (adjacent_pairs l) -> In x l /\ In y l.
Proof.
  unfold adjacent_pairs. intros H. split.
  - eapply in_combine_l; exact H.
  - apply in_combine_r in H. destruct l; [contradiction | now right].
Qed.

Lemma endpoint_is_component (m : FlowMapper) (name : string) :
  endpoint_in (flows (analyzed m)) name ->
  exists kv, In kv (routes m) /\ In name (all_components (snd kv)).
Proof.
  intros H. apply edge_endpoints in H. destruct H as ([rn [s t]] & He & Hy).
  rewrite analyzed_edges, in_flat_map in He. destruct He as (kv & Hkv & He).
  exists kv. split; [exact Hkv|].
  unfold route_edges in He. rewrite in_map_iff in He.
  destruct He as ([s' t'] & Heq & Hp). injection Heq as _ -> ->.
  apply adjacent_pairs_In in Hp. cbn [fst snd] in Hy.
  destruct Hy as [<- | <-]; tauto.
Qed.

(** C9. After the analysis a name is in [unconnected_sections] exactly
    when it is a declared section name and is neither the source nor the
    target of any flow; hence a declared section that is a component of
    no route's path is unconnected and is the endpoint of no flow. *)
Theorem C9_unconnected_sections :
  (forall (m : FlowMapper) (name : string),
      In name (unconnected_sections (analyzed m))
      <-> In name (dict_keys (sections_info m))
          /\ ~ (exists f, In f (flows (analyzed m)) /\ f_source f = name)
          /\ ~ (exists f, In f (flows (analyzed m)) /\ f_target f = name))
  /\ (forall (m : FlowMapper) (name : string),
         In name (dict_keys (sections_info m)) ->
         (forall kv, In kv (routes m) -> ~ In name (all_components (snd kv))) ->
         In name (unconnected_sections (analyzed m))
         /\ (forall f, In f (flows (analyzed m)) ->
                       f_source f <> name /\ f_target f <> name)).
Proof.
  split.
  - intros m name. rewrite unconnected_iff. unfold endpoint_in. split.
    + intros (Hd & Hn). repeat split; [exact Hd | |];
        intros (f & Hf & Hy); apply Hn; exists f; tauto.
    + intros (Hd & Hs & Ht). split; [exact Hd|].
      intros (f & Hf & [Hy | Hy]); [apply Hs | apply Ht]; now exists f.
  - intros m name Hd Hr.
    assert (Hn : ~ endpoint_in (flows (analyzed m)) name).
    { intros H. apply endpoint_is_component in H.
      destruct H as (kv & Hkv & Hin). exact (Hr kv Hkv Hin). }
    split; [apply unconnected_iff; now split|].
    intros f Hf. split; intros Hy; apply Hn; exists f; tauto.
Qed.

Lemma spare_declared : In "spare" (dict_keys (sections_info spare_mapper)).
Proof. vm_compute. right. left. reflexivity. Qed.

Lemma spare_components :
  map (fun kv => all_components (snd kv)) (routes spare_mapper) = [["in1"; "out1"]].
Proof. vm_compute. reflexivity. Qed.

(** C9 at [spare_doc]: the section [spare] is declared and no route
    names it. *)
Lemma C9_unconnected_sections_witness :
  In "spare" (unconnected_sections (analyzed spare_mapper))
  /\ (forall f, In f (flows (analyzed spare_mapper)) ->
                f_source f <> "spare" /\ f_target f <> "spare").
Proof.
  apply (proj2 C9_unconnected_sections spare_mapper "spare").
  - exact spare_declared.
  - intros kv Hkv Hin.
    assert (H : In (all_components (snd kv))
                   (map (fun kv => all_components (snd kv)) (routes spare_mapper)))
      by (apply (in_map (fun kv => all_components (snd kv))); exact Hkv).
    rewrite spare_components in H. destruct H as [H | []].
    rewrite <- H in Hin.
    destruct Hin as [H' | [H' | []]]; discriminate H'.
Defined.

(** ** Statistics *)

Lemma dict_get_set {V : Type} (d : dict V) (k k' : string) (v : V) :
  dict_get (dict_set d k v) k'
  = if String.eqb k k' then Some v else dict_get d k'.
Proof.
  induction d as [|[k0 v0] d IH]; cbn [dict_set dict_get].
  - reflexivity.
  - destruct (String.eqb k0 k) eqn:E0.
    + apply String.eqb_eq in E0. subst k0. cbn [dict_get].
      now destruct (String.eqb k k').
    + cbn [dict_get]. destruct (String.eqb k0 k') eqn:E1.
      * apply String.eqb_eq in E1. subst k0.
        rewrite String.eqb_sym in E0. now rewrite E0.
      * exact IH.
Qed.

Lemma dict_update_other {V : Type} (e : dict V) :
  forall (d : dict V) (k : string),
    dict_get e k = None ->
    dict_get (dict_update d e) k = dict_get d k.
Proof.
  unfold dict_update.
  induction e as [|[k0 v0] e IH]; intros d k Hk; cbn [fold_left fst snd].
  - reflexivity.
  - cbn [dict_get] in Hk. destruct (String.eqb k0 k) eqn:E0; [discriminate|].
    rewrite IH by exact Hk. now rewrite dict_get_set, E0.
Qed.

Lemma list_sum_count (d : dict nat) (k : string) :
  list_sum (dict_values
              (dict_set d k
                 (match dict_get d k with Some n => n | None => 0 end + 1)))
  = list_sum (dict_values d) + 1.
Proof.
  unfold dict_values.
  induction d as [|[k0 v0] d IH]; cbn [dict_set dict_get].
  - cbn. lia.
  - destruct (String.eqb k0 k).
    + cbn. lia.
    + change (v0 + list_sum (map snd
                (dict_set d k
                   (match dict_get d k with Some n => n | None => 0 end + 1)))
              = v0 + list_sum (map snd d) + 1).
      rewrite IH. lia.
Qed.

Lemma type_counts_sum_acc (l : list SectionInfo) :
  forall acc : dict nat,
    list_sum (dict_values
                (fold_left
                   (fun acc i =>
                      dict_set acc (i_type i)
                        (match dict_get acc (i_type i) with
                         | Some n => n
                         | None => 0
                         end + 1))
                   l acc))
    = list_sum (dict_values acc) + List.length l.
Proof.
  induction l as [|i l IH]; intros acc; cbn [fold_left List.length].
  - lia.
  - rewrite IH, list_sum_count. lia.
Qed.

(** The per-type counts add up to the number of sections. *)
Lemma type_counts_sum (info : dict SectionInfo) :
  list_sum (dict_values (type_counts info)) = List.length info.
Proof.
  unfold type_counts. rewrite type_counts_sum_acc.
  unfold dict_values. rewrite length_map. reflexivity.
Qed.

(** When no section has the type [total_flows], the statistics report
    the number of flows under that key. *)
Lemma stats_total_flows_no_clash (m : FlowMapper) :
  dict_get (type_counts (sections_info m)) "total_flows" = None ->
  dict_get (_get_flow_stats m) "total_flows" = Some (List.length (flows m)).
Proof.
  intros H. unfold _get_flow_stats. now rewrite dict_update_other.
Qed.

(** C5 does not hold of the code.  [_get_flow_stats] stores the per-type
    counts in the dictionary that already holds [total_flows] and
    [total_sections], so a section whose type is [total_flows] replaces
    the number of flows by the number of such sections (here 1, with no
    flow at all), and a section whose type is [total_sections] replaces
    the number of sections (here 2, the sum of the per-type counts) by
    the number of such sections (here 1). *)
Theorem C5_stats_key_clash :
  forall self : NXLogConfigAnalyzer,
    (dict_get (a_stats (stats_of self clash_doc)) "total_flows" = Some 1
     /\ List.length (a_flows (stats_of self clash_doc)) = 0
     /\ dict_keys (a_sections (stats_of self clash_doc)) = ["x"])
    /\ (a_stats (stats_of self clash_sections_doc)
        = [("total_routes", 0); ("total_sections", 1); ("total_flows", 0);
           ("unconnected_sections", 2); ("Input", 1)]
        /\ type_counts (a_sections (stats_of self clash_sections_doc))
           = [("total_sections", 1); ("Input", 1)]
        /\ List.length (a_sections (stats_of self clash_sections_doc)) = 2).
Proof.
  intros self. split; vm_compute; repeat split; reflexivity.
Qed.

(** ** Repeating the analysis *)

Lemma same_kinds_refl (s : dict SectionEntry) : same_kinds s s.
Proof. intros name. now split. Qed.

Lemma same_kinds_sym (s s' : dict SectionEntry) :
  same_kinds s s' -> same_kinds s' s.
Proof. intros H name. destruct (H name). now split. Qed.

Lemma same_kinds_trans (s1 s2 s3 : dict SectionEntry) :
  same_kinds s1 s2 -> same_kinds s2 s3 -> same_kinds s1 s3.
Proof.
  intros H12 H23 name. destruct (H12 name), (H23 name). split; congruence.
Qed.

Lemma mark_connected_kinds (route_name : string) (names : list string) :
  forall secs, same_kinds secs (mark_connected route_name secs names).
Proof.
  unfold mark_connected.
  induction names as [|n names IH]; intros secs; cbn [fold_left].
  - apply same_kinds_refl.
  - eapply same_kinds_trans; [|apply IH].
    destruct (dict_get secs n) as [e|] eqn:He; [|apply same_kinds_refl].
    intros name. unfold type_of, module_of. rewrite dict_get_set.
    destruct (String.eqb n name) eqn:E; [|now split].
    apply String.eqb_eq in E. subst name. rewrite He. now split.
Qed.

Lemma route_flows_kinds (s s' : dict SectionEntry) (name : string) (r : RouteInfo) :
  same_kinds s s' -> route_flows s name r = route_flows s' name r.
Proof.
  intros H. unfold route_flows. apply map_ext. intros i. unfold make_flow.
  destruct (H (nth i (all_components r) EmptyString)) as [-> ->].
  destruct (H (nth (i + 1) (all_components r) EmptyString)) as [-> ->].
  reflexivity.
Qed.

Lemma analyze_fold_kinds (l : dict RouteInfo) :
  forall s s' fl,
    same_kinds s s' ->
    same_kinds s (fst (fold_left analyze_route l (s', fl)))
    /\ snd (fold_left analyze_route l (s, fl))
       = snd (fold_left analyze_route l (s', fl)).
Proof.
  induction l as [|[name r] l IH]; intros s s' fl H; cbn [fold_left].
  - now split.
  - unfold analyze_route at 2 4. cbn [fst snd].
    set (c := all_components r).
    assert (Hm : same_kinds (mark_connected name s c) (mark_connected name s' c)).
    { eapply same_kinds_trans; [apply same_kinds_sym, mark_connected_kinds|].
      eapply same_kinds_trans; [exact H | apply mark_connected_kinds]. }
    rewrite (route_flows_kinds _ _ name r Hm).
    destruct (IH _ _ (snd (s', fl) ++ route_flows (mark_connected name s' c) name r)%list Hm)
      as [H1 H2].
    split; [|exact H2].
    eapply same_kinds_trans; [apply mark_connected_kinds | exact H1].
Qed.

Lemma analyzed_again (listing : pyset -> list string) (m : FlowMapper) :
  snd (analyze_flows listing (analyzed m)) = snd (analyze_flows listing m).
Proof.
  unfold analyze_flows. cbn [snd].
  assert (Hf : flows (analyzed (analyzed m)) = flows (analyzed m)).
  { unfold analyzed at 1 3. cbn [flows].
    unfold analyzed. cbn [routes sections].
    symmetry.
    apply (analyze_fold_kinds (routes m) (sections m)
             (fst (fold_left analyze_route (routes m) (sections m, []))) []).
    apply (analyze_fold_kinds (routes m) (sections m) (sections m) []).
    apply same_kinds_refl. }
  assert (Hu : unconnected_sections (analyzed (analyzed m))
               = unconnected_sections (analyzed m)).
  { unfold analyzed at 1. cbn [unconnected_sections].
    fold (flows (analyzed (analyzed m))).
    change (snd (fold_left analyze_route (routes (analyzed m))
                   (sections (analyzed m), [])))
      with (flows (analyzed (analyzed m))).
    rewrite Hf. reflexivity. }
  assert (Hg : graphviz_content (analyzed (analyzed m))
               = graphviz_content (analyzed m)).
  { change (graphviz_content (analyzed (analyzed m)))
      with (_generate_graphviz (sections_info (analyzed m))
              (unconnected_sections (analyzed (analyzed m)))
              (flows (analyzed (analyzed m)))).
    rewrite Hu, Hf. reflexivity. }
  unfold _get_flow_stats. rewrite Hf, Hu, Hg. reflexivity.
Qed.

(** ** Edge colours *)

Lemma index_of_app_in (x : string) (l l' : list string) :
  In x l -> index_of x (l ++ l') = index_of x l.
Proof.
  induction l as [|y l IH]; intros H; [contradiction|].
  cbn [app index_of]. destruct (String.eqb y x) eqn:E; [reflexivity|].
  f_equal. apply IH. destruct H as [-> | H]; [|exact H].
  now rewrite String.eqb_refl in E.
Qed.

Lemma index_of_app_new (x : string) (l : list string) :
  ~ In x l -> index_of x (l ++ [x]) = List.length l.
Proof.
  induction l as [|y l IH]; intros H; cbn [app index_of List.length].
  - now rewrite String.eqb_refl.
  - destruct (String.eqb y x) eqn:E.
    + apply String.eqb_eq in E. subst y. exfalso. apply H. now left.
    + f_equal. apply IH. intros Hin. apply H. now right.
Qed.

Lemma first_seen_extends (names : list string) :
  forall seen, exists ext, fold_left add_seen names seen = (seen ++ ext)%list.
Proof.
  induction names as [|r names IH]; intros seen; cbn [fold_left].
  - exists []. now rewrite app_nil_r.
  - unfold add_seen at 2. destruct (set_mem r seen).
    + apply IH.
    + destruct (IH (seen ++ [r])%list) as [ext Hext].
      exists (r :: ext). now rewrite Hext, <- app_assoc.
Qed.

Lemma add_seen_In (seen : list string) (r : string) : In r (add_seen seen r).
Proof.
  unfold add_seen. destruct (set_mem r seen) eqn:Hm.
  - now apply set_mem_In.
  - apply in_app_iff. right. now left.
Qed.

Lemma index_of_first_seen (names seen : list string) (r : string) :
  index_of r (fold_left add_seen names (add_seen seen r))
  = index_of r (add_seen seen r).
Proof.
  destruct (first_seen_extends names (add_seen seen r)) as [ext ->].
  apply index_of_app_in, add_seen_In.
Qed.

Lemma edge_step_line (seen : list string) (st : EdgeLoop) (f : Flow) :
  colors_of seen st ->
  edge_lines (edge_step st f)
  = (edge_lines st
     ++ [edge_line f
           (palette_color (index_of (f_route f) (add_seen seen (f_route f))))])%list.
Proof.
  intros [Hidx Hmap]. unfold edge_step, dict_mem, add_seen.
  rewrite (Hmap (f_route f)).
  destruct (set_mem (f_route f) seen) eqn:Hm;
    cbn [route_color_map color_index edge_lines].
  - now rewrite (Hmap (f_route f)), Hm.
  - rewrite dict_get_set, String.eqb_refl, Hidx.
    rewrite index_of_app_new by now apply set_mem_false.
    reflexivity.
Qed.

Lemma edge_step_map (st : EdgeLoop) (f : Flow) :
  route_color_map (edge_step st f)
  = if dict_mem (route_color_map st) (f_route f) then route_color_map st
    else dict_set (route_color_map st) (f_route f) (palette_color (color_index st)).
Proof.
  unfold edge_step. now destruct (dict_mem (route_color_map st) (f_route f)).
Qed.

Lemma edge_step_index (st : EdgeLoop) (f : Flow) :
  color_index (edge_step st f)
  = if dict_mem (route_color_map st) (f_route f) then color_index st
    else color_index st + 1.
Proof.
  unfold edge_step. now destruct (dict_mem (route_color_map st) (f_route f)).
Qed.

Lemma edge_step_colors (seen : list string) (st : EdgeLoop) (f : Flow) :
  colors_of seen st -> colors_of (add_seen seen (f_route f)) (edge_step st f).
Proof.
  intros [Hidx Hmap]. unfold colors_of.
  rewrite edge_step_map, edge_step_index. unfold dict_mem, add_seen.
  rewrite (Hmap (f_route f)).
  destruct (set_mem (f_route f) seen) eqn:Hm.
  - split; [exact Hidx | exact Hmap].
  - split; [rewrite length_app, Hidx; reflexivity|].
    intros r. rewrite dict_get_set, Hmap.
    destruct (String.eqb (f_route f) r) eqn:E.
    + apply String.eqb_eq in E. subst r.
      assert (Hs : set_mem (f_route f) (seen ++ [f_route f])%list = true)
        by (apply set_mem_In, in_app_iff; right; now left).
      rewrite Hs, index_of_app_new by now apply set_mem_false.
      now rewrite Hidx.
    + destruct (set_mem r seen) eqn:Hr.
      * assert (Hs : set_mem r (seen ++ [f_route f])%list = true)
          by (apply set_mem_In, in_app_iff; left; now apply set_mem_In).
        rewrite Hs, index_of_app_in by now apply set_mem_In.
        reflexivity.
      * assert (Hs : set_mem r (seen ++ [f_route f])%list = false).
        { apply set_mem_false. rewrite in_app_iff.
          intros [H | [H | []]].
          - now apply set_mem_false in Hr.
          - subst r. now rewrite String.eqb_refl in E. }
        now rewrite Hs.
Qed.

Lemma edge_loop_colors (fl : list Flow) :
  forall (seen : list string) (st : EdgeLoop),
    colors_of seen st ->
    edge_lines (fold_left edge_step fl st)
    = (edge_lines st
       ++ map (fun f =>
                 edge_line f
                   (palette_color
                      (index_of (f_route f)
                         (fold_left add_seen (map f_route fl) seen))))
              fl)%list.
Proof.
  induction fl as [|f fl IH]; intros seen st Hc; cbn [fold_left map].
  - now rewrite app_nil_r.
  - rewrite (IH _ _ (edge_step_colors seen st f Hc)).
    rewrite (edge_step_line seen st f Hc), index_of_first_seen.
    rewrite <- app_assoc. reflexivity.
Qed.

Lemma edge_lines_colors (fl : list Flow) :
  edge_lines (edge_loop fl)
  = map (fun f => edge_line f (route_color fl (f_route f))) fl.
Proof.
  unfold edge_loop. rewrite (edge_loop_colors fl []).
  - reflexivity.
  - split; [reflexivity | intros r; reflexivity].
Qed.

(** ** The scanning loop *)

Lemma nth_error_mid {A : Type} (pre post : list A) (x : A) :
  nth_error (pre ++ x :: post) (List.length pre) = Some x.
Proof.
  rewrite nth_error_app2 by lia. now rewrite Nat.sub_diag.
Qed.

Lemma skipn_mid {A : Type} (pre post : list A) (x : A) :
  skipn (List.length pre + 1) (pre ++ x :: post) = post.
Proof.
  rewrite skipn_app, skipn_all2 by lia.
  replace (List.length pre + 1 - List.length pre) with 1 by lia.
  reflexivity.
Qed.

Lemma run_step_last (self : NXLogConfigAnalyzer) (lines : list string) (k : nat) :
  forall st, run self lines (S k) st = step self lines (run self lines k st).
Proof.
  induction k as [|k IH]; intros st; [reflexivity|].
  change (run self lines (S (S k)) st)
    with (run self lines (S k) (step self lines st)).
  rewrite IH. reflexivity.
Qed.

Lemma run_add (self : NXLogConfigAnalyzer) (lines : list string) (a b : nat) :
  forall st, run self lines (a + b) st = run self lines b (run self lines a st).
Proof.
  induction a as [|a IH]; intros st; [reflexivity|].
  cbn [Nat.add run]. apply IH.
Qed.

Lemma collect_exec_block_cursor (rest : list string) :
  forall acc i, i <= snd (collect_exec_block rest acc i).
Proof.
  induction rest as [|l rest IH]; intros acc i; cbn [collect_exec_block snd].
  - lia.
  - destruct (matches exec_close_re (strip l)); cbn [snd]; [lia|].
    etransitivity; [|apply IH]. lia.
Qed.

Lemma collect_exec_lines_cursor (rest : list string) :
  forall acc j, j <= snd (collect_exec_lines rest acc j).
Proof.
  induction rest as [|l rest IH]; intros acc j; cbn [collect_exec_lines snd].
  - lia.
  - destruct (is_empty (strip l)).
    + etransitivity; [|apply IH]. lia.
    + destruct (re_match next_exec_re (strip l)) as [[|g1 gs]|]; cbn [snd];
        try lia.
      etransitivity; [|apply IH]. lia.
Qed.

Lemma merged_value_cursor (lines : list string) (i : nat) (n v : string) :
  i <= snd (merged_value lines i n v).
Proof.
  unfold merged_value. destruct (String.eqb (lower n) "exec"); cbn [snd]; [|lia].
  pose proof (collect_exec_lines_cursor (skipn (i + 1) lines) [v] (i + 1)) as H.
  destruct (collect_exec_lines (skipn (i + 1) lines) [v] (i + 1)) as [el j].
  cbn [snd] in *. lia.
Qed.

Lemma param_step_cursor (self : NXLogConfigAnalyzer) (lines : list string)
      (st : PState) (n g2 : string) :
  line_i st < line_i (param_step self lines st n g2).
Proof.
  unfold param_step.
  pose proof (merged_value_cursor lines (line_i st) n (strip g2)) as H.
  destruct (merged_value lines (line_i st) n (strip g2)) as [v i].
  cbn [snd line_i] in *. lia.
Qed.

Lemma exec_block_step_cursor (self : NXLogConfigAnalyzer) (lines : list string)
      (st : PState) :
  line_i st < line_i (exec_block_step self lines st).
Proof.
  unfold exec_block_step.
  pose proof (collect_exec_block_cursor (skipn (line_i st + 1) lines) []
                (line_i st + 1)) as H.
  destruct (collect_exec_block (skipn (line_i st + 1) lines) [] (line_i st + 1))
    as [el i].
  cbn [snd line_i] in *. lia.
Qed.

(** Every iteration inside the input moves the cursor forward. *)
Lemma step_cursor (self : NXLogConfigAnalyzer) (lines : list string) (st : PState) :
  line_i st < List.length lines -> line_i st < line_i (step self lines st).
Proof.
  intros Hlt. unfold step.
  destruct (nth_error lines (line_i st)) as [raw|] eqn:Hraw.
  - destruct (classify raw); try (cbn [advance open_step close_step line_i]; lia).
    + apply exec_block_step_cursor.
    + destruct (truthy_opt (current_section st)).
      * apply param_step_cursor.
      * cbn [advance line_i]. lia.
  - apply nth_error_None in Hraw. lia.
Qed.

Lemma step_cursor_le (self : NXLogConfigAnalyzer) (lines : list string) (st : PState) :
  line_i st <= line_i (step self lines st).
Proof.
  destruct (Nat.lt_ge_cases (line_i st) (List.length lines)) as [H | H].
  - apply Nat.lt_le_incl, step_cursor, H.
  - unfold step. apply nth_error_None in H. now rewrite H.
Qed.

Lemma run_cursor (self : NXLogConfigAnalyzer) (lines : list string) (k : nat) :
  forall st,
    Nat.min (List.length lines) (line_i st + k) <= line_i (run self lines k st).
Proof.
  induction k as [|k IH]; intros st; cbn [run].
  - lia.
  - specialize (IH (step self lines st)).
    destruct (Nat.lt_ge_cases (line_i st) (List.length lines)) as [H | H].
    + pose proof (step_cursor self lines st H). lia.
    + pose proof (step_cursor_le self lines st). lia.
Qed.

(** The loop exits: after [len(lines)] iterations the cursor is at or
    past the end, and further iterations change nothing. *)
Lemma scan_reaches_end (self : NXLogConfigAnalyzer) (lines : list string) :
  List.length lines <= line_i (scan self lines)
  /\ step self lines (scan self lines) = scan self lines.
Proof.
  assert (H : List.length lines <= line_i (scan self lines)).
  { unfold scan. pose proof (run_cursor self lines (List.length lines) initial_state).
    cbn [initial_state line_i] in *. lia. }
  split; [exact H|].
  unfold step. apply nth_error_None in H. now rewrite H.
Qed.

(** ** Matches of the patterns *)

Lemma backtrack_some (capture : bool) (cont : string -> option (list string))
      (s : string) (k : nat) (gs : list string) :
  backtrack capture cont s k = Some gs ->
  exists k' gs',
    1 <= k' <= k
    /\ cont (drop k' s) = Some gs'
    /\ gs = if capture then take k' s :: gs' else gs'.
Proof.
  induction k as [|k IH]; cbn [backtrack]; [discriminate|].
  destruct (cont (drop (S k) s)) as [gs'|] eqn:Hc.
  - intros H. injection H as <-. exists (S k), gs'. repeat split; [lia | lia | exact Hc].
  - intros H. destruct (IH H) as (k' & gs' & Hk & Hc' & Hgs).
    exists k', gs'. repeat split; [lia | lia | exact Hc' | exact Hgs].
Qed.

Lemma take_truthy (p : ascii -> bool) (s : string) (k : nat) :
  1 <= k <= span p s -> truthy (take k s) = true.
Proof.
  intros [H1 H2]. destruct s as [|c s]; [cbn in H2; lia|].
  destruct k as [|k]; [lia|]. reflexivity.
Qed.

(** Both groups of an opening tag are non-empty. *)
Lemma section_re_groups (line g1 g2 : string) (gs : list string) :
  re_match section_re line = Some (g1 :: g2 :: gs) ->
  truthy g1 = true /\ truthy g2 = true.
Proof.
  unfold section_re. cbn [re_match].
  destruct line as [|c line]; [discriminate|].
  destruct (chr "<" c); [|discriminate].
  intros H. apply backtrack_some in H.
  destruct H as (k1 & gs1 & Hk1 & H & Heq). injection Heq as Hg1 Hgs1.
  subst g1 gs1.
  split; [eapply take_truthy; exact Hk1|].
  apply backtrack_some in H. destruct H as (k2 & gs2 & Hk2 & H & Heq).
  subst gs2. apply backtrack_some in H.
  destruct H as (k3 & gs3 & Hk3 & H & Heq). injection Heq as Hg2 Hgs3.
  subst g2. eapply take_truthy; exact Hk3.
Qed.

Lemma classify_open_truthy (raw t n : string) :
  classify raw = OpenTag t n -> truthy t = true /\ truthy n = true.
Proof.
  unfold classify. destruct (is_empty (strip raw)); [discriminate|].
  destruct (re_match section_re (strip raw)) as [[|g1 [|g2 gs]]|] eqn:Hm;
    try (destruct (matches close_re (strip raw)); [discriminate|];
         destruct (matches exec_open_re (strip raw)); [discriminate|];
         destruct (re_match param_re (strip raw)) as [[|? [|? ?]]|];
         discriminate).
  intros H. injection H as <- <-. eapply section_re_groups; exact Hm.
Qed.

(** ** Registered sections *)

Lemma param_step_context (self : NXLogConfigAnalyzer) (lines : list string)
      (st : PState) (n g2 : string) :
  current_section (param_step self lines st n g2) = current_section st
  /\ current_section_name (param_step self lines st n g2)
     = current_section_name st
  /\ sections_info (flow_mapper (param_step self lines st n g2))
     = sections_info (flow_mapper st)
  /\ sections (flow_mapper (param_step self lines st n g2))
     = sections (flow_mapper st).
Proof.
  unfold param_step.
  destruct (merged_value lines (line_i st) n (strip g2)) as [v i].
  cbn [current_section current_section_name flow_mapper].
  repeat split;
    destruct (match current_section st with
              | Some s => String.eqb s "Route"
              | None => false
              end && String.eqb n "Path"); reflexivity.
Qed.

Lemma exec_block_step_context (self : NXLogConfigAnalyzer) (lines : list string)
      (st : PState) :
  current_section (exec_block_step self lines st) = current_section st
  /\ current_section_name (exec_block_step self lines st)
     = current_section_name st
  /\ flow_mapper (exec_block_step self lines st) = flow_mapper st.
Proof.
  unfold exec_block_step.
  destruct (collect_exec_block (skipn (line_i st + 1) lines) [] (line_i st + 1))
    as [el i].
  repeat split.
Qed.

Lemma step_context_ok (self : NXLogConfigAnalyzer) (lines : list string)
      (st : PState) :
  context_ok st -> context_ok (step self lines st).
Proof.
  intros Hok. unfold step.
  destruct (nth_error lines (line_i st)) as [raw|]; [|exact Hok].
  destruct (classify raw) eqn:Hc; try exact Hok.
  - unfold context_ok. cbn [open_step current_section current_section_name].
    eapply classify_open_truthy; exact Hc.
  - exact I.
  - unfold context_ok.
    destruct (exec_block_step_context self lines st) as (-> & -> & _). exact Hok.
  - destruct (truthy_opt (current_section st)); [|exact Hok].
    unfold context_ok.
    destruct (param_step_context self lines st param_name group2) as (-> & -> & _).
    exact Hok.
Qed.

Lemma run_context_ok (self : NXLogConfigAnalyzer) (lines : list string) (k : nat) :
  context_ok (run self lines k initial_state).
Proof.
  induction k as [|k IH]; [exact I|].
  rewrite run_step_last. apply step_context_ok, IH.
Qed.

Lemma dict_keys_set {V : Type} (d : dict V) (k x : string) (v : V) :
  In x (dict_keys (dict_set d k v)) <-> In x (dict_keys d) \/ x = k.
Proof.
  unfold dict_keys.
  induction d as [|[k0 v0] d IH]; cbn [dict_set map fst In].
  - intuition.
  - destruct (String.eqb k0 k) eqn:E; cbn [map fst In].
    + apply String.eqb_eq in E. subst k0. intuition.
    + rewrite IH. intuition.
Qed.

Lemma dict_keys_set_agree {V W : Type} (d : dict V) :
  forall (e : dict W) (k : string) (v : V) (w : W),
    dict_keys d = dict_keys e ->
    dict_keys (dict_set d k v) = dict_keys (dict_set e k w).
Proof.
  unfold dict_keys.
  induction d as [|[k0 v0] d IH]; intros [|[k1 w1] e] k v w H;
    cbn [map fst] in H; try discriminate; [reflexivity|].
  injection H as -> H. cbn [dict_set].
  destruct (String.eqb k1 k); cbn [map fst]; f_equal; [exact H|].
  apply IH, H.
Qed.

Lemma dict_keys_set_present {V : Type} (d : dict V) (k : string) (v e : V) :
  dict_get d k = Some e -> dict_keys (dict_set d k v) = dict_keys d.
Proof.
  unfold dict_keys.
  induction d as [|[k0 v0] d IH]; cbn [dict_get dict_set]; [discriminate|].
  destruct (String.eqb k0 k); cbn [map fst]; [reflexivity|].
  intros H. f_equal. apply IH, H.
Qed.

Lemma mark_connected_keys (route_name : string) (names : list string) :
  forall secs,
    dict_keys (mark_connected route_name secs names) = dict_keys secs.
Proof.
  unfold mark_connected.
  induction names as [|n names IH]; intros secs; cbn [fold_left]; [reflexivity|].
  rewrite IH. destruct (dict_get secs n) as [e|] eqn:He; [|reflexivity].
  eapply dict_keys_set_present; exact He.
Qed.

Lemma analyze_fold_keys (l : dict RouteInfo) :
  forall secs fl,
    dict_keys (fst (fold_left analyze_route l (secs, fl))) = dict_keys secs.
Proof.
  induction l as [|[name r] l IH]; intros secs fl; cbn [fold_left]; [reflexivity|].
  unfold analyze_route at 2. cbn [fst snd]. rewrite IH.
  apply mark_connected_keys.
Qed.

Lemma step_tables_agree (self : NXLogConfigAnalyzer) (lines : list string)
      (st : PState) :
  tables_agree (flow_mapper st) -> tables_agree (flow_mapper (step self lines st)).
Proof.
  intros H. unfold step.
  destruct (nth_error lines (line_i st)) as [raw|]; [|exact H].
  destruct (classify raw); try exact H.
  - cbn [close_step flow_mapper].
    destruct (truthy_opt (current_section st)
              && truthy_opt (current_section_name st)); [|exact H].
    unfold tables_agree, add_section. cbn [sections sections_info].
    apply dict_keys_set_agree, H.
  - destruct (exec_block_step_context self lines st) as (_ & _ & ->). exact H.
  - destruct (truthy_opt (current_section st)); [|exact H].
    unfold tables_agree.
    destruct (param_step_context self lines st param_name group2)
      as (_ & _ & -> & ->).
    exact H.
Qed.

Lemma step_registered (self : NXLogConfigAnalyzer) (lines : list string)
      (st : PState) (name : string) :
  registered (flow_mapper (step self lines st)) name ->
  registered (flow_mapper st) name
  \/ exists raw,
      nth_error lines (line_i st) = Some raw
      /\ classify raw = CloseTag
      /\ current_section_name st = Some name.
Proof.
  unfold step, registered.
  destruct (nth_error lines (line_i st)) as [raw|]; [|now left].
  destruct (classify raw) eqn:Hc; try (now left).
  - cbn [close_step flow_mapper].
    destruct (truthy_opt (current_section st)); cbn [andb]; [|now left].
    destruct (current_section_name st) as [n|]; cbn [truthy_opt]; [|now left].
    destruct (truthy n); [|now left].
    unfold add_section. cbn [sections_info or_empty].
    rewrite dict_keys_set. intros [H | ->]; [now left|].
    right. now exists raw.
  - destruct (exec_block_step_context self lines st) as (_ & _ & ->). now left.
  - destruct (truthy_opt (current_section st)); [|now left].
    destruct (param_step_context self lines st param_name group2)
      as (_ & _ & -> & _).
    now left.
Qed.

Lemma step_keeps_registered (self : NXLogConfigAnalyzer) (lines : list string)
      (st : PState) (name : string) :
  registered (flow_mapper st) name ->
  registered (flow_mapper (step self lines st)) name.
Proof.
  unfold step, registered. intros H.
  destruct (nth_error lines (line_i st)) as [raw|]; [|exact H].
  destruct (classify raw); try exact H.
  - cbn [close_step flow_mapper].
    destruct (truthy_opt (current_section st)
              && truthy_opt (current_section_name st)); [|exact H].
    unfold add_section. cbn [sections_info]. apply dict_keys_set. now left.
  - destruct (exec_block_step_context self lines st) as (_ & _ & ->). exact H.
  - destruct (truthy_opt (current_section st)); [|exact H].
    destruct (param_step_context self lines st param_name group2)
      as (_ & _ & -> & _).
    exact H.
Qed.

Lemma step_registers (self : NXLogConfigAnalyzer) (lines : list string)
      (st : PState) (raw name : string) :
  context_ok st ->
  nth_error lines (line_i st) = Some raw ->
  classify raw = CloseTag ->
  current_section_name st = Some name ->
  registered (flow_mapper (step self lines st)) name.
Proof.
  unfold step, registered, context_ok. intros Hok -> -> Hn.
  rewrite Hn in Hok. cbn [close_step flow_mapper]. rewrite Hn.
  destruct (current_section st) as [t|]; [|contradiction].
  destruct Hok as [Ht Hname]. cbn [truthy_opt]. rewrite Ht, Hname. cbn [andb].
  unfold add_section. cbn [sections_info or_empty].
  apply dict_keys_set. now right.
Qed.

Lemma run_keeps_registered (self : NXLogConfigAnalyzer) (lines : list string)
      (k : nat) (name : string) :
  forall st,
    registered (flow_mapper st) name ->
    registered (flow_mapper (run self lines k st)) name.
Proof.
  induction k as [|k IH]; intros st H; [exact H|].
  cbn [run]. apply IH, step_keeps_registered, H.
Qed.

Lemma run_registered (self : NXLogConfigAnalyzer) (lines : list string)
      (name : string) (k : nat) :
  registered (flow_mapper (run self lines k initial_state)) name ->
  closing_tag_reached self lines name.
Proof.
  induction k as [|k IH].
  - intros [].
  - rewrite run_step_last. intros H. apply step_registered in H.
    destruct H as [H | (raw & H1 & H2 & H3)]; [exact (IH H)|].
    now exists k, raw.
Qed.

(** A section is registered by the scan exactly when its closing tag was
    reached. *)
Lemma scan_registered_iff (self : NXLogConfigAnalyzer) (lines : list string)
      (name : string) :
  registered (flow_mapper (scan self lines)) name
  <-> closing_tag_reached self lines name.
Proof.
  split; [apply run_registered|].
  intros (k & raw & Hraw & Hc & Hn).
  assert (Hlt : line_i (run self lines k initial_state) < List.length lines)
    by (apply nth_error_Some; congruence).
  pose proof (run_cursor self lines k initial_state) as Hk.
  cbn [initial_state line_i] in Hk.
  assert (Hle : S k <= List.length lines) by lia.
  unfold scan.
  replace (List.length lines) with (S k + (List.length lines - S k)) by lia.
  rewrite run_add. apply run_keeps_registered.
  rewrite run_step_last.
  eapply step_registers; eauto. apply run_context_ok.
Qed.

Lemma scan_tables_agree (self : NXLogConfigAnalyzer) (lines : list string) :
  tables_agree (flow_mapper (scan self lines)).
Proof.
  unfold scan. generalize (List.length lines). intros k.
  induction k as [|k IH]; [reflexivity|].
  rewrite run_step_last. apply step_tables_agree, IH.
Qed.

Lemma parse_sections_info (self : NXLogConfigAnalyzer) (content : string) :
  sections_info (snd (parse_config_file self content))
  = sections_info (flow_mapper (scan self (lines_of content))).
Proof. reflexivity. Qed.

Lemma parse_sections_keys (self : NXLogConfigAnalyzer) (content : string) :
  dict_keys (sections (snd (parse_config_file self content)))
  = dict_keys (sections_info (snd (parse_config_file self content))).
Proof.
  rewrite parse_sections_info. unfold parse_config_file, analyze_flows, analyzed.
  cbn [fst snd sections]. rewrite analyze_fold_keys.
  apply scan_tables_agree.
Qed.

Lemma param_step_file_data (self : NXLogConfigAnalyzer) (lines : list string)
      (st : PState) (n g2 : string) :
  exists r,
    file_data (param_step self lines st n g2) = (file_data st ++ [r])%list
    /\ p_Section r = current_section st
    /\ p_Nom_Section r = current_section_name st.
Proof.
  unfold param_step.
  destruct (merged_value lines (line_i st) n (strip g2)) as [v i].
  eexists. cbn [file_data]. split; [reflexivity|]. split; reflexivity.
Qed.

Lemma exec_block_step_file_data (self : NXLogConfigAnalyzer)
      (lines : list string) (st : PState) :
  file_data (exec_block_step self lines st) = file_data st
  \/ exists r,
      file_data (exec_block_step self lines st) = (file_data st ++ [r])%list
      /\ p_Section r = current_section st
      /\ p_Nom_Section r = current_section_name st
      /\ truthy_opt (current_section st) = true.
Proof.
  unfold exec_block_step.
  destruct (collect_exec_block (skipn (line_i st + 1) lines) [] (line_i st + 1))
    as [el i].
  cbn [file_data].
  destruct (negb (List.length el =? 0)%nat); cbn [andb]; [|now left].
  destruct (truthy_opt (current_section st)) eqn:Ht; [|now left].
  right. eexists. split; [reflexivity|]. repeat split.
Qed.

Lemma context_record_opened (self : NXLogConfigAnalyzer) (lines : list string)
      (st : PState) (r : ParamRecord) :
  context_ok st ->
  all_opened self lines st ->
  truthy_opt (current_section st) = true ->
  p_Section r = current_section st ->
  p_Nom_Section r = current_section_name st ->
  record_opened self lines r.
Proof.
  unfold context_ok. intros Hok [Hctx _] Ht Hs Hn.
  destruct (current_section st) as [t|]; [|discriminate].
  destruct (current_section_name st) as [n|]; [|contradiction].
  exists t, n. repeat split; try assumption. now apply Hctx.
Qed.

Lemma step_all_opened (self : NXLogConfigAnalyzer) (lines : list string)
      (k : nat) :
  all_opened self lines (run self lines k initial_state) ->
  all_opened self lines (step self lines (run self lines k initial_state)).
Proof.
  pose proof (run_context_ok self lines k) as Hok.
  set (st := run self lines k initial_state) in *.
  intros Hall. pose proof Hall as [Hctx Hrec]. unfold step.
  destruct (nth_error lines (line_i st)) as [raw|] eqn:Hraw; [|exact Hall].
  destruct (classify raw) eqn:Hc; try exact Hall.
  - split; [|exact Hrec].
    cbn [open_step current_section current_section_name].
    intros t n Ht Hn. injection Ht as <-. injection Hn as <-.
    now exists k, raw.
  - split; [|exact Hrec].
    cbn [close_step current_section current_section_name]. discriminate.
  - destruct (exec_block_step_context self lines st) as (E1 & E2 & _).
    split; [rewrite E1, E2; exact Hctx|].
    destruct (exec_block_step_file_data self lines st)
      as [-> | (r & -> & Hs & Hn & Ht)]; [exact Hrec|].
    apply Forall_app. split; [exact Hrec|]. constructor; [|constructor].
    now apply (context_record_opened self lines st).
  - destruct (truthy_opt (current_section st)) eqn:Ht; [|exact Hall].
    destruct (param_step_context self lines st param_name group2)
      as (E1 & E2 & _).
    split; [rewrite E1, E2; exact Hctx|].
    destruct (param_step_file_data self lines st param_name group2)
      as (r & -> & Hs & Hn).
    apply Forall_app. split; [exact Hrec|]. constructor; [|constructor].
    now apply (context_record_opened self lines st).
Qed.

(** Every record of the scan names a section whose opening tag was
    reached. *)
Lemma scan_records_opened (self : NXLogConfigAnalyzer) (lines : list string) :
  Forall (record_opened self lines) (file_data (scan self lines)).
Proof.
  unfold scan. generalize (List.length lines). intros k.
  enough (H : all_opened self lines (run self lines k initial_state))
    by apply H.
  induction k as [|k IH].
  - split; [discriminate | constructor].
  - rewrite run_step_last. apply step_all_opened, IH.
Qed.

Lemma unclosed_doc_sections :
  dict_keys (sections_info
               (flow_mapper (scan (mkAnalyzer []) (lines_of unclosed_doc))))
  = [].
Proof. vm_compute. reflexivity. Qed.

Lemma unclosed_doc_records :
  map p_Nom_Section (fst (parse_config_file (mkAnalyzer []) unclosed_doc))
  = [Some "in1"].
Proof. vm_compute. reflexivity. Qed.

(** C3, as stated, fails: the record of [Module im_file] names the
    section [in1], whose closing tag is never reached. *)
Lemma C3_counterexample :
  map p_Nom_Section (fst (parse_config_file (mkAnalyzer []) unclosed_doc))
  = [Some "in1"]
  /\ ~ closing_tag_reached (mkAnalyzer []) (lines_of unclosed_doc) "in1".
Proof.
  split; [exact unclosed_doc_records|].
  intros H. apply scan_registered_iff in H. unfold registered in H.
  rewrite unclosed_doc_sections in H. exact H.
Qed.

(** C3, amended. For every parsed document, every emitted record names
    a section whose opening tag was reached, and a section name is
    registered in the flow mapper (in either of its section tables)
    exactly when a closing tag was reached while that section was open;
    a section still open when the input ends is therefore never
    registered, while the records already emitted for it remain. *)
Theorem C3_registered_iff_closed :
  forall (self : NXLogConfigAnalyzer) (content name : string),
    Forall (record_opened self (lines_of content))
           (fst (parse_config_file self content))
    /\ (In name (dict_keys (sections_info (snd (parse_config_file self content))))
        <-> closing_tag_reached self (lines_of content) name)
    /\ (In name (dict_keys (sections (snd (parse_config_file self content))))
        <-> closing_tag_reached self (lines_of content) name).
Proof.
  intros self content name.
  split; [apply scan_records_opened|].
  rewrite parse_sections_keys, parse_sections_info.
  split; apply scan_registered_iff.
Qed.

(** ** Parameter lines *)

Lemma merged_value_plain (lines : list string) (i : nat) (n v : string) :
  String.eqb (lower n) "exec" = false -> merged_value lines i n v = (v, i).
Proof. unfold merged_value. now intros ->. Qed.

(** The effect of an iteration on a parameter line other than [Exec]
    inside a section. *)
Lemma step_plain_param (self : NXLogConfigAnalyzer) (lines : list string)
      (st : PState) (raw n g2 : string) :
  nth_error lines (line_i st) = Some raw ->
  classify raw = ParamLine n g2 ->
  String.eqb (lower n) "exec" = false ->
  truthy_opt (current_section st) = true ->
  step self lines st
  = mkState (current_section st) (current_section_name st) (line_i st + 1)
      (file_data st
       ++ [mkRecord (current_section st) (current_section_name st) n
             (strip_quotes (strip g2))
             (describe self n
                ("Param" ++ String (ascii_of_nat 232) "tre sp"
                 ++ e_acute ++ "cifique au module"))])%list
      (if in_route st && String.eqb n "Path"
       then add_route (flow_mapper st) (or_empty (current_section_name st))
              (strip_quotes (strip g2))
              (dict_get (section_details st) "Priority")
              (dict_get (section_details st) "Condition")
       else flow_mapper st)
      (if String.eqb n "Module" then Some (strip_quotes (strip g2))
       else section_module st)
      (dict_set (section_details st) n (strip_quotes (strip g2))).
Proof.
  intros Hraw Hc Hn Ht. unfold step. rewrite Hraw, Hc, Ht.
  unfold param_step. rewrite merged_value_plain by exact Hn.
  reflexivity.
Qed.

Lemma nth_error_block {A : Type} (pre seg post : list A) (a x : A) (j : nat) :
  nth_error seg j = Some x ->
  nth_error (pre ++ a :: seg ++ post) (List.length pre + 1 + j) = Some x.
Proof.
  intros H. rewrite nth_error_app2 by lia.
  replace (List.length pre + 1 + j - List.length pre) with (S j) by lia.
  cbn [nth_error]. rewrite nth_error_app1; [exact H|].
  apply nth_error_Some. congruence.
Qed.

Example path_first_priorities :
  priorities (snd (parse_config_file (mkAnalyzer []) path_first_doc))
  = ([("r1", None)], ["N/A"], [Some "10"]).
Proof. vm_compute. reflexivity. Qed.

Example priority_first_priorities :
  priorities (snd (parse_config_file (mkAnalyzer []) priority_first_doc))
  = ([("r1", Some "10")], ["10"], [Some "10"]).
Proof. vm_compute. reflexivity. Qed.

(** ** Bare [Exec] lines *)

Lemma collect_exec_lines_end (post : list string) :
  forall acc j,
    exec_run_ends post ->
    collect_exec_lines post acc j = (acc, j + leading_blanks post).
Proof.
  unfold exec_run_ends.
  induction post as [|l post IH]; intros acc j H;
    cbn [collect_exec_lines leading_blanks].
  - f_equal. lia.
  - cbn [leading_blanks] in H. destruct (is_empty (strip l)).
    + cbn [skipn] in H. rewrite IH by exact H. f_equal. lia.
    + cbn [skipn] in H. rewrite H. f_equal. lia.
Qed.

Lemma collect_exec_lines_b_c (post : list string) (acc : list string) (j : nat) :
  collect_exec_lines ("Exec b" :: "Exec c" :: post) acc j
  = collect_exec_lines post (acc ++ ["b"; "c"])%list (S (S j)).
Proof.
  cbn [collect_exec_lines].
  replace (strip "Exec b") with "Exec b" by (vm_compute; reflexivity).
  replace (strip "Exec c") with "Exec c" by (vm_compute; reflexivity).
  replace (re_match next_exec_re "Exec b") with (Some ["b"])
    by (vm_compute; reflexivity).
  replace (re_match next_exec_re "Exec c") with (Some ["c"])
    by (vm_compute; reflexivity).
  cbn [is_empty].
  replace (strip "b") with "b" by (vm_compute; reflexivity).
  replace (strip "c") with "c" by (vm_compute; reflexivity).
  now rewrite <- app_assoc.
Qed.

Lemma classify_exec_a : classify "Exec a" = ParamLine "Exec" "a".
Proof. vm_compute. reflexivity. Qed.

(** C7. Inside an open section, when the scan reaches the first of the
    three consecutive lines [Exec a], [Exec b], [Exec c] and the next
    non-blank line, if any, is not a bare [Exec] line, that one
    iteration appends exactly one record, with parameter [Exec] and
    value [a | b | c], and leaves the cursor after the three lines (and
    after the blank lines that follow them); nothing else changes but
    the [Exec] attribute of the section. *)
Theorem C7_exec_merge :
  forall (self : NXLogConfigAnalyzer) (pre post : list string) (st : PState),
    line_i st = List.length pre ->
    truthy_opt (current_section st) = true ->
    exec_run_ends post ->
    let lines := (pre ++ "Exec a" :: "Exec b" :: "Exec c" :: post)%list in
    step self lines st
    = mkState (current_section st) (current_section_name st)
        (List.length pre + 3 + leading_blanks post)
        (file_data st
         ++ [mkRecord (current_section st) (current_section_name st)
               "Exec" "a | b | c"
               (describe self "Exec"
                  ("Param" ++ String (ascii_of_nat 232) "tre sp"
                   ++ e_acute ++ "cifique au module"))])%list
        (flow_mapper st) (section_module st)
        (dict_set (section_details st) "Exec" "a | b | c").
Proof.
  intros self pre post st Hi Ht Hend lines.
  unfold step, lines. rewrite Hi, nth_error_mid, classify_exec_a, Ht.
  unfold param_step, merged_value. rewrite Hi.
  replace (String.eqb (lower "Exec") "exec") with true by (vm_compute; reflexivity).
  rewrite skipn_mid, collect_exec_lines_b_c, collect_exec_lines_end by exact Hend.
  replace (strip "a") with "a" by (vm_compute; reflexivity).
  replace (strip_quotes (join " | " ([ "a" ] ++ ["b"; "c"])%list))
    with "a | b | c" by (vm_compute; reflexivity).
  replace (String.eqb "Exec" "Module") with false by reflexivity.
  replace (String.eqb "Exec" "Path") with false by reflexivity.
  rewrite andb_false_r.
  f_equal. lia.
Qed.

(** C7 at a section that holds the three lines and nothing else. *)
Lemma C7_exec_merge_witness :
  let lines := ["<Input in1>"; "Exec a"; "Exec b"; "Exec c"; "</Input>"] in
  let st := open_step initial_state "Input" "in1" in
  let st' := step (mkAnalyzer []) lines st in
  map (fun r => (p_Parametre r, p_Valeur r)) (file_data st')
  = [("Exec", "a | b | c")]
  /\ line_i st' = 4.
Proof.
  cbv zeta.
  change ["<Input in1>"; "Exec a"; "Exec b"; "Exec c"; "</Input>"]
    with (["<Input in1>"] ++ "Exec a" :: "Exec b" :: "Exec c" :: ["</Input>"])%list.
  rewrite (C7_exec_merge (mkAnalyzer []) ["<Input in1>"] ["</Input>"]
             (open_step initial_state "Input" "in1")).
  - split; reflexivity.
  - reflexivity.
  - reflexivity.
  - vm_compute. reflexivity.
Defined.

Example exec_merge_doc_records :
  map (fun r => (p_Nom_Section r, p_Parametre r, p_Valeur r))
      (fst (parse_config_file (mkAnalyzer []) exec_merge_doc))
  = [(Some "in1", "Exec", "a | b | c")].
Proof. vm_compute. reflexivity. Qed.

(** ** Tagged [<Exec>] blocks *)

Lemma exec_letter (x c : ascii) :
  (x = "E" \/ x = "x" \/ x = "e" \/ x = "c")%char ->
  chr_i x c = true ->
  is_word c = true /\ is_space c = false /\ chr "/" c = false.
Proof.
  intros [-> | [-> | [-> | ->]]];
    destruct c as [[] [] [] [] [] [] [] []]; vm_compute;
    intros H; try discriminate H; repeat split.
Qed.

Lemma backtrack_none (capture : bool) (cont : string -> option (list string))
      (s : string) (k : nat) :
  (forall k', 1 <= k' <= k -> cont (drop k' s) = None) ->
  backtrack capture cont s k = None.
Proof.
  induction k as [|k IH]; intros H; cbn [backtrack]; [reflexivity|].
  rewrite (H (S k)) by lia. apply IH. intros k' Hk. apply H. lia.
Qed.

(** A line that begins with [<Exec>] in any letter case is neither an
    opening nor a closing tag: the scan takes it as the start of a
    tagged block. *)
Lemma exec_open_classify (raw : string) :
  matches exec_open_re (strip raw) = true -> classify raw = ExecOpen.
Proof.
  unfold classify. generalize (strip raw). intros s Hm.
  assert (Hs : exists c2 c3 c4 c5 rest,
             s = String "<" (String c2 (String c3 (String c4 (String c5
                   (String ">" rest)))))
             /\ chr_i "E" c2 = true /\ chr_i "x" c3 = true
             /\ chr_i "e" c4 = true /\ chr_i "c" c5 = true).
  { unfold matches, exec_open_re in Hm. cbn [re_match] in Hm.
    destruct s as [|c1 s]; [discriminate|].
    destruct (chr "<" c1) eqn:H1; [|discriminate].
    destruct s as [|c2 s]; [discriminate|].
    destruct (chr_i "E" c2) eqn:H2; [|discriminate].
    destruct s as [|c3 s]; [discriminate|].
    destruct (chr_i "x" c3) eqn:H3; [|discriminate].
    destruct s as [|c4 s]; [discriminate|].
    destruct (chr_i "e" c4) eqn:H4; [|discriminate].
    destruct s as [|c5 s]; [discriminate|].
    destruct (chr_i "c" c5) eqn:H5; [|discriminate].
    destruct s as [|c6 s]; [discriminate|].
    destruct (chr ">" c6) eqn:H6; [|discriminate].
    apply Ascii.eqb_eq in H1, H6. subst c1 c6.
    now exists c2, c3, c4, c5, s. }
  destruct Hs as (c2 & c3 & c4 & c5 & rest & -> & H2 & H3 & H4 & H5).
  apply exec_letter in H2, H3, H4, H5; auto.
  destruct H2 as (W2 & S2 & N2), H3 as (W3 & S3 & _),
           H4 as (W4 & S4 & _), H5 as (W5 & S5 & _).
  cbn [is_empty].
  assert (Hsec : re_match section_re
                   (String "<" (String c2 (String c3 (String c4 (String c5
                      (String ">" rest))))))
                 = None).
  { unfold section_re. cbn [re_match].
    replace (chr "<" "<") with true by reflexivity.
    apply backtrack_none. cbn [span]. rewrite W2, W3, W4, W5.
    replace (is_word ">") with false by (vm_compute; reflexivity).
    intros k' Hk.
    assert (Hcase : k' = 1 \/ k' = 2 \/ k' = 3 \/ k' = 4) by lia.
    destruct Hcase as [-> | [-> | [-> | ->]]]; cbn [drop span];
      rewrite ?S3, ?S4, ?S5; reflexivity. }
  rewrite Hsec.
  assert (Hclose : matches close_re
                     (String "<" (String c2 (String c3 (String c4 (String c5
                        (String ">" rest))))))
                   = false).
  { unfold matches, close_re. cbn [re_match].
    replace (chr "<" "<") with true by reflexivity. now rewrite N2. }
  rewrite Hclose, Hm. reflexivity.
Qed.

(** C8. Inside an open section, when the scan reaches a line matching
    [<Exec>] that is followed by two non-blank content lines and a line
    matching [</Exec>], that one iteration appends exactly one record,
    with parameter [Exec] and the two trimmed content lines joined by a
    newline as value, and leaves the cursor after the [</Exec>] line,
    which is not part of the value; nothing else changes. *)
Theorem C8_exec_block :
  forall (self : NXLogConfigAnalyzer) (pre post : list string)
         (l_open c1 c2 l_close : string) (st : PState),
    line_i st = List.length pre ->
    truthy_opt (current_section st) = true ->
    matches exec_open_re (strip l_open) = true ->
    truthy (strip c1) = true -> matches exec_close_re (strip c1) = false ->
    truthy (strip c2) = true -> matches exec_close_re (strip c2) = false ->
    matches exec_close_re (strip l_close) = true ->
    let lines := (pre ++ l_open :: c1 :: c2 :: l_close :: post)%list in
    step self lines st
    = mkState (current_section st) (current_section_name st)
        (List.length pre + 4)
        (file_data st
         ++ [mkRecord (current_section st) (current_section_name st)
               "Exec" (strip c1 ++ nl ++ strip c2)
               (describe self "Exec"
                  ("Bloc de commandes " ++ String (ascii_of_nat 224)
                   " ex" ++ e_acute ++ "cuter"))])%list
        (flow_mapper st) (section_module st) (section_details st).
Proof.
  intros self pre post l_open c1 c2 l_close st Hi Ht Hopen T1 N1 T2 N2 Hclose
         lines.
  unfold step, lines.
  rewrite Hi, nth_error_mid, (exec_open_classify l_open Hopen).
  unfold exec_block_step. rewrite Hi, skipn_mid.
  cbn [collect_exec_block]. rewrite N1, N2, Hclose, T1, T2, Ht.
  cbn [app List.length Nat.eqb negb andb join String.concat].
  f_equal. lia.
Qed.

(** C8 at a section that holds one tagged block of two lines. *)
Lemma C8_exec_block_witness :
  let lines := ["<Input in1>"; "<Exec>"; "  foo();"; "bar();  "; "</Exec>";
                "</Input>"] in
  let st := open_step initial_state "Input" "in1" in
  let st' := step (mkAnalyzer []) lines st in
  map (fun r => (p_Parametre r, p_Valeur r)) (file_data st')
  = [("Exec", "foo();" ++ nl ++ "bar();")]
  /\ line_i st' = 5.
Proof.
  cbv zeta.
  change ["<Input in1>"; "<Exec>"; "  foo();"; "bar();  "; "</Exec>"; "</Input>"]
    with (["<Input in1>"]
          ++ "<Exec>" :: "  foo();" :: "bar();  " :: "</Exec>" :: ["</Input>"])%list.
  rewrite (C8_exec_block (mkAnalyzer []) ["<Input in1>"] ["</Input>"]
             "<Exec>" "  foo();" "bar();  " "</Exec>"
             (open_step initial_state "Input" "in1"));
    try (vm_compute; reflexivity).
  split; vm_compute; reflexivity.
Defined.

Example exec_block_doc_records :
  map (fun r => (p_Nom_Section r, p_Parametre r, p_Valeur r))
      (fst (parse_config_file (mkAnalyzer []) exec_block_doc))
  = [(Some "in1", "Exec", "foo();" ++ nl ++ "bar();")].
Proof. vm_compute. reflexivity. Qed.

(** ** A value that is a single quote character *)

Lemma strip_quotes_single (q : ascii) :
  q = dquote \/ q = squote -> strip_quotes (String q EmptyString) = EmptyString.
Proof. intros [-> | ->]; reflexivity. Qed.

(** C10, as stated, fails: the second line of [quote_exec_doc] is a
    parameter line whose trimmed value is the single double-quote
    character, and the value recorded for it is that character followed
    by [ | b], the merge with the next [Exec] line, from which no quote
    is removed. *)
Lemma C10_counterexample :
  classify (nth 1 (lines_of quote_exec_doc) EmptyString) = ParamLine "Exec" dq
  /\ strip dq = dq
  /\ map (fun r => (p_Parametre r, p_Valeur r))
         (fst (parse_config_file (mkAnalyzer []) quote_exec_doc))
     = [("Exec", dq ++ " | b")].
Proof.
  repeat split; vm_compute; reflexivity.
Qed.

(** C10, amended. For every parameter line inside an open section whose
    value before quote removal (for a bare [Exec] line: the merge with
    the bare [Exec] lines that follow it; for any other parameter: the
    trimmed text after the name) is exactly one double-quote character
    or exactly one single-quote character, the iteration appends exactly
    one record, whose value is the empty string. *)
Theorem C10_single_quote_value :
  forall (self : NXLogConfigAnalyzer) (lines : list string) (st : PState)
         (raw n g2 : string) (q : ascii),
    (q = dquote \/ q = squote) ->
    nth_error lines (line_i st) = Some raw ->
    classify raw = ParamLine n g2 ->
    truthy_opt (current_section st) = true ->
    fst (merged_value lines (line_i st) n (strip g2)) = String q EmptyString ->
    file_data (step self lines st)
    = (file_data st
       ++ [mkRecord (current_section st) (current_section_name st) n
             EmptyString
             (describe self n
                ("Param" ++ String (ascii_of_nat 232) "tre sp"
                 ++ e_acute ++ "cifique au module"))])%list.
Proof.
  intros self lines st raw n g2 q Hq Hraw Hc Ht Hv.
  unfold step. rewrite Hraw, Hc, Ht. unfold param_step.
  destruct (merged_value lines (line_i st) n (strip g2)) as [v i].
  cbn [fst] in Hv. subst v. cbn [file_data].
  now rewrite (strip_quotes_single q Hq).
Qed.

(** C10 at a parameter [Key] whose whole value is one double quote. *)
Lemma C10_single_quote_value_witness :
  let lines := ["<Input in1>"; "Key " ++ dq] in
  let st := open_step initial_state "Input" "in1" in
  map (fun r => (p_Parametre r, p_Valeur r)) (file_data (step (mkAnalyzer []) lines st))
  = [("Key", EmptyString)].
Proof.
  cbv zeta.
  rewrite (C10_single_quote_value (mkAnalyzer []) ["<Input in1>"; "Key " ++ dq]
             (open_step initial_state "Input" "in1") ("Key " ++ dq) "Key" dq dquote).
  - reflexivity.
  - now left.
  - reflexivity.
  - vm_compute. reflexivity.
  - reflexivity.
  - vm_compute. reflexivity.
Defined.

Example quote_doc_records :
  map p_Valeur (fst (parse_config_file (mkAnalyzer []) (quote_doc dq)))
  = [EmptyString]
  /\ map p_Valeur (fst (parse_config_file (mkAnalyzer []) (quote_doc sq)))
     = [EmptyString].
Proof. split; vm_compute; reflexivity. Qed.

(** ** Quote removal, in general *)

Lemma endswith_char_snoc (c b : ascii) (s : string) :
  endswith_char c (s ++ String b EmptyString) = Ascii.eqb b c.
Proof.
  induction s as [|a s IH]; [reflexivity|].
  cbn [append endswith_char]. rewrite IH.
  destruct s; reflexivity.
Qed.

Lemma drop_last_snoc (b : ascii) (s : string) :
  drop_last (s ++ String b EmptyString) = s.
Proof.
  induction s as [|a s IH]; [reflexivity|].
  cbn [append drop_last]. rewrite IH.
  destruct s; reflexivity.
Qed.

Lemma endswith_char_enclosed (c q : ascii) (s : string) :
  endswith_char c (String q (s ++ String q EmptyString)) = Ascii.eqb q c.
Proof. apply (endswith_char_snoc c q (String q s)). Qed.

(** X1. A value enclosed in a pair of double quotes, or in a pair of
    single quotes, loses exactly that pair, whatever lies between them
    (quotes included: only one layer is removed). *)
Theorem X1_strip_quotes_enclosed :
  (forall s : string, strip_quotes (dq ++ s ++ dq) = s)
  /\ (forall s : string, strip_quotes (sq ++ s ++ sq) = s).
Proof.
  split; intros s; unfold strip_quotes, dq, sq; cbn [append startswith_char];
    rewrite !endswith_char_enclosed; cbn [slice_1_m1];
    rewrite drop_last_snoc; reflexivity.
Qed.

(** X2. A value of two or more characters whose first and last
    characters differ is left as it is: a quote at one end only is
    kept. *)
Theorem X2_strip_quotes_unbalanced :
  forall (a b : ascii) (s : string),
    a <> b ->
    strip_quotes (String a (s ++ String b EmptyString))
    = String a (s ++ String b EmptyString).
Proof.
  intros a b s Hab. unfold strip_quotes.
  cbn [startswith_char].
  rewrite !(endswith_char_snoc _ b (String a s) : endswith_char _ (String a (s ++ String b EmptyString)) = _).
  destruct (Ascii.eqb a dquote) eqn:Ea.
  - apply Ascii.eqb_eq in Ea. subst a.
    destruct (Ascii.eqb b dquote) eqn:Eb.
    + apply Ascii.eqb_eq in Eb. congruence.
    + cbn [andb]. destruct (Ascii.eqb dquote squote) eqn:E; [discriminate E|].
      reflexivity.
  - cbn [andb]. destruct (Ascii.eqb a squote) eqn:Es; [|reflexivity].
    apply Ascii.eqb_eq in Es. subst a.
    destruct (Ascii.eqb b squote) eqn:Eb; [|reflexivity].
    apply Ascii.eqb_eq in Eb. congruence.
Qed.

(** X2 at the value made of a double quote followed by [abc]. *)
Lemma X2_strip_quotes_unbalanced_witness :
  strip_quotes (dq ++ "abc") = dq ++ "abc".
Proof.
  apply (X2_strip_quotes_unbalanced dquote "c" "ab").
  intros H. discriminate H.
Defined.

(** ** Comment removal *)

Lemma strip_comments_from_hash (content : string) :
  forall b, count_char "#" (strip_comments_from b content) = 0.
Proof.
  induction content as [|c rest IH]; intros b; [reflexivity|].
  cbn [strip_comments_from].
  destruct (Ascii.eqb c newline) eqn:En.
  - cbn [count_char]. rewrite IH.
    apply Ascii.eqb_eq in En. subst c. reflexivity.
  - destruct b; [apply IH|].
    destruct (Ascii.eqb c "#") eqn:Eh; [apply IH|].
    cbn [count_char]. now rewrite Eh, IH.
Qed.

Lemma strip_comments_from_newlines (content : string) :
  forall b,
    count_char newline (strip_comments_from b content)
    = count_char newline content.
Proof.
  induction content as [|c rest IH]; intros b; [reflexivity|].
  cbn [strip_comments_from count_char].
  destruct (Ascii.eqb c newline) eqn:En.
  - cbn [count_char]. now rewrite En, IH.
  - destruct b; [now rewrite IH|].
    destruct (Ascii.eqb c "#"); [now rewrite IH|].
    cbn [count_char]. now rewrite En, IH.
Qed.

Lemma strip_comments_from_again (content : string) :
  forall b,
    strip_comments_from false (strip_comments_from b content)
    = strip_comments_from b content.
Proof.
  induction content as [|c rest IH]; intros b; [reflexivity|].
  cbn [strip_comments_from].
  destruct (Ascii.eqb c newline) eqn:En.
  - cbn [strip_comments_from]. now rewrite En, IH.
  - destruct b; [apply IH|].
    destruct (Ascii.eqb c "#") eqn:Eh; [apply IH|].
    cbn [strip_comments_from]. now rewrite En, Eh, IH.
Qed.

Lemma prefix_nl (a : ascii) (s : string) :
  prefix nl (String a s) = Ascii.eqb a newline.
Proof.
  unfold nl. cbn [prefix].
  destruct (ascii_dec newline a) as [<- | Hne].
  - rewrite Ascii.eqb_refl. now destruct s.
  - destruct (Ascii.eqb a newline) eqn:E; [|reflexivity].
    apply Ascii.eqb_eq in E. congruence.
Qed.

Lemma cons_head_length (c : ascii) (parts : list string) :
  parts <> [] -> List.length (cons_head c parts) = List.length parts.
Proof. destruct parts; [congruence | reflexivity]. Qed.

Lemma split_nl_length (s : string) :
  List.length (split_from nl 0 s) = S (count_char newline s)
  /\ split_from nl 0 s <> [].
Proof.
  induction s as [|a s [IH Hne]]; [split; [reflexivity | discriminate]|].
  cbn [split_from count_char]. rewrite prefix_nl.
  destruct (Ascii.eqb a newline).
  - cbn [List.length String.length nl Nat.sub]. rewrite IH.
    split; [reflexivity | discriminate].
  - rewrite cons_head_length by exact Hne. split; [exact IH|].
    destruct (split_from nl 0 s); [congruence | discriminate].
Qed.

(** X3. Comment removal leaves no [#] in the text, keeps every newline,
    so that the lines scanned are as many as the lines of the file, and
    removes nothing more when applied again. *)
Theorem X3_strip_comments :
  forall content : string,
    count_char "#" (strip_comments content) = 0
    /\ count_char newline (strip_comments content) = count_char newline content
    /\ List.length (lines_of content) = List.length (split nl content)
    /\ strip_comments (strip_comments content) = strip_comments content.
Proof.
  intros content. unfold strip_comments, lines_of, split.
  repeat split.
  - apply strip_comments_from_hash.
  - apply strip_comments_from_newlines.
  - destruct (split_nl_length (strip_comments content)) as [-> _].
    destruct (split_nl_length content) as [-> _].
    unfold strip_comments. now rewrite strip_comments_from_newlines.
  - apply strip_comments_from_again.
Qed.

(** ** Progress and bounds of the scan *)

Lemma collect_exec_block_upper (rest : list string) :
  forall acc i, snd (collect_exec_block rest acc i) <= i + List.length rest.
Proof.
  induction rest as [|l rest IH]; intros acc i;
    cbn [collect_exec_block snd List.length].
  - lia.
  - destruct (matches exec_close_re (strip l)); cbn [snd]; [lia|].
    etransitivity; [apply IH|]. lia.
Qed.

Lemma collect_exec_lines_upper (rest : list string) :
  forall acc j, snd (collect_exec_lines rest acc j) <= j + List.length rest.
Proof.
  induction rest as [|l rest IH]; intros acc j;
    cbn [collect_exec_lines snd List.length].
  - lia.
  - destruct (is_empty (strip l)).
    + etransitivity; [apply IH|]. lia.
    + destruct (re_match next_exec_re (strip l)) as [[|g1 gs]|]; cbn [snd];
        try lia.
      etransitivity; [apply IH|]. lia.
Qed.

Lemma step_cursor_upper (self : NXLogConfigAnalyzer) (lines : list string)
      (st : PState) :
  line_i st < List.length lines ->
  line_i (step self lines st) <= List.length lines + 1.
Proof.
  intros Hlt. unfold step.
  destruct (nth_error lines (line_i st)) as [raw|]; [|lia].
  assert (Hskip : List.length (skipn (line_i st + 1) lines)
                  = List.length lines - (line_i st + 1))
    by apply length_skipn.
  destruct (classify raw);
    try (cbn [advance open_step close_step line_i]; lia).
  - unfold exec_block_step.
    pose proof (collect_exec_block_upper (skipn (line_i st + 1) lines) []
                  (line_i st + 1)) as H.
    destruct (collect_exec_block (skipn (line_i st + 1) lines) []
                (line_i st + 1)) as [el i].
    cbn [snd line_i] in *. lia.
  - destruct (truthy_opt (current_section st));
      [|cbn [advance line_i]; lia].
    unfold param_step, merged_value.
    destruct (String.eqb (lower param_name) "exec"); [|cbn [line_i]; lia].
    pose proof (collect_exec_lines_upper (skipn (line_i st + 1) lines)
                  [strip group2] (line_i st + 1)) as H.
    destruct (collect_exec_lines (skipn (line_i st + 1) lines)
                [strip group2] (line_i st + 1)) as [el j].
    cbn [snd line_i] in *. lia.
Qed.

(** An iteration leaves the records as they are or appends one. *)
Lemma step_file_data (self : NXLogConfigAnalyzer) (lines : list string)
      (st : PState) :
  file_data (step self lines st) = file_data st
  \/ exists r, file_data (step self lines st) = (file_data st ++ [r])%list.
Proof.
  unfold step.
  destruct (nth_error lines (line_i st)) as [raw|]; [|now left].
  destruct (classify raw); try (now left).
  - destruct (exec_block_step_file_data self lines st)
      as [H | (r & H & _)]; [now left | right; now exists r].
  - destruct (truthy_opt (current_section st)); [|now left].
    destruct (param_step_file_data self lines st param_name group2)
      as (r & H & _).
    right. now exists r.
Qed.

Lemma run_cursor_upper (self : NXLogConfigAnalyzer) (lines : list string)
      (k : nat) :
  forall st,
    line_i st <= List.length lines + 1 ->
    line_i (run self lines k st) <= List.length lines + 1.
Proof.
  induction k as [|k IH]; intros st H; [exact H|].
  cbn [run]. apply IH.
  destruct (Nat.lt_ge_cases (line_i st) (List.length lines)) as [Hlt | Hge].
  - now apply step_cursor_upper.
  - unfold step. apply nth_error_None in Hge. now rewrite Hge.
Qed.

Lemma run_records_upper (self : NXLogConfigAnalyzer) (lines : list string)
      (k : nat) :
  forall st,
    List.length (file_data (run self lines k st))
    <= List.length (file_data st) + k.
Proof.
  induction k as [|k IH]; intros st; cbn [run]; [lia|].
  etransitivity; [apply IH|].
  destruct (step_file_data self lines st) as [-> | (r & ->)];
    [|rewrite length_app; cbn [List.length]]; lia.
Qed.

Lemma run_fixed (self : NXLogConfigAnalyzer) (lines : list string) (k : nat) :
  forall st, step self lines st = st -> run self lines k st = st.
Proof.
  induction k as [|k IH]; intros st H; [reflexivity|].
  cbn [run]. rewrite H. now apply IH.
Qed.

(** X4. An iteration whose cursor is inside the input moves the cursor
    forward by at least one line and to at most one line past the end,
    and it leaves the records emitted so far untouched, appending at
    most one. *)
Theorem X4_step_progress :
  forall (self : NXLogConfigAnalyzer) (lines : list string) (st : PState),
    line_i st < List.length lines ->
    line_i st < line_i (step self lines st) <= List.length lines + 1
    /\ exists tail,
        file_data (step self lines st) = (file_data st ++ tail)%list
        /\ List.length tail <= 1.
Proof.
  intros self lines st Hlt. split.
  - split; [now apply step_cursor | now apply step_cursor_upper].
  - destruct (step_file_data self lines st) as [H | (r & H)].
    + exists []. rewrite app_nil_r. split; [exact H | cbn; lia].
    + exists [r]. split; [exact H | cbn; lia].
Qed.

(** X4 at the first line of a two-line input. *)
Lemma X4_step_progress_witness :
  let lines := ["<Input in1>"; "Module im_file"] in
  0 < line_i (step (mkAnalyzer []) lines initial_state) <= 3
  /\ exists tail,
      file_data (step (mkAnalyzer []) lines initial_state) = tail
      /\ List.length tail <= 1.
Proof.
  apply (X4_step_progress (mkAnalyzer []) ["<Input in1>"; "Module im_file"]
           initial_state).
  cbn. lia.
Defined.

(** X5. The scanning loop comes to an end: after as many iterations as
    there are lines the cursor is at the end of the input or one line
    past it, any further iteration changes nothing, and the records
    emitted are at most as many as the lines. *)
Theorem X5_scan_ends :
  forall (self : NXLogConfigAnalyzer) (lines : list string),
    List.length lines <= line_i (scan self lines) <= List.length lines + 1
    /\ (forall k, run self lines k (scan self lines) = scan self lines)
    /\ List.length (file_data (scan self lines)) <= List.length lines.
Proof.
  intros self lines.
  destruct (scan_reaches_end self lines) as [Hend Hfix].
  repeat split.
  - exact Hend.
  - unfold scan. apply run_cursor_upper. cbn. lia.
  - intros k. now apply run_fixed.
  - unfold scan.
    pose proof (run_records_upper self lines (List.length lines) initial_state)
      as H.
    cbn [initial_state file_data List.length] in H. lia.
Qed.

(** ** Shape of the records *)

Lemma take_all_chars (p : ascii -> bool) (s : string) :
  forall k, k <= span p s -> all_chars p (take k s) = true.
Proof.
  unfold take.
  induction s as [|c s IH]; intros k Hk.
  - destruct k; reflexivity.
  - destruct k as [|k]; [reflexivity|].
    cbn [span] in Hk. destruct (p c) eqn:Hc; [|lia].
    cbn [substring all_chars]. rewrite Hc. apply IH. lia.
Qed.

Lemma take_identifier (s : string) (k : nat) :
  1 <= k <= span is_word s -> is_identifier (take k s) = true.
Proof.
  intros Hk. unfold is_identifier.
  rewrite (take_truthy is_word s k Hk), take_all_chars by lia. reflexivity.
Qed.

Lemma section_re_type (line g1 g2 : string) (gs : list string) :
  re_match section_re line = Some (g1 :: g2 :: gs) -> is_identifier g1 = true.
Proof.
  unfold section_re. cbn [re_match].
  destruct line as [|c line]; [discriminate|].
  destruct (chr "<" c); [|discriminate].
  intros H. apply backtrack_some in H.
  destruct H as (k1 & gs1 & Hk1 & _ & Heq). injection Heq as Hg1 _.
  subst g1. now apply take_identifier.
Qed.

Lemma param_re_name (line g1 g2 : string) (gs : list string) :
  re_match param_re line = Some (g1 :: g2 :: gs) -> is_identifier g1 = true.
Proof.
  unfold param_re. cbn [re_match].
  intros H. apply backtrack_some in H.
  destruct H as (k1 & gs1 & Hk1 & _ & Heq). injection Heq as Hg1 _.
  subst g1. now apply take_identifier.
Qed.

Lemma classify_open_type (raw t n : string) :
  classify raw = OpenTag t n -> is_identifier t = true.
Proof.
  unfold classify. destruct (is_empty (strip raw)); [discriminate|].
  destruct (re_match section_re (strip raw)) as [[|g1 [|g2 gs]]|] eqn:Hm;
    try (destruct (matches close_re (strip raw)); [discriminate|];
         destruct (matches exec_open_re (strip raw)); [discriminate|];
         destruct (re_match param_re (strip raw)) as [[|? [|? ?]]|];
         discriminate).
  intros H. injection H as <- <-. eapply section_re_type; exact Hm.
Qed.

Lemma classify_param_name (raw n g2 : string) :
  classify raw = ParamLine n g2 -> is_identifier n = true.
Proof.
  unfold classify. destruct (is_empty (strip raw)); [discriminate|].
  destruct (re_match section_re (strip raw)) as [[|g1 [|g2' gs]]|];
    try discriminate;
    (destruct (matches close_re (strip raw)); [discriminate|];
     destruct (matches exec_open_re (strip raw)); [discriminate|];
     destruct (re_match param_re (strip raw)) as [[|h1 [|h2 hs]]|] eqn:Hm;
     try discriminate;
     intros H; injection H as <- <-; eapply param_re_name; exact Hm).
Qed.

Lemma param_step_record (self : NXLogConfigAnalyzer) (lines : list string)
      (st : PState) (n g2 : string) :
  exists r,
    file_data (param_step self lines st n g2) = (file_data st ++ [r])%list
    /\ p_Section r = current_section st
    /\ p_Nom_Section r = current_section_name st
    /\ p_Parametre r = n.
Proof.
  unfold param_step.
  destruct (merged_value lines (line_i st) n (strip g2)) as [v i].
  eexists. cbn [file_data]. split; [reflexivity|]. repeat split.
Qed.

Lemma exec_block_step_record (self : NXLogConfigAnalyzer)
      (lines : list string) (st : PState) :
  file_data (exec_block_step self lines st) = file_data st
  \/ exists r,
      file_data (exec_block_step self lines st) = (file_data st ++ [r])%list
      /\ p_Section r = current_section st
      /\ p_Nom_Section r = current_section_name st
      /\ p_Parametre r = "Exec"
      /\ truthy_opt (current_section st) = true.
Proof.
  unfold exec_block_step.
  destruct (collect_exec_block (skipn (line_i st + 1) lines) [] (line_i st + 1))
    as [el i].
  cbn [file_data].
  destruct (negb (List.length el =? 0)%nat); cbn [andb]; [|now left].
  destruct (truthy_opt (current_section st)) eqn:Ht; [|now left].
  right. eexists. split; [reflexivity|]. repeat split.
Qed.

Lemma context_record_ok (st : PState) (r : ParamRecord) (n : string) :
  context_ok st ->
  context_word st ->
  truthy_opt (current_section st) = true ->
  p_Section r = current_section st ->
  p_Nom_Section r = current_section_name st ->
  p_Parametre r = n ->
  is_identifier n = true ->
  record_ok r = true.
Proof.
  unfold context_ok, context_word, record_ok.
  intros Hok Hw Ht -> -> -> Hn.
  destruct (current_section st) as [t|]; [|discriminate].
  destruct (current_section_name st) as [m|]; [|contradiction].
  destruct Hok as [_ Hm]. cbn [truthy_opt]. now rewrite Hw, Hm, Hn.
Qed.

Lemma step_records_ok (self : NXLogConfigAnalyzer) (lines : list string)
      (st : PState) :
  context_ok st ->
  context_word st /\ Forall (fun r => record_ok r = true) (file_data st) ->
  context_word (step self lines st)
  /\ Forall (fun r => record_ok r = true) (file_data (step self lines st)).
Proof.
  intros Hok [Hw Hrec]. unfold step.
  destruct (nth_error lines (line_i st)) as [raw|]; [|now split].
  destruct (classify raw) eqn:Hc; try (now split).
  - split; [|exact Hrec].
    unfold context_word. cbn [open_step current_section].
    eapply classify_open_type; exact Hc.
  - destruct (exec_block_step_context self lines st) as (E1 & E2 & _).
    split; [unfold context_word; rewrite E1; exact Hw|].
    destruct (exec_block_step_record self lines st)
      as [-> | (r & -> & Hs & Hn & Hp & Ht)]; [exact Hrec|].
    apply Forall_app. split; [exact Hrec|]. constructor; [|constructor].
    now apply (context_record_ok st r "Exec").
  - destruct (truthy_opt (current_section st)) eqn:Ht; [|now split].
    destruct (param_step_context self lines st param_name group2)
      as (E1 & E2 & _).
    split; [unfold context_word; rewrite E1; exact Hw|].
    destruct (param_step_record self lines st param_name group2)
      as (r & -> & Hs & Hn & Hp).
    apply Forall_app. split; [exact Hrec|]. constructor; [|constructor].
    apply (context_record_ok st r param_name); try assumption.
    eapply classify_param_name; exact Hc.
Qed.

(** X6. Every record returned by the parser has a section type that is
    an identifier (a non-empty run of word characters), a non-empty
    section name and a parameter name that is an identifier; no record
    has a missing or empty section. *)
Theorem X6_records_well_formed :
  forall (self : NXLogConfigAnalyzer) (content : string),
    forallb record_ok (fst (parse_config_file self content)) = true.
Proof.
  intros self content. apply forallb_forall, Forall_forall.
  unfold parse_config_file, scan. cbn [fst].
  generalize (List.length (lines_of content)). intros k.
  enough (H : context_word (run self (lines_of content) k initial_state)
              /\ Forall (fun r => record_ok r = true)
                        (file_data (run self (lines_of content) k initial_state)))
    by apply H.
  induction k as [|k IH].
  - split; [exact I | constructor].
  - rewrite run_step_last. apply step_records_ok; [apply run_context_ok | exact IH].
Qed.

(** ** Input without any section *)

Lemma step_nothing_seen (self : NXLogConfigAnalyzer) (lines : list string)
      (st : PState) :
  forallb (fun raw => negb (is_open_tag raw)) lines = true ->
  nothing_seen st -> nothing_seen (step self lines st).
Proof.
  intros Hno (Hs & Hf & Hm). unfold step.
  destruct (nth_error lines (line_i st)) as [raw|] eqn:Hraw; [|now repeat split].
  assert (Hraw' : is_open_tag raw = false).
  { apply nth_error_In in Hraw. rewrite forallb_forall in Hno.
    apply Hno in Hraw. now apply negb_true_iff in Hraw. }
  unfold is_open_tag in Hraw'.
  destruct (classify raw); try discriminate; try (now repeat split).
  - repeat split; cbn [close_step file_data flow_mapper]; try assumption.
    now rewrite Hs.
  - destruct (exec_block_step_context self lines st) as (E1 & _ & E3).
    repeat split; [congruence| |congruence].
    destruct (exec_block_step_record self lines st)
      as [-> | (r & _ & _ & _ & _ & Ht)]; [exact Hf|].
    rewrite Hs in Ht. discriminate Ht.
  - rewrite Hs. now repeat split.
Qed.

(** X7. When no line of the input is an opening tag, the parser returns
    no record and registers no route and no section: parameter lines,
    closing tags and blocks outside any section are ignored. *)
Theorem X7_no_section_no_output :
  forall (self : NXLogConfigAnalyzer) (content : string),
    forallb (fun raw => negb (is_open_tag raw)) (lines_of content) = true ->
    fst (parse_config_file self content) = []
    /\ routes (snd (parse_config_file self content)) = []
    /\ sections (snd (parse_config_file self content)) = []
    /\ sections_info (snd (parse_config_file self content)) = []
    /\ flows (snd (parse_config_file self content)) = []
    /\ unconnected_sections (snd (parse_config_file self content)) = [].
Proof.
  intros self content Hno.
  assert (H : nothing_seen (scan self (lines_of content))).
  { unfold scan. generalize (List.length (lines_of content)). intros k.
    induction k as [|k IH]; [now repeat split|].
    rewrite run_step_last. now apply step_nothing_seen. }
  destruct H as (_ & Hf & Hm).
  unfold parse_config_file. cbn [fst snd]. rewrite Hf, Hm.
  repeat split.
Qed.

(** X7 at an input made of a comment, a parameter line, a closing tag
    and a tagged block, with no opening tag. *)
Lemma X7_no_section_no_output_witness :
  let content :=
    "# no section" ++ nl ++ "Module im_file" ++ nl ++ "</Input>" ++ nl
    ++ "<Exec>" ++ nl ++ "log_info();" ++ nl ++ "</Exec>" ++ nl in
  fst (parse_config_file (mkAnalyzer []) content) = []
  /\ routes (snd (parse_config_file (mkAnalyzer []) content)) = []
  /\ sections (snd (parse_config_file (mkAnalyzer []) content)) = []
  /\ sections_info (snd (parse_config_file (mkAnalyzer []) content)) = []
  /\ flows (snd (parse_config_file (mkAnalyzer []) content)) = []
  /\ unconnected_sections (snd (parse_config_file (mkAnalyzer []) content)) = [].
Proof.
  apply (X7_no_section_no_output (mkAnalyzer [])).
  vm_compute. reflexivity.
Defined.

(** ** Tagged blocks of any length *)

Lemma collect_exec_block_body (body tail : list string) :
  forall acc i,
    forallb no_close body = true ->
    match tail with
    | [] => True
    | c :: _ => matches exec_close_re (strip c) = true
    end ->
    collect_exec_block (body ++ tail) acc i
    = ((acc ++ block_content body)%list, i + List.length body).
Proof.
  unfold block_content.
  induction body as [|l body IH]; intros acc i Hbody Htail.
  - cbn [app map filter List.length]. rewrite app_nil_r, Nat.add_0_r.
    destruct tail as [|c tail]; [reflexivity|].
    cbn [collect_exec_block]. now rewrite Htail.
  - cbn [forallb] in Hbody. apply andb_true_iff in Hbody.
    destruct Hbody as [Hl Hbody]. unfold no_close in Hl.
    apply negb_true_iff in Hl.
    cbn [app collect_exec_block map filter List.length]. rewrite Hl.
    rewrite IH by assumption.
    destruct (truthy (strip l)).
    + rewrite <- app_assoc. cbn [app]. f_equal. lia.
    + f_equal. lia.
Qed.

Lemma exec_block_step_body (self : NXLogConfigAnalyzer)
      (pre body tail : list string) (l_open : string) (st : PState) :
  line_i st = List.length pre ->
  matches exec_open_re (strip l_open) = true ->
  forallb no_close body = true ->
  match tail with
  | [] => True
  | c :: _ => matches exec_close_re (strip c) = true
  end ->
  step self (pre ++ l_open :: body ++ tail)%list st
  = mkState (current_section st) (current_section_name st)
      (List.length pre + List.length body + 2)
      (with_block_record self st body)
      (flow_mapper st) (section_module st) (section_details st).
Proof.
  intros Hi Hopen Hbody Htail. unfold step.
  rewrite Hi, nth_error_mid, (exec_open_classify l_open Hopen).
  unfold exec_block_step. rewrite Hi, skipn_mid.
  rewrite collect_exec_block_body by assumption.
  cbn [app]. unfold with_block_record. f_equal. lia.
Qed.

(** X8. A tagged block with any number of lines between [<Exec>] and
    the first line matching [</Exec>] yields, inside an open section and
    when some line of it is not blank, exactly one record whose value
    is the non-blank lines, trimmed and joined by newlines; a block of
    blank lines only, or a block outside any section, yields no record.
    In every case the cursor ends after the closing line and nothing
    else changes. *)
Theorem X8_exec_block_any_length :
  forall (self : NXLogConfigAnalyzer) (pre body post : list string)
         (l_open l_close : string) (st : PState),
    line_i st = List.length pre ->
    matches exec_open_re (strip l_open) = true ->
    forallb no_close body = true ->
    matches exec_close_re (strip l_close) = true ->
    step self (pre ++ l_open :: body ++ l_close :: post)%list st
    = mkState (current_section st) (current_section_name st)
        (List.length pre + List.length body + 2)
        (with_block_record self st body)
        (flow_mapper st) (section_module st) (section_details st).
Proof.
  intros self pre body post l_open l_close st Hi Hopen Hbody Hclose.
  now apply exec_block_step_body.
Qed.

(** X8 at a block of three lines, the second blank. *)
Lemma X8_exec_block_any_length_witness :
  let lines := ["<Input in1>"; "<Exec>"; "a();"; "  "; " b(); "; "</Exec>";
                "</Input>"] in
  let st' := step (mkAnalyzer []) lines (open_step initial_state "Input" "in1") in
  map p_Valeur (file_data st') = ["a();" ++ nl ++ "b();"]
  /\ line_i st' = 6.
Proof.
  cbv zeta.
  change ["<Input in1>"; "<Exec>"; "a();"; "  "; " b(); "; "</Exec>"; "</Input>"]
    with (["<Input in1>"]
          ++ "<Exec>" :: ["a();"; "  "; " b(); "] ++ "</Exec>" :: ["</Input>"])%list.
  rewrite (X8_exec_block_any_length (mkAnalyzer []) ["<Input in1>"]
             ["a();"; "  "; " b(); "] ["</Input>"] "<Exec>" "</Exec>"
             (open_step initial_state "Input" "in1"));
    try (vm_compute; reflexivity).
  split; vm_compute; reflexivity.
Defined.

(** X9. A tagged block that is never closed takes every remaining line
    of the input: the cursor ends one line past the end, so that the
    scan is over, the section that was open stays unregistered, and the
    one record, if any, holds all the remaining non-blank lines. *)
Theorem X9_exec_block_unterminated :
  forall (self : NXLogConfigAnalyzer) (pre body : list string)
         (l_open : string) (st : PState),
    line_i st = List.length pre ->
    matches exec_open_re (strip l_open) = true ->
    forallb no_close body = true ->
    let lines := (pre ++ l_open :: body)%list in
    let st' := step self lines st in
    st' = mkState (current_section st) (current_section_name st)
            (List.length lines + 1)
            (with_block_record self st body)
            (flow_mapper st) (section_module st) (section_details st)
    /\ forall k, run self lines k st' = st'.
Proof.
  intros self pre body l_open st Hi Hopen Hbody lines st'.
  assert (H : st' = mkState (current_section st) (current_section_name st)
                      (List.length lines + 1)
                      (with_block_record self st body)
                      (flow_mapper st) (section_module st) (section_details st)).
  { subst st' lines.
    rewrite <- (app_nil_r body) at 1.
    rewrite (exec_block_step_body self pre body [] l_open st Hi Hopen Hbody I).
    f_equal. rewrite length_app. cbn [List.length]. lia. }
  split; [exact H|].
  intros k. apply run_fixed. unfold step.
  assert (Hout : nth_error lines (line_i st') = None).
  { apply nth_error_None. rewrite H. cbn [line_i]. lia. }
  now rewrite Hout.
Qed.

(** X9 at a section whose block is never closed, followed by the
    opening of another section. *)
Lemma X9_exec_block_unterminated_witness :
  let lines := ["<Input in1>"; "<Exec>"; "a();"; "</Input>"; "<Output out1>"] in
  let st' := step (mkAnalyzer []) lines (open_step initial_state "Input" "in1") in
  st' = mkState (Some "Input") (Some "in1") 6
          (with_block_record (mkAnalyzer [])
             (open_step initial_state "Input" "in1")
             ["a();"; "</Input>"; "<Output out1>"])
          new_mapper None []
  /\ forall k, run (mkAnalyzer []) lines k st' = st'.
Proof.
  apply (X9_exec_block_unterminated (mkAnalyzer []) ["<Input in1>"]
           ["a();"; "</Input>"; "<Output out1>"] "<Exec>"
           (open_step initial_state "Input" "in1"));
    vm_compute; reflexivity.
Defined.

(** ** Runs of bare [Exec] lines of any length *)

Lemma collect_exec_lines_run (run_lines post : list string) :
  forall acc j,
    forallb is_run_line run_lines = true ->
    collect_exec_lines (run_lines ++ post) acc j
    = collect_exec_lines post (acc ++ flat_map exec_value run_lines)%list
                         (j + List.length run_lines).
Proof.
  induction run_lines as [|l rl IH]; intros acc j Hrun.
  - cbn [app flat_map List.length]. now rewrite app_nil_r, Nat.add_0_r.
  - cbn [forallb] in Hrun. apply andb_true_iff in Hrun.
    destruct Hrun as [Hl Hrun]. unfold is_run_line in Hl.
    cbn [app collect_exec_lines flat_map List.length]. unfold exec_value at 1.
    destruct (is_empty (strip l)).
    + rewrite IH by exact Hrun. cbn [app]. f_equal. lia.
    + cbn [orb] in Hl.
      destruct (re_match next_exec_re (strip l)) as [[|g1 gs]|];
        try discriminate.
      rewrite IH by exact Hrun. rewrite <- app_assoc. f_equal. lia.
Qed.

Lemma exec_name_plain (n : string) :
  String.eqb (lower n) "exec" = true ->
  String.eqb n "Module" = false /\ String.eqb n "Path" = false.
Proof.
  intros H. split.
  - destruct (String.eqb n "Module") eqn:E; [|reflexivity].
    apply String.eqb_eq in E. subst n. cbv in H. discriminate H.
  - destruct (String.eqb n "Path") eqn:E; [|reflexivity].
    apply String.eqb_eq in E. subst n. cbv in H. discriminate H.
Qed.

(** X10. A bare [Exec] line inside an open section is merged with all
    the bare [Exec] lines that follow it, blank lines between them
    notwithstanding: the iteration appends one record under the name as
    the first line spells it, whose value is the values of the run
    joined by [ | ], with one layer of enclosing quotes removed from the
    joined text; the cursor ends at the first non-blank line after the
    run, and only the attribute of that name changes besides. *)
Theorem X10_exec_merge_any_length :
  forall (self : NXLogConfigAnalyzer) (pre run_lines post : list string)
         (l_first n g2 : string) (st : PState),
    line_i st = List.length pre ->
    truthy_opt (current_section st) = true ->
    classify l_first = ParamLine n g2 ->
    String.eqb (lower n) "exec" = true ->
    forallb is_run_line run_lines = true ->
    exec_run_ends post ->
    let value :=
      strip_quotes (join " | " (strip g2 :: flat_map exec_value run_lines)) in
    step self (pre ++ l_first :: run_lines ++ post)%list st
    = mkState (current_section st) (current_section_name st)
        (List.length pre + 1 + List.length run_lines + leading_blanks post)
        (file_data st
         ++ [mkRecord (current_section st) (current_section_name st) n value
               (describe self n
                  ("Param" ++ String (ascii_of_nat 232) "tre sp"
                   ++ e_acute ++ "cifique au module"))])%list
        (flow_mapper st) (section_module st)
        (dict_set (section_details st) n value).
Proof.
  intros self pre run_lines post l_first n g2 st Hi Ht Hc Hn Hrun Hend value.
  destruct (exec_name_plain n Hn) as [Hm Hp].
  unfold step. rewrite Hi, nth_error_mid, Hc, Ht.
  unfold param_step, merged_value. rewrite Hi, Hn, skipn_mid.
  rewrite collect_exec_lines_run, collect_exec_lines_end by assumption.
  cbn [app]. rewrite Hm, Hp, andb_false_r. subst value.
  f_equal. lia.
Qed.

(** X10 at a run of three values with a blank line inside, the name
    written in capitals on the first line. *)
Lemma X10_exec_merge_any_length_witness :
  let lines := ["<Input in1>"; "EXEC a"; EmptyString; "exec b"; "Exec c"; "</Input>"] in
  let st' := step (mkAnalyzer []) lines (open_step initial_state "Input" "in1") in
  map (fun r => (p_Parametre r, p_Valeur r)) (file_data st')
  = [("EXEC", "a | b | c")]
  /\ line_i st' = 5.
Proof.
  cbv zeta.
  change ["<Input in1>"; "EXEC a"; EmptyString; "exec b"; "Exec c"; "</Input>"]
    with (["<Input in1>"] ++ "EXEC a" :: [EmptyString; "exec b"; "Exec c"] ++ ["</Input>"])%list.
  rewrite (X10_exec_merge_any_length (mkAnalyzer []) ["<Input in1>"]
             [EmptyString; "exec b"; "Exec c"] ["</Input>"] "EXEC a" "EXEC" "a"
             (open_step initial_state "Input" "in1"));
    try (vm_compute; reflexivity).
  split; vm_compute; reflexivity.
Defined.

(** ** Registration of a section and its attributes *)

Lemma param_entry_some (raw n v : string) :
  param_entry raw = Some (n, v) ->
  exists g2,
    classify raw = ParamLine n g2
    /\ String.eqb (lower n) "exec" = false
    /\ v = strip_quotes (strip g2).
Proof.
  unfold param_entry. destruct (classify raw); try discriminate.
  destruct (String.eqb (lower param_name) "exec") eqn:E; [discriminate|].
  intros H. injection H as <- <-. now exists group2.
Qed.

Lemma set_all_get (params : list (string * string)) (k : string) :
  forall d, dict_get (set_all params d) k = last_value_from k (dict_get d k) params.
Proof.
  unfold set_all, last_value_from.
  induction params as [|[n v] params IH]; intros d; [reflexivity|].
  cbn [fold_left fst snd]. rewrite IH, dict_get_set. reflexivity.
Qed.

Lemma add_route_sections (m : FlowMapper) (n p : string) (pr c : option string) :
  sections (add_route m n p pr c) = sections m
  /\ sections_info (add_route m n p pr c) = sections_info m.
Proof. split; reflexivity. Qed.

(** A run of parameter lines other than [Exec] inside a section: the
    attributes are assigned in order, one record is appended per line
    and the section tables are left alone. *)
Lemma run_param_lines (self : NXLogConfigAnalyzer) (lines : list string)
      (seg : list string) :
  forall (params : list (string * string)) (base : nat) (st : PState),
    (forall j raw, nth_error seg j = Some raw ->
                   nth_error lines (base + j) = Some raw) ->
    map param_entry seg = map Some params ->
    line_i st = base ->
    truthy_opt (current_section st) = true ->
    let st' := run self lines (List.length seg) st in
    line_i st' = base + List.length seg
    /\ current_section st' = current_section st
    /\ current_section_name st' = current_section_name st
    /\ section_details st' = set_all params (section_details st)
    /\ section_module st' = last_value_from "Module" (section_module st) params
    /\ sections (flow_mapper st') = sections (flow_mapper st)
    /\ sections_info (flow_mapper st') = sections_info (flow_mapper st)
    /\ file_data st'
       = (file_data st
          ++ map (entry_record self (current_section st) (current_section_name st))
                 params)%list.
Proof.
  induction seg as [|x seg IH]; intros params base st Hseg Hmap Hi Ht.
  - destruct params; [|discriminate]. cbn. rewrite app_nil_r.
    repeat split. lia.
  - destruct params as [|[n v] params]; [discriminate|].
    cbn [map] in Hmap. injection Hmap as Hx Hmap.
    destruct (param_entry_some x n v Hx) as (g2 & Hc & Hn & ->).
    assert (Hnth : nth_error lines (line_i st) = Some x).
    { replace (line_i st) with (base + 0) by lia. now apply Hseg. }
    cbn [List.length run].
    rewrite (step_plain_param self lines st x n g2 Hnth Hc Hn Ht).
    match goal with |- context [run self lines _ ?s] => set (st1 := s) end.
    destruct (IH params (base + 1) st1)
      as (H1 & H2 & H3 & H4 & H5 & H6 & H7 & H8).
    + intros j raw Hj. replace (base + 1 + j) with (base + S j) by lia.
      now apply Hseg.
    + exact Hmap.
    + subst st1. cbn [line_i]. lia.
    + exact Ht.
    + cbn zeta. rewrite H1, H2, H3, H4, H5, H6, H7, H8. subst st1.
      cbn [current_section current_section_name section_details
           section_module flow_mapper file_data].
      repeat split.
      * lia.
      * destruct (in_route st && String.eqb n "Path"); reflexivity.
      * destruct (in_route st && String.eqb n "Path"); reflexivity.
      * rewrite <- app_assoc. reflexivity.
Qed.

(** X11. A section block made of an opening tag, parameter lines other
    than [Exec] and a closing tag registers the section under its name
    with the type of the tag, with the value of its last [Module] line
    as module (none, and the empty text in [sections_info], when it has
    no such line) and with an attribute map in which every name holds
    the value of the last line of that name; it appends one record per
    parameter line, in order, and leaves no section open. *)
Theorem X11_section_registration :
  forall (self : NXLogConfigAnalyzer) (pre seg post : list string)
         (l_open l_close t name : string) (params : list (string * string))
         (st : PState),
    line_i st = List.length pre ->
    classify l_open = OpenTag t name ->
    map param_entry seg = map Some params ->
    classify l_close = CloseTag ->
    let lines := (pre ++ l_open :: seg ++ l_close :: post)%list in
    let st' := run self lines (1 + (List.length seg + 1)) st in
    let details := set_all params [] in
    dict_get (sections_info (flow_mapper st')) name
    = Some (mkInfo t (or_empty (last_value "Module" params)) details)
    /\ dict_get (sections (flow_mapper st')) name
       = Some (mkSection t (last_value "Module" params) details [])
    /\ (forall k, dict_get details k = last_value k params)
    /\ current_section st' = None
    /\ line_i st' = List.length pre + List.length seg + 2
    /\ file_data st'
       = (file_data st ++ map (entry_record self (Some t) (Some name)) params)%list.
Proof.
  intros self pre seg post l_open l_close t name params st
         Hi Hopen Hmap Hclose lines st' details.
  destruct (classify_open_truthy l_open t name Hopen) as [Tt Tn].
  subst st'. rewrite !run_add.
  assert (H0 : run self lines 1 st = open_step st t name).
  { cbn [run]. unfold step, lines. rewrite Hi, nth_error_mid, Hopen. reflexivity. }
  rewrite H0. set (st1 := open_step st t name).
  destruct (run_param_lines self lines seg params (List.length pre + 1) st1)
    as (B1 & B2 & B3 & B4 & B5 & B6 & B7 & B8).
  { intros j raw Hj. unfold lines. now apply nth_error_block. }
  { exact Hmap. }
  { subst st1. cbn [open_step line_i]. lia. }
  { subst st1. cbn [open_step current_section truthy_opt]. exact Tt. }
  set (st2 := run self lines (List.length seg) st1) in *.
  cbn [st1 open_step current_section current_section_name section_details
       section_module flow_mapper file_data] in B2, B3, B4, B5, B6, B7, B8.
  assert (Hlines : lines = ((pre ++ l_open :: seg) ++ l_close :: post)%list).
  { unfold lines. rewrite <- app_assoc. reflexivity. }
  assert (Hlen : List.length (pre ++ l_open :: seg)
                 = List.length pre + 1 + List.length seg).
  { rewrite length_app. cbn [List.length]. lia. }
  assert (Hl : nth_error lines (line_i st2) = Some l_close).
  { rewrite B1, Hlines, <- Hlen. apply nth_error_mid. }
  assert (H2 : run self lines 1 st2 = close_step st2).
  { cbn [run]. unfold step. now rewrite Hl, Hclose. }
  rewrite H2. unfold close_step.
  cbn [flow_mapper current_section line_i file_data].
  rewrite B2, B3, B4, B5, B8. cbn [truthy_opt or_empty]. rewrite Tt, Tn.
  cbn [andb]. unfold add_section. cbn [sections sections_info].
  rewrite !dict_get_set, !String.eqb_refl.
  repeat split.
  - intros k. unfold details. now rewrite set_all_get.
  - lia.
Qed.

(** X11 at an [Input] section with a quoted module, a file given twice
    and a format. *)
Lemma X11_section_registration_witness :
  let lines := ["<Input in1>"; "Module 'im_file'"; "File /var/log/a";
                "Format csv"; "File /var/log/b"; "</Input>"] in
  let st' := run (mkAnalyzer []) lines 6 initial_state in
  let params := [("Module", "im_file"); ("File", "/var/log/a");
                 ("Format", "csv"); ("File", "/var/log/b")] in
  let details := set_all params [] in
  dict_get (sections_info (flow_mapper st')) "in1"
  = Some (mkInfo "Input" "im_file" details)
  /\ dict_get (sections (flow_mapper st')) "in1"
     = Some (mkSection "Input" (Some "im_file") details [])
  /\ (forall k, dict_get details k = last_value k params)
  /\ current_section st' = None
  /\ line_i st' = 6
  /\ file_data st'
     = map (entry_record (mkAnalyzer []) (Some "Input") (Some "in1")) params.
Proof.
  apply (X11_section_registration (mkAnalyzer []) []
           ["Module 'im_file'"; "File /var/log/a"; "Format csv";
            "File /var/log/b"]
           [] "<Input in1>" "</Input>" "Input" "in1"
           [("Module", "im_file"); ("File", "/var/log/a");
            ("Format", "csv"); ("File", "/var/log/b")]
           initial_state);
    vm_compute; reflexivity.
Defined.

(** ** What the analysis writes *)

Lemma or_na_shown (o : option string) : shown_as o (or_na o).
Proof. destruct o as [[|c v]|]; reflexivity. Qed.

Lemma kinds_described (s0 secs : dict SectionEntry) (name : string) :
  same_kinds s0 secs ->
  end_described s0 name (type_of secs name) (module_of secs name).
Proof.
  intros Hk. destruct (Hk name) as [<- <-].
  unfold end_described, type_of, module_of.
  destruct (dict_get s0 name); now split.
Qed.

Lemma route_flows_described (s0 secs : dict SectionEntry) (rts : dict RouteInfo)
      (name : string) (r : RouteInfo) :
  same_kinds s0 secs ->
  In (name, r) rts ->
  Forall (flow_described s0 rts) (route_flows secs name r).
Proof.
  intros Hk Hin. unfold route_flows. apply Forall_forall. intros f Hf.
  apply in_map_iff in Hf. destruct Hf as (i & <- & Hi).
  unfold flow_described, make_flow.
  cbn [f_source_type f_target_type f_source_module f_target_module
       f_destination f_target f_source f_priority f_condition f_route].
  split; [now apply kinds_described|].
  split; [now apply kinds_described|].
  split; [reflexivity|].
  exists r. split; [exact Hin|]. split; [|split; apply or_na_shown].
  rewrite <- (index_pairs EmptyString).
  apply in_map_iff. now exists i.
Qed.

Lemma analyze_fold_described (s0 : dict SectionEntry) (rts : dict RouteInfo)
      (l : dict RouteInfo) :
  forall secs fl,
    same_kinds s0 secs ->
    (forall kv, In kv l -> In kv rts) ->
    Forall (flow_described s0 rts) fl ->
    Forall (flow_described s0 rts) (snd (fold_left analyze_route l (secs, fl))).
Proof.
  induction l as [|[name r] l IH]; intros secs fl Hk Hsub Hfl; [exact Hfl|].
  cbn [fold_left]. unfold analyze_route at 2. cbn [fst snd].
  assert (Hk' : same_kinds s0 (mark_connected name secs (all_components r))).
  { eapply same_kinds_trans; [exact Hk | apply mark_connected_kinds]. }
  apply IH.
  - exact Hk'.
  - intros kv Hkv. apply Hsub. now right.
  - apply Forall_app. split; [exact Hfl|].
    apply route_flows_described; [exact Hk' | apply Hsub; now left].
Qed.

(** X12. Every flow produced by the analysis belongs to a registered
    route, of which its source and its target are two consecutive
    components.  It carries, for its source and for its target, the type
    and the module under which the section of that name was declared
    before the analysis, and [Unknown] for both when no section of that
    name is declared; its destination is its target; its priority and
    its condition are those of the route, replaced by [N/A] when absent
    or empty. *)
Theorem X12_flows_described :
  forall m : FlowMapper,
    Forall (flow_described (sections m) (routes m)) (flows (analyzed m)).
Proof.
  intros m. unfold analyzed. cbn [flows].
  apply analyze_fold_described.
  - apply same_kinds_refl.
  - auto.
  - constructor.
Qed.

(** X13. The analysis produces, in all, one flow less than components
    for every route that has components, and none for a route without:
    the number of flows is the sum, over the routes, of the number of
    components less one. *)
Theorem X13_flow_count :
  forall m : FlowMapper,
    List.length (flows (analyzed m))
    = list_sum
        (map (fun kv => List.length (all_components (snd kv)) - 1) (routes m)).
Proof.
  intros m.
  rewrite <- (length_map edge_of), analyzed_edges, length_flat_map.
  f_equal. apply map_ext. intros kv. unfold route_edges.
  rewrite length_map. apply adjacent_pairs_length.
Qed.

(** ** Routes recorded in the sections *)

Lemma add_marks_nil (e : SectionEntry) : add_marks [] e = e.
Proof. destruct e. unfold add_marks. cbn. now rewrite app_nil_r. Qed.

Lemma add_marks_app (l1 l2 : list string) (e : SectionEntry) :
  add_marks l2 (add_marks l1 e) = add_marks (l1 ++ l2) e.
Proof. unfold add_marks. cbn. now rewrite app_assoc. Qed.

Lemma mark_connected_get (route_name name : string) (names : list string) :
  forall secs,
    dict_get (mark_connected route_name secs names) name
    = option_map
        (add_marks (repeat route_name (count_occ string_dec names name)))
        (dict_get secs name).
Proof.
  unfold mark_connected.
  induction names as [|x names IH]; intros secs; cbn [fold_left count_occ].
  - cbn [repeat]. destruct (dict_get secs name) as [e|]; [|reflexivity].
    cbn [option_map]. now rewrite add_marks_nil.
  - rewrite IH. destruct (string_dec x name) as [-> | Hne].
    + destruct (dict_get secs name) as [e|] eqn:He.
      * rewrite dict_get_set, String.eqb_refl. cbn [option_map repeat]. f_equal.
        change (mkSection (s_type e) (s_module e) (s_details e)
                          (s_connected_routes e ++ [route_name])%list)
          with (add_marks [route_name] e).
        now rewrite add_marks_app.
      * now rewrite He.
    + destruct (dict_get secs x) as [e|]; [|reflexivity].
      rewrite dict_get_set.
      destruct (String.eqb x name) eqn:E; [|reflexivity].
      apply String.eqb_eq in E. contradiction.
Qed.

Lemma analyze_fold_get (name : string) (l : dict RouteInfo) :
  forall secs fl,
    dict_get (fst (fold_left analyze_route l (secs, fl))) name
    = option_map (add_marks (marks l name)) (dict_get secs name).
Proof.
  unfold marks.
  induction l as [|[rn r] l IH]; intros secs fl; cbn [fold_left flat_map].
  - cbn [fst]. destruct (dict_get secs name) as [e|]; [|reflexivity].
    cbn [option_map]. now rewrite add_marks_nil.
  - unfold analyze_route at 2. cbn [fst snd].
    rewrite IH, mark_connected_get.
    destruct (dict_get secs name) as [e|]; [|reflexivity].
    cbn [option_map]. now rewrite add_marks_app.
Qed.

Lemma analyzed_sections_get (m : FlowMapper) (name : string) :
  dict_get (sections (analyzed m)) name
  = option_map (add_marks (marks (routes m) name)) (dict_get (sections m) name).
Proof. unfold analyzed. cbn [sections]. apply analyze_fold_get. Qed.

(** X14. The analysis appends to the [connected_routes] of every
    declared section the name of each route once per occurrence of the
    section among the route's components, in the order of the routes and
    without removing duplicates; it changes nothing else in the section
    and declares no section.  Analysing the same mapper a second time
    appends the same names once more. *)
Theorem X14_connected_routes :
  forall (m : FlowMapper) (name : string),
    dict_get (sections (analyzed m)) name
    = option_map (add_marks (marks (routes m) name)) (dict_get (sections m) name)
    /\ dict_get (sections (analyzed (analyzed m))) name
       = option_map
           (add_marks (marks (routes m) name ++ marks (routes m) name))
           (dict_get (sections m) name).
Proof.
  intros m name. split; [apply analyzed_sections_get|].
  rewrite analyzed_sections_get, analyzed_sections_get.
  change (routes (analyzed m)) with (routes m).
  destruct (dict_get (sections m) name) as [e|]; [|reflexivity].
  cbn [option_map]. now rewrite add_marks_app.
Qed.

(** ** The two counts of unconnected sections *)

Lemma flat_map_nil_inv {A B : Type} (f : A -> list B) (l : list A) :
  flat_map f l = [] -> forall x, In x l -> f x = [].
Proof.
  induction l as [|a l IH]; intros H x Hx; [contradiction|].
  cbn [flat_map] in H. apply app_eq_nil in H. destruct H as [Ha Hl].
  destruct Hx as [<- | Hx]; [exact Ha | now apply IH].
Qed.

Lemma marks_nil (rts : dict RouteInfo) (name : string) :
  marks rts name = [] ->
  forall kv, In kv rts -> ~ In name (all_components (snd kv)).
Proof.
  intros H kv Hkv Hin.
  pose proof (flat_map_nil_inv _ _ H kv Hkv) as Hr. cbn beta in Hr.
  apply (count_occ_In string_dec) in Hin.
  destruct (count_occ string_dec (all_components (snd kv)) name);
    [lia | discriminate Hr].
Qed.

Lemma no_marks_unconnected (m : FlowMapper) (name : string) (e : SectionEntry) :
  dict_get (sections (analyzed m)) name = Some e ->
  s_connected_routes e = [] ->
  In name (dict_keys (sections_info m)) ->
  In name (unconnected_sections (analyzed m)).
Proof.
  intros He Hnil Hdecl. rewrite analyzed_sections_get in He.
  destruct (dict_get (sections m) name) as [e0|]; [|discriminate].
  cbn [option_map] in He. injection He as <-.
  cbn [add_marks s_connected_routes] in Hnil.
  apply app_eq_nil in Hnil. destruct Hnil as [_ Hmarks].
  apply unconnected_iff. split; [exact Hdecl|].
  intros Hend. apply endpoint_is_component in Hend.
  destruct Hend as (kv & Hkv & Hin).
  exact (marks_nil (routes m) name Hmarks kv Hkv Hin).
Qed.

(** X15. After the analysis, a declared section whose
    [connected_routes] is empty is among the unconnected sections: what
    [get_flow_summary] counts as unconnected is always unconnected for
    the statistics and the diagram as well. *)
Theorem X15_no_route_unconnected :
  forall (m : FlowMapper) (name : string) (e : SectionEntry),
    dict_get (sections (analyzed m)) name = Some e ->
    s_connected_routes e = [] ->
    In name (dict_keys (sections_info m)) ->
    In name (unconnected_sections (analyzed m)).
Proof. exact no_marks_unconnected. Qed.

(** X15 at the section [spare] of [spare_doc]. *)
Lemma X15_no_route_unconnected_witness :
  In "spare" (unconnected_sections (analyzed spare_mapper)).
Proof.
  apply (X15_no_route_unconnected spare_mapper "spare"
           (mkSection "Input" (Some "im_null") [("Module", "im_null")] [])).
  - vm_compute. reflexivity.
  - reflexivity.
  - exact spare_declared.
Defined.

Lemma dict_set_nodup {V : Type} (d : dict V) (k : string) (v : V) :
  NoDup (dict_keys d) -> NoDup (dict_keys (dict_set d k v)).
Proof.
  induction d as [|[k0 v0] d IH]; intros H; cbn [dict_set].
  - constructor; [intros [] | constructor].
  - change (dict_keys ((k0, v0) :: d)) with (k0 :: dict_keys d) in H.
    inversion H as [|? ? Hnot Hd]. subst.
    destruct (String.eqb k0 k) eqn:E.
    + change (NoDup (k0 :: dict_keys d)). now constructor.
    + change (NoDup (k0 :: dict_keys (dict_set d k v))). constructor.
      * rewrite dict_keys_set. intros [Hin | ->]; [now apply Hnot|].
        now rewrite String.eqb_refl in E.
      * now apply IH.
Qed.

Lemma nodup_dict_get {V : Type} (d : dict V) (k : string) (v : V) :
  NoDup (dict_keys d) -> In (k, v) d -> dict_get d k = Some v.
Proof.
  induction d as [|[k0 v0] d IH]; intros H Hin; [contradiction|].
  change (dict_keys ((k0, v0) :: d)) with (k0 :: dict_keys d) in H.
  inversion H as [|? ? Hnot Hd]. subst. cbn [dict_get].
  destruct Hin as [Heq | Hin].
  - injection Heq as -> ->. now rewrite String.eqb_refl.
  - destruct (String.eqb k0 k) eqn:E; [|now apply IH].
    apply String.eqb_eq in E. subst k0. exfalso. apply Hnot.
    apply (in_map fst) in Hin. exact Hin.
Qed.

Lemma set_of_list_nodup (l : list string) :
  forall acc, NoDup (acc ++ l) -> fold_left set_add l acc = (acc ++ l)%list.
Proof.
  induction l as [|x l IH]; intros acc H; cbn [fold_left].
  - now rewrite app_nil_r.
  - assert (Hx : set_mem x acc = false).
    { apply set_mem_false. intros Hin.
      apply NoDup_remove_2 in H. apply H. apply in_app_iff. now left. }
    unfold set_add at 2. rewrite Hx.
    rewrite IH; rewrite <- app_assoc; [reflexivity | exact H].
Qed.

Lemma filter_pairs_le {V : Type} (P : V -> bool) (Q : string -> bool)
      (d : dict V) :
  (forall k v, In (k, v) d -> P v = true -> Q k = true) ->
  List.length (filter P (dict_values d))
  <= List.length (filter Q (dict_keys d)).
Proof.
  unfold dict_values, dict_keys.
  induction d as [|[k v] d IH]; intros H; [cbn; lia|].
  cbn [map filter fst snd].
  assert (IH' : List.length (filter P (map snd d))
                <= List.length (filter Q (map fst d)))
    by (apply IH; intros k' v' Hin; apply H; now right).
  destruct (P v) eqn:Hp.
  - rewrite (H k v (or_introl eq_refl) Hp). cbn [List.length]. lia.
  - destruct (Q k); cbn [List.length]; lia.
Qed.

Lemma step_sections_nodup (self : NXLogConfigAnalyzer) (lines : list string)
      (st : PState) :
  NoDup (dict_keys (sections (flow_mapper st))) ->
  NoDup (dict_keys (sections (flow_mapper (step self lines st)))).
Proof.
  intros H. unfold step.
  destruct (nth_error lines (line_i st)) as [raw|]; [|exact H].
  destruct (classify raw); try exact H.
  - cbn [close_step flow_mapper].
    destruct (truthy_opt (current_section st)
              && truthy_opt (current_section_name st)); [|exact H].
    unfold add_section. cbn [sections]. now apply dict_set_nodup.
  - destruct (exec_block_step_context self lines st) as (_ & _ & ->). exact H.
  - destruct (truthy_opt (current_section st)); [|exact H].
    destruct (param_step_context self lines st param_name group2)
      as (_ & _ & _ & ->).
    exact H.
Qed.

Lemma scan_sections_nodup (self : NXLogConfigAnalyzer) (lines : list string) :
  NoDup (dict_keys (sections (flow_mapper (scan self lines)))).
Proof.
  unfold scan. generalize (List.length lines). intros k.
  induction k as [|k IH]; [constructor|].
  rewrite run_step_last. now apply step_sections_nodup.
Qed.

Lemma count_types_le (secs : list SectionEntry) (a b c d : string) :
  a <> b -> a <> c -> a <> d -> b <> c -> b <> d -> c <> d ->
  List.length (filter (fun s => String.eqb (s_type s) a) secs)
  + List.length (filter (fun s => String.eqb (s_type s) b) secs)
  + List.length (filter (fun s => String.eqb (s_type s) c) secs)
  + List.length (filter (fun s => String.eqb (s_type s) d) secs)
  <= List.length secs.
Proof.
  intros Hab Hac Had Hbc Hbd Hcd.
  induction secs as [|s secs IH]; [cbn; lia|].
  cbn [filter List.length].
  destruct (String.eqb (s_type s) a) eqn:Ea;
    destruct (String.eqb (s_type s) b) eqn:Eb;
    destruct (String.eqb (s_type s) c) eqn:Ec;
    destruct (String.eqb (s_type s) d) eqn:Ed;
    try apply String.eqb_eq in Ea; try apply String.eqb_eq in Eb;
    try apply String.eqb_eq in Ec; try apply String.eqb_eq in Ed;
    try congruence; cbn [List.length]; lia.
Qed.

(** X16. For every parsed document, the summary counts the registered
    sections as the statistics do, its four counts by type together do
    not exceed that number, and the sections it counts as unconnected
    (none of whose routes names them) are never more than the
    unconnected sections of the analysis (those at no end of a flow). *)
Theorem X16_summary_counts :
  forall (self : NXLogConfigAnalyzer) (content : string),
    let m := snd (parse_config_file self content) in
    let summary := get_flow_summary m in
    fs_total_sections summary = List.length (sections_info m)
    /\ fs_input_sections summary + fs_output_sections summary
       + fs_processor_sections summary + fs_extension_sections summary
       <= fs_total_sections summary
    /\ fs_unconnected_sections summary
       <= List.length (unconnected_sections m).
Proof.
  intros self content m summary.
  set (m0 := flow_mapper (scan self (lines_of content))).
  assert (Hm : m = analyzed m0) by reflexivity.
  assert (Hkeys : dict_keys (sections m) = dict_keys (sections_info m0)).
  { rewrite Hm. unfold analyzed. cbn [sections]. rewrite analyze_fold_keys.
    apply scan_tables_agree. }
  assert (Hnd : NoDup (dict_keys (sections m))).
  { rewrite Hm. unfold analyzed. cbn [sections]. rewrite analyze_fold_keys.
    apply scan_sections_nodup. }
  repeat split.
  - subst summary. cbn [get_flow_summary fs_total_sections].
    change (sections_info m) with (sections_info m0).
    rewrite <- (length_map fst (sections m)), <- (length_map fst (sections_info m0)).
    exact (f_equal (@List.length string) Hkeys).
  - subst summary.
    cbn [get_flow_summary fs_total_sections fs_input_sections
         fs_output_sections fs_processor_sections fs_extension_sections].
    unfold count_type.
    rewrite <- (length_map snd (sections m)).
    apply count_types_le; intros H; discriminate H.
  - subst summary. cbn [get_flow_summary fs_unconnected_sections].
    change (unconnected_sections m)
      with (set_diff (set_of_list (dict_keys (sections_info m0)))
                     (connected_sections (flows m))).
    unfold set_diff, set_of_list.
    rewrite (set_of_list_nodup (dict_keys (sections_info m0)) [])
      by (cbn [app]; rewrite <- Hkeys; exact Hnd).
    cbn [app]. rewrite <- Hkeys.
    apply filter_pairs_le. intros k e Hin Hp.
    assert (Hget : dict_get (sections m) k = Some e)
      by now apply nodup_dict_get.
    assert (Hun : In k (unconnected_sections (analyzed m0))).
    { apply (no_marks_unconnected m0 k e).
      - exact Hget.
      - unfold no_connected_routes in Hp.
        destruct (s_connected_routes e); [reflexivity | discriminate].
      - rewrite <- Hkeys. apply (in_map fst) in Hin. exact Hin. }
    unfold analyzed in Hun. cbn [unconnected_sections] in Hun.
    apply set_diff_In in Hun. destruct Hun as [_ Hun].
    apply negb_true_iff, set_mem_false. exact Hun.
Qed.

(** ** The two parsers on the same text *)

Lemma classify_config_exec_free (raw : string) :
  exec_free raw = true -> classify_config raw = classify raw.
Proof.
  unfold exec_free, classify, classify_config.
  destruct (is_empty (strip raw)); [reflexivity|].
  destruct (re_match section_re (strip raw)) as [[|g1 [|g2 gs]]|];
    try reflexivity;
    destruct (matches close_re (strip raw)); try reflexivity;
    destruct (matches exec_open_re (strip raw)); try reflexivity;
    intros H; discriminate H.
Qed.

Lemma config_run_step_last (lines : list string) (k : nat) :
  forall st, config_run lines (S k) st = config_step lines (config_run lines k st).
Proof.
  induction k as [|k IH]; intros st; [reflexivity|].
  change (config_run lines (S (S k)) st)
    with (config_run lines (S k) (config_step lines st)).
  rewrite IH. reflexivity.
Qed.

Lemma config_step_agree (self : NXLogConfigAnalyzer) (lines : list string)
      (st : PState) (ct : CState) :
  forallb exec_free lines = true ->
  scans_agree st ct ->
  scans_agree (step self lines st) (config_step lines ct).
Proof.
  intros Hfree (Hs & Hn & Hi & Hd & Hr & Hm & Hdet).
  unfold step, config_step. rewrite Hi.
  destruct (nth_error lines (line_i st)) as [raw|] eqn:Hraw;
    [|now repeat split].
  assert (Hex : exec_free raw = true).
  { rewrite forallb_forall in Hfree. apply Hfree.
    exact (nth_error_In _ _ Hraw). }
  rewrite (classify_config_exec_free raw Hex).
  unfold exec_free in Hex.
  destruct (classify raw) as [|t n| | |pn g2|];
    try discriminate Hex;
    try (unfold advance, config_advance, open_step, config_open_step,
         scans_agree;
         cbn [c_current_section c_current_section_name c_i config_data
              c_flow_mapper c_section_module c_section_details
              current_section current_section_name line_i file_data
              flow_mapper section_module section_details];
         rewrite ?Hs, ?Hn, ?Hi, ?Hd, ?Hr, ?Hm, ?Hdet; now repeat split).
  - unfold close_step, config_close_step, scans_agree.
    cbn [c_current_section c_current_section_name c_i config_data
         c_flow_mapper c_section_module c_section_details
         current_section current_section_name line_i file_data
         flow_mapper section_module section_details].
    rewrite Hs, Hn, Hi, Hd.
    repeat split.
    destruct (truthy_opt (current_section st)
              && truthy_opt (current_section_name st)); exact Hr.
  - rewrite Hs.
    destruct (truthy_opt (current_section st)).
    + apply negb_true_iff in Hex.
      unfold param_step, config_param_step.
      rewrite (merged_value_plain _ _ _ _ Hex).
      unfold scans_agree.
      cbn [c_current_section c_current_section_name c_i config_data
           c_flow_mapper c_section_module c_section_details
           current_section current_section_name line_i file_data
           flow_mapper section_module section_details].
      rewrite Hs, Hn, Hi, Hd, Hm, Hdet, map_app.
      repeat split.
      destruct (match current_section st with
                | Some s => String.eqb s "Route"
                | None => false
                end && String.eqb pn "Path"); [|exact Hr].
      unfold add_route, set_routes. cbn [routes]. now rewrite Hr.
    + unfold advance, config_advance, scans_agree.
      cbn [c_current_section c_current_section_name c_i config_data
           c_flow_mapper c_section_module c_section_details
           current_section current_section_name line_i file_data
           flow_mapper section_module section_details].
      rewrite ?Hs, ?Hn, ?Hi, ?Hd, ?Hr, ?Hm, ?Hdet. now repeat split.
Qed.

Lemma runs_agree (self : NXLogConfigAnalyzer) (lines : list string) (k : nat) :
  forallb exec_free lines = true ->
  scans_agree (run self lines k initial_state)
              (config_run lines k config_initial_state).
Proof.
  intros Hfree. induction k as [|k IH]; [now repeat split|].
  rewrite run_step_last, config_run_step_last.
  now apply config_step_agree.
Qed.

Lemma route_flows_wiring (secs secs' : dict SectionEntry) (name : string)
      (r : RouteInfo) :
  map wiring (route_flows secs name r) = map wiring (route_flows secs' name r).
Proof.
  unfold route_flows. rewrite !map_map. apply map_ext. intros i. reflexivity.
Qed.

Lemma analyze_fold_wiring (l : dict RouteInfo) :
  forall acc acc' : dict SectionEntry * list Flow,
    map wiring (snd acc) = map wiring (snd acc') ->
    map wiring (snd (fold_left analyze_route l acc))
    = map wiring (snd (fold_left analyze_route l acc')).
Proof.
  induction l as [|[name r] l IH]; intros acc acc' H; [exact H|].
  cbn [fold_left]. apply IH. unfold analyze_route. cbn [fst snd].
  rewrite !map_app. f_equal; [exact H | apply route_flows_wiring].
Qed.

Lemma analyzed_wiring (m m' : FlowMapper) :
  routes m = routes m' ->
  map wiring (flows (analyzed m)) = map wiring (flows (analyzed m')).
Proof.
  intros H. unfold analyzed. cbn [flows]. rewrite H.
  now apply analyze_fold_wiring.
Qed.

(** X17. On a text without [<Exec>] blocks and without bare [Exec]
    lines, [parse_nxlog_config] returns the records of
    [parse_config_file] (without their descriptions) in the same order,
    and flows with the same route, source, target, priority and
    condition in the same order. *)
Theorem X17_parsers_agree :
  forall (listing : pyset -> list string) (self : NXLogConfigAnalyzer)
         (content : string),
    forallb exec_free (lines_of content) = true ->
    fst (parse_nxlog_config listing content)
    = map config_entry_of (fst (parse_config_file self content))
    /\ map wiring (a_flows (snd (parse_nxlog_config listing content)))
       = map wiring (flows (snd (parse_config_file self content))).
Proof.
  intros listing self content Hfree.
  pose proof (runs_agree self (lines_of content)
                (List.length (lines_of content)) Hfree)
    as (_ & _ & _ & Hd & Hr & _ & _).
  fold (scan self (lines_of content)) in Hd, Hr.
  fold (config_scan (lines_of content)) in Hd, Hr.
  split.
  - exact Hd.
  - unfold parse_nxlog_config, parse_config_file, analyze_flows.
    cbn [fst snd a_flows]. now apply analyzed_wiring.
Qed.

(** X17 at [spare_doc]. *)
Lemma X17_parsers_agree_witness :
  fst (parse_nxlog_config (fun names => names) spare_doc)
  = map config_entry_of (fst (parse_config_file (mkAnalyzer []) spare_doc))
  /\ map wiring
       (a_flows (snd (parse_nxlog_config (fun names => names) spare_doc)))
     = map wiring (flows (snd (parse_config_file (mkAnalyzer []) spare_doc))).
Proof.
  apply (X17_parsers_agree (fun names => names) (mkAnalyzer []) spare_doc).
  vm_compute. reflexivity.
Defined.

(** ** Keys and types of the registered sections *)

Lemma dict_set_Forall {V : Type} (P : string * V -> Prop) (d : dict V)
      (k : string) (v : V) :
  Forall P d -> P (k, v) -> Forall P (dict_set d k v).
Proof.
  intros Hd Hk. induction d as [|[k0 v0] d IH]; cbn [dict_set].
  - now constructor.
  - inversion Hd as [|? ? H0 Hd']. subst.
    destruct (String.eqb k0 k) eqn:E.
    + apply String.eqb_eq in E. subst k0. now constructor.
    + constructor; [exact H0 | now apply IH].
Qed.

Lemma truthy_opt_some (o : option string) :
  truthy_opt o = true -> exists s, o = Some s.
Proof. destruct o as [s|]; [now exists s | discriminate]. Qed.

Lemma step_section_tags (self : NXLogConfigAnalyzer) (lines : list string)
      (st : PState) :
  (forall t n, current_section st = Some t ->
               current_section_name st = Some n ->
               tag_in classify lines t n)
  /\ Forall (fun kv => tag_in classify lines (i_type (snd kv)) (fst kv))
            (sections_info (flow_mapper st)) ->
  (forall t n, current_section (step self lines st) = Some t ->
               current_section_name (step self lines st) = Some n ->
               tag_in classify lines t n)
  /\ Forall (fun kv => tag_in classify lines (i_type (snd kv)) (fst kv))
            (sections_info (flow_mapper (step self lines st))).
Proof.
  intros [Hctx Hsec]. unfold step.
  destruct (nth_error lines (line_i st)) as [raw|] eqn:Hraw;
    [|now split].
  apply nth_error_In in Hraw.
  destruct (classify raw) as [|t n| | |pn g2|] eqn:Hk;
    try (now split).
  - split; [|exact Hsec].
    cbn [open_step current_section current_section_name].
    intros t' n' Ht Hn. injection Ht as <-. injection Hn as <-.
    now exists raw.
  - split; [cbn [close_step current_section]; intros t n Ht; discriminate Ht|].
    cbn [close_step flow_mapper].
    destruct (truthy_opt (current_section st)) eqn:Et; [|exact Hsec].
    destruct (truthy_opt (current_section_name st)) eqn:En; [|exact Hsec].
    apply truthy_opt_some in Et, En.
    destruct Et as [t Et]. destruct En as [n En].
    cbn [andb]. unfold add_section. cbn [sections_info].
    apply dict_set_Forall; [exact Hsec|].
    rewrite Et, En. cbn [or_empty fst snd i_type]. now apply Hctx.
  - destruct (exec_block_step_context self lines st) as (-> & -> & ->).
    now split.
  - destruct (truthy_opt (current_section st)); [|now split].
    destruct (param_step_context self lines st pn g2) as (-> & -> & -> & _).
    now split.
Qed.

Lemma config_step_section_tags (lines : list string) (ct : CState) :
  (forall t n, c_current_section ct = Some t ->
               c_current_section_name ct = Some n ->
               tag_in classify_config lines t n)
  /\ Forall (fun kv => i_details (snd kv) = []
                       /\ tag_in classify_config lines
                                 (fst kv) (i_type (snd kv)))
            (sections_info (c_flow_mapper ct)) ->
  (forall t n, c_current_section (config_step lines ct) = Some t ->
               c_current_section_name (config_step lines ct) = Some n ->
               tag_in classify_config lines t n)
  /\ Forall (fun kv => i_details (snd kv) = []
                       /\ tag_in classify_config lines
                                 (fst kv) (i_type (snd kv)))
            (sections_info (c_flow_mapper (config_step lines ct))).
Proof.
  intros [Hctx Hsec]. unfold config_step.
  destruct (nth_error lines (c_i ct)) as [raw|] eqn:Hraw;
    [|now split].
  apply nth_error_In in Hraw.
  destruct (classify_config raw) as [|t n| | |pn g2|] eqn:Hk;
    try (now split).
  - split; [|exact Hsec].
    cbn [config_open_step c_current_section c_current_section_name].
    intros t' n' Ht Hn. injection Ht as <-. injection Hn as <-.
    now exists raw.
  - split;
      [cbn [config_close_step c_current_section]; intros t n Ht; discriminate Ht|].
    cbn [config_close_step c_flow_mapper].
    destruct (truthy_opt (c_current_section ct)) eqn:Et; [|exact Hsec].
    destruct (truthy_opt (c_current_section_name ct)) eqn:En; [|exact Hsec].
    apply truthy_opt_some in Et, En.
    destruct Et as [t Et]. destruct En as [n En].
    cbn [andb]. unfold add_section. cbn [sections_info].
    apply dict_set_Forall; [exact Hsec|].
    rewrite Et, En. cbn [or_empty fst snd i_type i_details].
    split; [reflexivity | now apply Hctx].
  - destruct (truthy_opt (c_current_section ct)); [|now split].
    split; [exact Hctx|].
    unfold config_param_step. cbn [c_flow_mapper].
    destruct (match c_current_section ct with
              | Some s => String.eqb s "Route"
              | None => false
              end && String.eqb pn "Path"); exact Hsec.
Qed.

(** Whatever either parser has registered comes from an opening tag of
    the text: [parse_config_file] holds under a key [k] with type [t] a
    section opened by [<t k>], [parse_nxlog_config] holds under a key
    [k] with type [t] a section opened by [<k t>], without details. *)
Lemma registered_from_tags (listing : pyset -> list string)
      (self : NXLogConfigAnalyzer) (content : string) :
  Forall (fun kv => tag_in classify (lines_of content)
                           (i_type (snd kv)) (fst kv))
         (sections_info (snd (parse_config_file self content)))
  /\ Forall (fun kv => i_details (snd kv) = []
                       /\ tag_in classify_config (lines_of content)
                                 (fst kv) (i_type (snd kv)))
            (a_sections (snd (parse_nxlog_config listing content))).
Proof.
  split.
  - rewrite parse_sections_info. unfold scan.
    generalize (List.length (lines_of content)). intros k.
    apply proj2 with
      (A := forall t n,
          current_section (run self (lines_of content) k initial_state) = Some t ->
          current_section_name (run self (lines_of content) k initial_state)
          = Some n ->
          tag_in classify (lines_of content) t n).
    induction k as [|k IH].
    + split; [intros t n Ht; discriminate Ht | constructor].
    + rewrite run_step_last. now apply step_section_tags.
  - change (a_sections (snd (parse_nxlog_config listing content)))
      with (sections_info (c_flow_mapper (config_scan (lines_of content)))).
    unfold config_scan.
    generalize (List.length (lines_of content)). intros k.
    apply proj2 with
      (A := forall t n,
          c_current_section
            (config_run (lines_of content) k config_initial_state) = Some t ->
          c_current_section_name
            (config_run (lines_of content) k config_initial_state) = Some n ->
          tag_in classify_config (lines_of content) t n).
    induction k as [|k IH].
    + split; [intros t n Ht; discriminate Ht | constructor].
    + rewrite config_run_step_last. now apply config_step_section_tags.
Qed.

(** ** The loop of [parse_nxlog_config] *)

Lemma config_step_cursor (lines : list string) (st : CState) :
  c_i (config_step lines st)
  = if (c_i st <? List.length lines)%nat then c_i st + 1 else c_i st.
Proof.
  unfold config_step.
  destruct (nth_error lines (c_i st)) as [raw|] eqn:Hraw.
  - assert (Hlt : c_i st < List.length lines)
      by (apply nth_error_Some; rewrite Hraw; discriminate).
    apply Nat.ltb_lt in Hlt. rewrite Hlt.
    destruct (classify_config raw); try reflexivity.
    now destruct (truthy_opt (c_current_section st)).
  - apply nth_error_None in Hraw.
    apply Nat.ltb_ge in Hraw. now rewrite Hraw.
Qed.

Lemma config_step_entries (lines : list string) (st : CState) :
  List.length (config_data (config_step lines st))
  <= List.length (config_data st) + 1.
Proof.
  unfold config_step.
  destruct (nth_error lines (c_i st)) as [raw|]; [|lia].
  destruct (classify_config raw);
    try (cbn [config_advance config_open_step config_close_step config_data];
         lia).
  destruct (truthy_opt (c_current_section st)).
  - cbn [config_param_step config_data]. rewrite length_app. cbn. lia.
  - cbn [config_advance config_data]. lia.
Qed.

Lemma config_run_cursor (lines : list string) (k : nat) :
  c_i (config_run lines k config_initial_state)
  = Nat.min k (List.length lines).
Proof.
  induction k as [|k IH]; [reflexivity|].
  rewrite config_run_step_last, config_step_cursor, IH.
  destruct (Nat.ltb_spec (Nat.min k (List.length lines)) (List.length lines));
    lia.
Qed.

Lemma config_run_entries (lines : list string) (k : nat) :
  List.length (config_data (config_run lines k config_initial_state)) <= k.
Proof.
  induction k as [|k IH]; [cbn; lia|].
  rewrite config_run_step_last.
  pose proof (config_step_entries lines
                (config_run lines k config_initial_state)).
  lia.
Qed.

(** X19. The loop of [parse_nxlog_config] reads one line per iteration:
    after [k] iterations the cursor is at line [k], or at the end of the
    text if that comes first.  So it ends after as many iterations as
    there are lines, further iterations change nothing, and the result
    has at most one entry per line. *)
Theorem X19_config_scan_line_by_line :
  forall (lines : list string),
    (forall k, c_i (config_run lines k config_initial_state)
               = Nat.min k (List.length lines))
    /\ c_i (config_scan lines) = List.length lines
    /\ config_step lines (config_scan lines) = config_scan lines
    /\ List.length (config_data (config_scan lines)) <= List.length lines.
Proof.
  intros lines.
  assert (Hend : c_i (config_scan lines) = List.length lines).
  { unfold config_scan. rewrite config_run_cursor. lia. }
  repeat split.
  - intros k. apply config_run_cursor.
  - exact Hend.
  - unfold config_step.
    assert (Hnone : nth_error lines (c_i (config_scan lines)) = None)
      by (apply nth_error_None; lia).
    now rewrite Hnone.
  - apply config_run_entries.
Qed.

(** ** Registration of a route *)

Lemma dict_set_set {V : Type} (d : dict V) (k : string) (v w : V) :
  dict_set (dict_set d k v) k w = dict_set d k w.
Proof.
  induction d as [|[k0 v0] d IH]; cbn [dict_set].
  - now rewrite String.eqb_refl.
  - destruct (String.eqb k0 k) eqn:E; cbn [dict_set]; rewrite E;
      [reflexivity | now rewrite IH].
Qed.

Lemma split_names_trimmed (s : string) : Forall trimmed (split_names s).
Proof.
  unfold split_names. apply Forall_forall. intros x Hx.
  apply in_map_iff in Hx. destruct Hx as (y & <- & _).
  apply strip_idempotent.
Qed.

Lemma processors_trimmed (parts : list string) :
  forall acc,
    Forall trimmed acc ->
    Forall trimmed
      (fold_left
         (fun acc part =>
            if truthy part then (acc ++ split_names part)%list else acc)
         parts acc).
Proof.
  induction parts as [|p parts IH]; intros acc H; [exact H|].
  cbn [fold_left]. apply IH. destruct (truthy p); [|exact H].
  apply Forall_app. split; [exact H | apply split_names_trimmed].
Qed.

Lemma parse_route_path_fields (path : string) (r : RouteInfo) :
  r_path (_parse_route_path path r) = r_path r
  /\ r_priority (_parse_route_path path r) = r_priority r
  /\ r_condition (_parse_route_path path r) = r_condition r.
Proof.
  unfold _parse_route_path. destruct (contains "=>" path); repeat split.
Qed.

Lemma parse_route_path_trimmed (path : string) (r : RouteInfo) :
  Forall trimmed (all_components r) ->
  Forall trimmed (all_components (_parse_route_path path r)).
Proof.
  intros H. unfold _parse_route_path.
  destruct (contains "=>" path); [|exact H].
  unfold all_components in *. cbn [r_inputs r_processors r_outputs].
  apply Forall_app in H. destruct H as [Hi H].
  apply Forall_app in H. destruct H as [Hp Ho].
  apply Forall_app. split; [|apply Forall_app; split].
  - destruct (truthy (hd EmptyString (split_stages path)));
      [apply split_names_trimmed | exact Hi].
  - destruct (2 <? List.length (split_stages path))%nat; [|exact Hp].
    now apply processors_trimmed.
  - destruct ((1 <? List.length (split_stages path))%nat
              && truthy (last (split_stages path) EmptyString));
      [apply split_names_trimmed | exact Ho].
Qed.

(** X20. What [add_route] leaves in [routes]: the entry of the route
    holds the path, priority and condition given, every component it
    lists is free of surrounding white space, and a path without [=>]
    lists no component at all.  The entries of the other routes stay as
    they were, and adding a route again under the same name replaces the
    former entry entirely, at its former place. *)
Theorem X20_route_registration :
  forall (m : FlowMapper) (name path : string) (pr c : option string),
    (exists r,
        dict_get (routes (add_route m name path pr c)) name = Some r
        /\ r_path r = path /\ r_priority r = pr /\ r_condition r = c
        /\ Forall trimmed (all_components r)
        /\ (contains "=>" path = false -> all_components r = []))
    /\ (forall other,
           other <> name ->
           dict_get (routes (add_route m name path pr c)) other
           = dict_get (routes m) other)
    /\ (forall path' pr' c',
           add_route (add_route m name path pr c) name path' pr' c'
           = add_route m name path' pr' c').
Proof.
  intros m name path pr c. split; [|split].
  - exists (_parse_route_path path (mkRoute path pr c [] [] [])).
    destruct (parse_route_path_fields path (mkRoute path pr c [] [] []))
      as (Hp & Hpr & Hc).
    split; [|split; [exact Hp | split; [exact Hpr | split; [exact Hc | split]]]].
    + unfold add_route, set_routes. cbn [routes].
      now rewrite dict_get_set, String.eqb_refl.
    + apply parse_route_path_trimmed. constructor.
    + intros Hno. unfold _parse_route_path. now rewrite Hno.
  - intros other Hother. unfold add_route, set_routes. cbn [routes].
    rewrite dict_get_set.
    destruct (String.eqb name other) eqn:E; [|reflexivity].
    apply String.eqb_eq in E. now subst.
  - intros path' pr' c'. unfold add_route, set_routes.
    cbn [routes sections flows sections_info unconnected_sections
         graphviz_content].
    now rewrite dict_set_set.
Qed.

(** ** Every key of the statistics *)

Lemma type_counts_fold_get (l : list SectionInfo) (k : string) :
  forall acc : dict nat,
    dict_get
      (fold_left
         (fun acc i =>
            dict_set acc (i_type i)
              (match dict_get acc (i_type i) with
               | Some n => n
               | None => 0
               end + 1))
         l acc) k
    = if (List.length (filter (fun i => String.eqb (i_type i) k) l) =? 0)%nat
      then dict_get acc k
      else Some (match dict_get acc k with Some n => n | None => 0 end
                 + List.length (filter (fun i => String.eqb (i_type i) k) l)).
Proof.
  induction l as [|i l IH]; intros acc; [reflexivity|].
  cbn [fold_left filter]. rewrite IH, dict_get_set.
  destruct (String.eqb (i_type i) k) eqn:E.
  - apply String.eqb_eq in E. rewrite E. cbn [List.length Nat.eqb].
    destruct (List.length (filter (fun i0 => String.eqb (i_type i0) k) l));
      cbn [Nat.eqb]; f_equal; lia.
  - reflexivity.
Qed.

Lemma type_counts_get (info : dict SectionInfo) (k : string) :
  dict_get (type_counts info) k
  = if (sections_of_type info k =? 0)%nat then None
    else Some (sections_of_type info k).
Proof.
  unfold type_counts, sections_of_type. rewrite type_counts_fold_get.
  reflexivity.
Qed.

Lemma type_counts_fold_nodup (l : list SectionInfo) :
  forall acc : dict nat,
    NoDup (dict_keys acc) ->
    NoDup (dict_keys
             (fold_left
                (fun acc i =>
                   dict_set acc (i_type i)
                     (match dict_get acc (i_type i) with
                      | Some n => n
                      | None => 0
                      end + 1))
                l acc)).
Proof.
  induction l as [|i l IH]; intros acc H; [exact H|].
  cbn [fold_left]. apply IH. now apply dict_set_nodup.
Qed.

Lemma dict_get_absent {V : Type} (d : dict V) (k : string) :
  ~ In k (dict_keys d) -> dict_get d k = None.
Proof.
  unfold dict_keys.
  induction d as [|[k0 v0] d IH]; intros H; [reflexivity|].
  cbn [dict_get]. cbn [map fst In] in H.
  destruct (String.eqb k0 k) eqn:E.
  - apply String.eqb_eq in E. exfalso. apply H. now left.
  - apply IH. intros Hin. apply H. now right.
Qed.

Lemma dict_update_present {V : Type} (e : dict V) :
  forall (d : dict V) (k : string) (v : V),
    NoDup (dict_keys e) ->
    dict_get e k = Some v ->
    dict_get (dict_update d e) k = Some v.
Proof.
  induction e as [|[k0 v0] e IH]; intros d k v Hnd Hk; [discriminate Hk|].
  change (dict_keys ((k0, v0) :: e)) with (k0 :: dict_keys e) in Hnd.
  inversion Hnd as [|? ? Hnot Hnd']. subst.
  change (dict_update d ((k0, v0) :: e))
    with (dict_update (dict_set d k0 v0) e).
  cbn [dict_get] in Hk. destruct (String.eqb k0 k) eqn:E.
  - apply String.eqb_eq in E. subst k0. injection Hk as ->.
    rewrite dict_update_other by now apply dict_get_absent.
    now rewrite dict_get_set, String.eqb_refl.
  - now apply IH.
Qed.

(** X21. Every key of the statistics: a key that is the type of some
    declared section holds the number of sections of that type, any
    other key holds what the four totals hold, and that is nothing for a
    key that is not one of the four. *)
Theorem X21_stats_lookup :
  forall (m : FlowMapper) (k : string),
    dict_get (_get_flow_stats m) k
    = if (sections_of_type (sections_info m) k =? 0)%nat
      then dict_get (totals m) k
      else Some (sections_of_type (sections_info m) k).
Proof.
  intros m k. unfold _get_flow_stats. fold (totals m).
  pose proof (type_counts_get (sections_info m) k) as Hget.
  destruct (sections_of_type (sections_info m) k =? 0)%nat.
  - now apply dict_update_other.
  - apply dict_update_present; [|exact Hget].
    unfold type_counts. apply type_counts_fold_nodup. constructor.
Qed.

(** ** Descriptions of the records *)

Lemma param_step_described (self : NXLogConfigAnalyzer) (lines : list string)
      (st : PState) (n g2 : string) :
  exists r,
    file_data (param_step self lines st n g2) = (file_data st ++ [r])%list
    /\ described_by_name self r.
Proof.
  unfold param_step.
  destruct (merged_value lines (line_i st) n (strip g2)) as [v i].
  eexists. cbn [file_data]. split; reflexivity.
Qed.

Lemma exec_block_step_described (self : NXLogConfigAnalyzer)
      (lines : list string) (st : PState) :
  dict_get (parameter_descriptions self) "Exec" <> None ->
  file_data (exec_block_step self lines st) = file_data st
  \/ exists r,
      file_data (exec_block_step self lines st) = (file_data st ++ [r])%list
      /\ described_by_name self r.
Proof.
  intros Hexec. unfold exec_block_step.
  destruct (collect_exec_block (skipn (line_i st + 1) lines) [] (line_i st + 1))
    as [el i].
  cbn [file_data].
  destruct (negb (List.length el =? 0)%nat && truthy_opt (current_section st));
    [|now left].
  right. eexists. split; [reflexivity|].
  unfold described_by_name, describe. cbn [p_Description p_Parametre].
  destruct (dict_get (parameter_descriptions self) "Exec");
    [reflexivity | contradiction].
Qed.

Lemma step_described (self : NXLogConfigAnalyzer) (lines : list string)
      (st : PState) :
  dict_get (parameter_descriptions self) "Exec" <> None ->
  Forall (described_by_name self) (file_data st) ->
  Forall (described_by_name self) (file_data (step self lines st)).
Proof.
  intros Hexec H. unfold step.
  destruct (nth_error lines (line_i st)) as [raw|]; [|exact H].
  destruct (classify raw) as [|t n| | |pn g2|]; try exact H.
  - destruct (exec_block_step_described self lines st Hexec)
      as [-> | (r & -> & Hr)]; [exact H|].
    apply Forall_app. split; [exact H | now constructor].
  - destruct (truthy_opt (current_section st)); [|exact H].
    destruct (param_step_described self lines st pn g2) as (r & -> & Hr).
    apply Forall_app. split; [exact H | now constructor].
Qed.

Lemma records_described (self : NXLogConfigAnalyzer) (content : string) :
  dict_get (parameter_descriptions self) "Exec" <> None ->
  Forall (described_by_name self) (fst (parse_config_file self content)).
Proof.
  intros Hexec. unfold parse_config_file, scan. cbn [fst].
  generalize (List.length (lines_of content)). intros k.
  induction k as [|k IH]; [constructor|].
  rewrite run_step_last. now apply step_described.
Qed.

Lemma init_describes_exec :
  dict_get (parameter_descriptions new_analyzer) "Exec"
  = Some ("Commande ou script " ++ latin 224 ++ " ex" ++ latin 233
          ++ "cuter (peut " ++ latin 234 ++ "tre multi-lignes)").
Proof. vm_compute. reflexivity. Qed.

(** X22. With the table of descriptions that the constructor sets, the
    description of every record returned by the parser depends on the
    name of its parameter only: it is the entry of the table for that
    name, spelled exactly, and the common fallback text when the table
    has none.  The fallback text of the [<Exec>] block is never used,
    and a block and a bare line spelled [Exec] get the same
    description. *)
Theorem X22_descriptions_by_name :
  forall content : string,
    Forall (described_by_name new_analyzer)
           (fst (parse_config_file new_analyzer content)).
Proof.
  intros content. apply records_described.
  rewrite init_describes_exec. discriminate.
Qed.

(** ** Statistics of the records *)

Section SetFolds.

Variable A : Type.
Variable add : list A -> A -> list A.
Hypothesis add_spec :
  forall s x, (In x s /\ add s x = s) \/ (~ In x s /\ add s x = (s ++ [x])%list).

Lemma add_fold_In (l : list A) :
  forall acc y, In y (fold_left add l acc) <-> In y acc \/ In y l.
Proof.
  induction l as [|x l IH]; intros acc y; cbn [fold_left].
  - cbn. intuition.
  - rewrite IH. destruct (add_spec acc x) as [[Hin ->] | [Hnot ->]].
    + cbn. intuition congruence.
    + rewrite in_app_iff. cbn. intuition congruence.
Qed.

Lemma add_fold_nodup (l : list A) :
  forall acc, NoDup acc -> NoDup (fold_left add l acc).
Proof.
  induction l as [|x l IH]; intros acc H; cbn [fold_left]; [exact H|].
  apply IH. destruct (add_spec acc x) as [[Hin ->] | [Hnot ->]]; [exact H|].
  apply NoDup_app; [exact H | repeat constructor; intros [] |].
  intros y Hy [<- | []]. now apply Hnot.
Qed.

Lemma add_fold_length (l : list A) :
  forall acc,
    List.length acc <= List.length (fold_left add l acc)
    <= List.length acc + List.length l.
Proof.
  induction l as [|x l IH]; intros acc; cbn [fold_left List.length]; [lia|].
  specialize (IH (add acc x)).
  destruct (add_spec acc x) as [[Hin E] | [Hnot E]]; rewrite E in *.
  - lia.
  - rewrite length_app in IH. cbn [List.length] in IH. lia.
Qed.

Lemma add_fold_filter {B : Type} (c : B -> bool) (g : B -> A) (l : list B) :
  forall acc,
    fold_left (fun acc item => if c item then add acc (g item) else acc) l acc
    = fold_left add (map g (filter c l)) acc.
Proof.
  induction l as [|b l IH]; intros acc; cbn [fold_left filter]; [reflexivity|].
  rewrite IH. now destruct (c b).
Qed.

End SetFolds.

Lemma opt_eqb_eq (a b : option string) : opt_eqb a b = true <-> a = b.
Proof.
  destruct a as [x|], b as [y|]; cbn [opt_eqb];
    try (split; [discriminate | intros H; discriminate H]).
  - rewrite String.eqb_eq. split; [now intros -> | now intros [= ->]].
  - now split.
Qed.

Lemma oset_add_spec (s : list (option string)) (x : option string) :
  (In x s /\ oset_add s x = s)
  \/ (~ In x s /\ oset_add s x = (s ++ [x])%list).
Proof.
  unfold oset_add. destruct (existsb (opt_eqb x) s) eqn:E.
  - left. split; [|reflexivity].
    apply existsb_exists in E. destruct E as (y & Hy & Heq).
    apply opt_eqb_eq in Heq. now subst.
  - right. split; [|reflexivity]. intros Hin.
    assert (H : existsb (opt_eqb x) s = true).
    { apply existsb_exists. exists x. split; [exact Hin | now apply opt_eqb_eq]. }
    rewrite H in E. discriminate E.
Qed.

Lemma set_add_spec (s : pyset) (x : string) :
  (In x s /\ set_add s x = s) \/ (~ In x s /\ set_add s x = (s ++ [x])%list).
Proof.
  unfold set_add. destruct (set_mem x s) eqn:E.
  - left. split; [now apply set_mem_In | reflexivity].
  - right. split; [now apply set_mem_false | reflexivity].
Qed.

Lemma statistics_fold (data : list ParamRecord) :
  forall (sections : list (option string)) (modules : pyset) (n : nat),
    fold_left statistics_step data (sections, modules, n)
    = (fold_left oset_add (map p_Section data) sections,
       fold_left set_add (map p_Valeur (filter is_module_record data)) modules,
       n + List.length (filter is_exec_record data)).
Proof.
  induction data as [|r data IH]; intros sections modules n.
  - cbn. now rewrite Nat.add_0_r.
  - cbn [fold_left statistics_step map filter]. rewrite IH.
    unfold is_module_record, is_exec_record.
    destruct (String.eqb (p_Parametre r) "Module");
      destruct (String.eqb (lower (p_Parametre r)) "exec");
      cbn [map fold_left List.length]; f_equal; try reflexivity; lia.
Qed.

Lemma get_statistics_fields (data : list ParamRecord) :
  get_statistics data
  = mkStatistics
      (List.length data)
      (List.length (fold_left oset_add (map p_Section data) []))
      (List.length
         (fold_left set_add (map p_Valeur (filter is_module_record data)) []))
      (List.length (filter is_exec_record data))
      (fold_left oset_add (map p_Section data) [])
      (fold_left set_add (map p_Valeur (filter is_module_record data)) []).
Proof.
  unfold get_statistics. rewrite statistics_fold. reflexivity.
Qed.

(** X23. What [get_statistics] counts: the sections it lists are the
    distinct values of the field [Section] of the records, that is the
    distinct section types, each once, and [sections_count] is their
    number; the modules are the distinct values of the [Module] records
    and [modules_count] their number; [exec_count] is the number of
    records whose parameter is [Exec] in any case of letters.  None of
    the three counts exceeds the number of records. *)
Theorem X23_statistics :
  forall data : list ParamRecord,
    let stats := get_statistics data in
    stat_total_parameters stats = List.length data
    /\ distinct_of (map p_Section data) (stat_sections stats)
    /\ stat_sections_count stats = List.length (stat_sections stats)
    /\ distinct_of (map p_Valeur (filter is_module_record data))
                   (stat_modules stats)
    /\ stat_modules_count stats = List.length (stat_modules stats)
    /\ stat_exec_count stats = List.length (filter is_exec_record data)
    /\ stat_sections_count stats <= List.length data
    /\ stat_modules_count stats <= List.length data
    /\ stat_exec_count stats <= List.length data.
Proof.
  intros data stats. subst stats. rewrite get_statistics_fields.
  cbn [stat_total_parameters stat_sections stat_sections_count stat_modules
       stat_modules_count stat_exec_count].
  pose proof (add_fold_length _ oset_add oset_add_spec
                (map p_Section data) []) as Hs.
  pose proof (add_fold_length _ set_add set_add_spec
                (map p_Valeur (filter is_module_record data)) []) as Hm.
  pose proof (filter_length_le is_module_record data) as Hfm.
  pose proof (filter_length_le is_exec_record data) as Hfe.
  rewrite !length_map in *. cbn [List.length] in *.
  repeat split; try lia.
  - apply add_fold_nodup; [exact oset_add_spec | constructor].
  - intros H. apply (add_fold_In _ oset_add oset_add_spec) in H.
    now destruct H as [[] | H].
  - intros H. apply (add_fold_In _ oset_add oset_add_spec). now right.
  - apply add_fold_nodup; [exact set_add_spec | constructor].
  - intros H. apply (add_fold_In _ set_add set_add_spec) in H.
    now destruct H as [[] | H].
  - intros H. apply (add_fold_In _ set_add set_add_spec). now right.
  - destruct Hm as [_ Hm]. eapply Nat.le_trans; [exact Hm|].
    cbn [Nat.add]. exact Hfm.
Qed.

Lemma stat_sections_distinct (data : list ParamRecord) :
  distinct_of (map p_Section data) (stat_sections (get_statistics data))
  /\ stat_sections_count (get_statistics data)
     = List.length (stat_sections (get_statistics data)).
Proof.
  rewrite get_statistics_fields. cbn [stat_sections stat_sections_count].
  split; [split|reflexivity].
  - apply add_fold_nodup; [exact oset_add_spec | constructor].
  - intros x. rewrite (add_fold_In _ oset_add oset_add_spec). cbn. intuition.
Qed.

Lemma stat_modules_distinct (data : list ParamRecord) :
  distinct_of (map p_Valeur (filter is_module_record data))
              (stat_modules (get_statistics data))
  /\ stat_modules_count (get_statistics data)
     = List.length (stat_modules (get_statistics data)).
Proof.
  rewrite get_statistics_fields. cbn [stat_modules stat_modules_count].
  split; [split|reflexivity].
  - apply add_fold_nodup; [exact set_add_spec | constructor].
  - intros x. rewrite (add_fold_In _ set_add set_add_spec). cbn. intuition.
Qed.

Lemma flat_map_length_sum {A B : Type} (f : A -> list B) (l : list A) :
  List.length (flat_map f l) = list_sum (map (fun x => List.length (f x)) l).
Proof.
  induction l as [|a l IH]; [reflexivity|].
  cbn [flat_map map list_sum]. now rewrite length_app, IH.
Qed.

Lemma consolidate_fold (l : dict (list ParamRecord)) :
  forall acc : Consolidated,
    all_total_parameters (fold_left consolidate_step l acc)
    = all_total_parameters acc
      + list_sum (map (fun kv => List.length (snd kv)) l)
    /\ all_total_exec_count (fold_left consolidate_step l acc)
       = all_total_exec_count acc
         + list_sum
             (map (fun kv => stat_exec_count (get_statistics (snd kv))) l)
    /\ all_sections (fold_left consolidate_step l acc)
       = fold_left oset_add
           (flat_map (fun kv => stat_sections (get_statistics (snd kv))) l)
           (all_sections acc)
    /\ all_modules (fold_left consolidate_step l acc)
       = fold_left set_add
           (flat_map (fun kv => stat_modules (get_statistics (snd kv))) l)
           (all_modules acc).
Proof.
  induction l as [|[name data] l IH]; intros acc.
  - cbn. repeat split; lia.
  - cbn [fold_left flat_map map list_sum snd].
    destruct (IH (consolidate_step acc (name, data))) as (Hp & He & Hs & Hm).
    rewrite Hp, He, Hs, Hm, !fold_left_app.
    cbn [consolidate_step all_total_parameters all_total_exec_count
         all_sections all_modules snd].
    assert (Hlen : stat_total_parameters (get_statistics data)
                   = List.length data)
      by (rewrite get_statistics_fields; reflexivity).
    rewrite Hlen. repeat split; unfold list_sum; cbn [fold_right]; lia.
Qed.

(** X24. The consolidated statistics against those of the files.  The
    total of parameters and the total of [Exec] records are the sums of
    the files' numbers.  The sections and the modules are the distinct
    values over all the files, each once, and the two totals are their
    numbers: a section type or a module met in several files counts
    once, so that each total is at least the count of any single file
    and at most the sum of the files' counts. *)
Theorem X24_consolidated_statistics :
  forall files_data : dict (list ParamRecord),
    let c := get_consolidated_statistics files_data in
    let per_file (count : Statistics -> nat) :=
      map (fun kv => count (get_statistics (snd kv))) files_data in
    all_total_parameters c = list_sum (per_file stat_total_parameters)
    /\ all_total_exec_count c = list_sum (per_file stat_exec_count)
    /\ distinct_of (flat_map (fun kv => map p_Section (snd kv)) files_data)
                   (all_sections c)
    /\ all_total_sections c = List.length (all_sections c)
    /\ distinct_of
         (flat_map (fun kv => map p_Valeur (filter is_module_record (snd kv)))
                   files_data)
         (all_modules c)
    /\ all_total_modules c = List.length (all_modules c)
    /\ Forall (fun n => n <= all_total_sections c)
              (per_file stat_sections_count)
    /\ Forall (fun n => n <= all_total_modules c)
              (per_file stat_modules_count)
    /\ all_total_sections c <= list_sum (per_file stat_sections_count)
    /\ all_total_modules c <= list_sum (per_file stat_modules_count).
Proof.
  intros files_data c per_file.
  destruct (consolidate_fold files_data (mkConsolidated 0 0 0 0 [] [] []))
    as (Hp & He & Hs & Hm).
  cbn [all_total_parameters all_total_exec_count all_sections all_modules
       Nat.add] in Hp, He, Hs, Hm.
  assert (Hcs : all_sections c
                = fold_left oset_add
                    (flat_map
                       (fun kv => stat_sections (get_statistics (snd kv)))
                       files_data) []) by exact Hs.
  assert (Hcm : all_modules c
                = fold_left set_add
                    (flat_map
                       (fun kv => stat_modules (get_statistics (snd kv)))
                       files_data) []) by exact Hm.
  assert (Hts : all_total_sections c = List.length (all_sections c))
    by reflexivity.
  assert (Htm : all_total_modules c = List.length (all_modules c))
    by reflexivity.
  assert (Hnds : NoDup (all_sections c)).
  { rewrite Hcs. apply add_fold_nodup; [exact oset_add_spec | constructor]. }
  assert (Hndm : NoDup (all_modules c)).
  { rewrite Hcm. apply add_fold_nodup; [exact set_add_spec | constructor]. }
  assert (Hins : forall x,
             In x (all_sections c)
             <-> exists kv, In kv files_data
                            /\ In x (stat_sections (get_statistics (snd kv)))).
  { intros x. rewrite Hcs, (add_fold_In _ oset_add oset_add_spec), in_flat_map.
    cbn. intuition. }
  assert (Hinm : forall x,
             In x (all_modules c)
             <-> exists kv, In kv files_data
                            /\ In x (stat_modules (get_statistics (snd kv)))).
  { intros x. rewrite Hcm, (add_fold_In _ set_add set_add_spec), in_flat_map.
    cbn. intuition. }
  split; [|split; [|split; [|split; [|split; [|split; [|split;
    [|split; [|split]]]]]]]].
  - subst per_file. cbn beta.
    transitivity (list_sum (map (fun kv => List.length (snd kv)) files_data));
      [exact Hp|].
    f_equal. apply map_ext.
    intros kv. now rewrite get_statistics_fields.
  - exact He.
  - split; [exact Hnds|]. intros x. rewrite Hins, in_flat_map.
    split; intros (kv & Hkv & Hx); exists kv; (split; [exact Hkv|]);
      now apply (stat_sections_distinct (snd kv)).
  - exact Hts.
  - split; [exact Hndm|]. intros x. rewrite Hinm, in_flat_map.
    split; intros (kv & Hkv & Hx); exists kv; (split; [exact Hkv|]);
      now apply (stat_modules_distinct (snd kv)).
  - exact Htm.
  - subst per_file. cbn beta. apply Forall_forall. intros n Hn.
    apply in_map_iff in Hn. destruct Hn as (kv & <- & Hkv).
    destruct (stat_sections_distinct (snd kv)) as [[Hnd _] ->].
    rewrite Hts. apply NoDup_incl_length; [exact Hnd|].
    intros x Hx. apply Hins. now exists kv.
  - subst per_file. cbn beta. apply Forall_forall. intros n Hn.
    apply in_map_iff in Hn. destruct Hn as (kv & <- & Hkv).
    destruct (stat_modules_distinct (snd kv)) as [[Hnd _] ->].
    rewrite Htm. apply NoDup_incl_length; [exact Hnd|].
    intros x Hx. apply Hinm. now exists kv.
  - subst per_file. cbn beta. rewrite Hts, Hcs.
    eapply Nat.le_trans;
      [apply (add_fold_length _ oset_add oset_add_spec)|].
    cbn [List.length Nat.add]. rewrite flat_map_length_sum.
    apply Nat.eq_le_incl. f_equal. apply map_ext. intros kv.
    symmetry. apply (stat_sections_distinct (snd kv)).
  - subst per_file. cbn beta. rewrite Htm, Hcm.
    eapply Nat.le_trans;
      [apply (add_fold_length _ set_add set_add_spec)|].
    cbn [List.length Nat.add]. rewrite flat_map_length_sum.
    apply Nat.eq_le_incl. f_equal. apply map_ext. intros kv.
    symmetry. apply (stat_modules_distinct (snd kv)).
Qed.

(** ** Route blocks *)

Lemma take_head (k : nat) (c : ascii) (s : string) :
  take (S k) (String c s) = String c (take k s).
Proof.
  unfold take. cbn [substring]. reflexivity.
Qed.

(** The name of a parameter line starts the line. *)
Lemma param_line_head (raw n g2 : string) :
  classify raw = ParamLine n g2 ->
  is_empty (strip raw) = false
  /\ exists c t t', strip raw = String c t' /\ n = String c t.
Proof.
  unfold classify. destruct (is_empty (strip raw)) eqn:He; [discriminate|].
  intros H. split; [reflexivity|].
  destruct (re_match section_re (strip raw)) as [[|g1 [|g2' gs]]|];
    try discriminate;
    (destruct (matches close_re (strip raw)); [discriminate|];
     destruct (matches exec_open_re (strip raw)); [discriminate|];
     destruct (re_match param_re (strip raw)) as [[|h1 [|h2 hs]]|] eqn:Hm;
     try discriminate;
     injection H as <- <-;
     unfold param_re in Hm; cbn [re_match] in Hm;
     apply backtrack_some in Hm;
     destruct Hm as (k1 & gs1 & Hk1 & _ & Heq); injection Heq as Hg1 _;
     subst h1;
     destruct (strip raw) as [|c s]; [cbn [span] in Hk1; lia|];
     destruct k1 as [|k1]; [lia|];
     exists c, (take k1 s), s; split; [reflexivity | apply take_head]).
Qed.

(** A bare [Exec] line starts with the letter E in either case. *)
Lemma exec_line_head (s : string) (gs : list string) :
  re_match next_exec_re s = Some gs ->
  exists c s', s = String c s' /\ chr_i "E" c = true.
Proof.
  unfold next_exec_re. cbn [re_match].
  destruct s as [|c s]; [discriminate|].
  destruct (chr_i "E" c) eqn:E; [|discriminate].
  intros _. now exists c, s.
Qed.

(** A successful match of a bare [Exec] line captures its value. *)
Lemma next_exec_captures (s : string) :
  re_match next_exec_re s <> Some [].
Proof.
  unfold next_exec_re. cbn [re_match].
  destruct s as [|c1 s]; [discriminate|].
  destruct (chr_i "E" c1); [|discriminate].
  destruct s as [|c2 s]; [discriminate|].
  destruct (chr_i "x" c2); [|discriminate].
  destruct s as [|c3 s]; [discriminate|].
  destruct (chr_i "e" c3); [|discriminate].
  destruct s as [|c4 s]; [discriminate|].
  destruct (chr_i "c" c4); [|discriminate].
  intros H. apply backtrack_some in H.
  destruct H as (k1 & gs1 & _ & H & Heq). subst gs1.
  apply backtrack_some in H.
  destruct H as (k2 & gs2 & _ & _ & Heq). discriminate Heq.
Qed.

Lemma not_run_line (raw : string) :
  is_run_line raw = false ->
  is_empty (strip raw) = false /\ re_match next_exec_re (strip raw) = None.
Proof.
  unfold is_run_line. intros H. apply orb_false_iff in H. destruct H as [He H].
  split; [exact He|].
  pose proof (next_exec_captures (strip raw)) as Hc.
  destruct (re_match next_exec_re (strip raw)) as [[|g gs]|];
    [now elim Hc | discriminate H | reflexivity].
Qed.

Lemma stop_line_ends (x : string) (post : list string) :
  is_run_line x = false ->
  exec_run_ends (x :: post) /\ leading_blanks (x :: post) = 0.
Proof.
  intros H. apply not_run_line in H. destruct H as [He Hm].
  unfold exec_run_ends. cbn [leading_blanks]. rewrite He.
  cbn [skipn]. now split.
Qed.

(** A parameter line whose name does not begin like [Exec] is not a
    bare [Exec] line. *)
Lemma param_line_stops (raw n g2 : string) :
  classify raw = ParamLine n g2 ->
  exec_initial n = false ->
  is_run_line raw = false.
Proof.
  intros Hc Hn. destruct (param_line_head raw n g2 Hc)
    as (He & c & t & t' & Hs & ->).
  unfold is_run_line. rewrite He. cbn [orb].
  destruct (re_match next_exec_re (strip raw)) as [[|g gs]|] eqn:Hm;
    try reflexivity.
  apply exec_line_head in Hm. destruct Hm as (c' & s' & Hs' & Hc').
  rewrite Hs in Hs'. injection Hs' as <- _.
  cbn [exec_initial] in Hn. congruence.
Qed.

(** A closing tag is not a bare [Exec] line. *)
Lemma close_tag_stops (raw : string) :
  classify raw = CloseTag -> is_run_line raw = false.
Proof.
  unfold classify, is_run_line.
  destruct (is_empty (strip raw)); [discriminate|]. cbn [orb].
  destruct (re_match section_re (strip raw)) as [[|g1 [|g2 gs]]|];
    try discriminate;
    (destruct (matches close_re (strip raw)) eqn:Hcl;
     [|destruct (matches exec_open_re (strip raw)); [discriminate|];
       destruct (re_match param_re (strip raw)) as [[|? [|? ?]]|];
       discriminate];
     intros _;
     destruct (re_match next_exec_re (strip raw)) as [[|g gs']|] eqn:Hm;
     try reflexivity;
     apply exec_line_head in Hm; destruct Hm as (c & s' & Hs & Hc);
     rewrite Hs in Hcl; unfold matches, close_re in Hcl;
     cbn [re_match] in Hcl;
     destruct (chr "<" c) eqn:Hlt; [|discriminate Hcl];
     exfalso; clear - Hc Hlt;
     destruct c as [[] [] [] [] [] [] [] []]; vm_compute in Hc, Hlt;
     discriminate).
Qed.

(** A blank line or a bare [Exec] line is no parameter line of a name
    that does not begin like [Exec]. *)
Lemma run_line_not_param (raw k : string) :
  is_run_line raw = true -> exec_initial k = false -> is_param k raw = false.
Proof.
  intros Hr Hk. unfold is_param.
  destruct (classify raw) as [|t n| | |pn g2|] eqn:Hc; try reflexivity.
  destruct (String.eqb pn k) eqn:E; [|reflexivity].
  apply String.eqb_eq in E. subst pn.
  rewrite (param_line_stops raw k g2 Hc Hk) in Hr. discriminate Hr.
Qed.

(** The name of a bare [Exec] line begins like [Exec]. *)
Lemma exec_name_initial (n : string) :
  String.eqb (lower n) "exec" = true -> exec_initial n = true.
Proof.
  destruct n as [|c t]; [discriminate|].
  cbn [lower exec_initial]. intros H. apply String.eqb_eq in H.
  injection H as Hc _. unfold chr_i. rewrite Hc. reflexivity.
Qed.

Lemma assigned_from_skip (k : string) (rl : list string) :
  forall start rest,
    forallb (fun raw => negb (is_param k raw)) rl = true ->
    assigned_from k start (rl ++ rest) = assigned_from k start rest.
Proof.
  unfold assigned_from.
  induction rl as [|x rl IH]; intros start rest H; [reflexivity|].
  cbn [forallb] in H. apply andb_true_iff in H. destruct H as [Hx H].
  cbn [app fold_left]. rewrite IH by exact H.
  unfold is_param in Hx. destruct (classify x); try reflexivity.
  apply negb_true_iff in Hx. now rewrite Hx.
Qed.

Lemma run_lines_skip (k : string) (rl : list string) :
  forallb is_run_line rl = true ->
  exec_initial k = false ->
  forallb (fun raw => negb (is_param k raw)) rl = true.
Proof.
  intros H Hk. apply forallb_forall. intros x Hx.
  rewrite forallb_forall in H.
  now rewrite (run_line_not_param x k (H x Hx) Hk).
Qed.

(** The longest run of blank and bare [Exec] lines at the head of a
    list of lines. *)
Lemma run_prefix (l : list string) :
  exists rl rest,
    l = (rl ++ rest)%list
    /\ forallb is_run_line rl = true
    /\ match rest with [] => True | x :: _ => is_run_line x = false end.
Proof.
  induction l as [|x l (rl & rest & -> & Hrl & Hrest)].
  - exists [], []. now repeat split.
  - destruct (is_run_line x) eqn:Hx.
    + exists (x :: rl), rest. repeat split; [|exact Hrest].
      cbn [forallb]. now rewrite Hx, Hrl.
    + exists [], (x :: rl ++ rest)%list. now repeat split.
Qed.

(** A blank line or a bare [Exec] line is a line of the body. *)
Lemma run_line_body (raw : string) :
  is_run_line raw = true -> body_line raw = true.
Proof.
  unfold is_run_line, body_line, classify.
  destruct (is_empty (strip raw)); [reflexivity|]. cbn [orb].
  destruct (re_match next_exec_re (strip raw)) as [[|g gs]|] eqn:Hm;
    try discriminate.
  intros _. apply exec_line_head in Hm. destruct Hm as (c & s' & -> & Hc).
  assert (Hlt : chr "<" c = false).
  { clear - Hc. destruct c as [[] [] [] [] [] [] [] []];
      vm_compute in Hc |- *; congruence. }
  unfold section_re, matches, close_re, exec_open_re. cbn [re_match].
  rewrite Hlt.
  now destruct (re_match param_re (String c s')) as [[|? [|? ?]]|].
Qed.

Lemma run_lines_outer (rl rest : list string) :
  forallb is_run_line rl = true ->
  well_formed false (rl ++ rest) = well_formed false rest
  /\ outer_lines false (rl ++ rest) = (rl ++ outer_lines false rest)%list.
Proof.
  induction rl as [|x rl IH]; intros H; [now split|].
  cbn [forallb] in H. apply andb_true_iff in H. destruct H as [Hx H].
  destruct (IH H) as [IH1 IH2].
  apply run_line_body in Hx. unfold body_line in Hx.
  cbn [app well_formed outer_lines].
  destruct (classify x); try discriminate Hx;
    (split; [exact IH1 | now rewrite IH2]).
Qed.


(** Inside a tagged block of a well-formed body: the lines up to the
    closing line of the block, and the rest of the body. *)
Lemma block_split (ls : list string) :
  well_formed true ls = true ->
  exists inner c rest,
    ls = (inner ++ c :: rest)%list
    /\ forallb no_close inner = true
    /\ matches exec_close_re (strip c) = true
    /\ well_formed false rest = true
    /\ outer_lines true ls = outer_lines false rest.
Proof.
  induction ls as [|x ls IH]; [discriminate|].
  cbn [well_formed outer_lines].
  destruct (matches exec_close_re (strip x)) eqn:Hx; cbn [negb]; intros H.
  - exists [], x, ls. now repeat split.
  - destruct (IH H) as (inner & c & rest & -> & Hi & Hc & Hw & Ho).
    exists (x :: inner), c, rest. repeat split; try assumption.
    cbn [forallb]. unfold no_close at 1. now rewrite Hx, Hi.
Qed.

Lemma classify_exec_open (raw : string) :
  classify raw = ExecOpen -> matches exec_open_re (strip raw) = true.
Proof.
  unfold classify. destruct (is_empty (strip raw)); [discriminate|].
  destruct (re_match section_re (strip raw)) as [[|g1 [|g2 gs]]|];
    try discriminate;
    (destruct (matches close_re (strip raw)); [discriminate|];
     destruct (matches exec_open_re (strip raw)); [reflexivity|];
     destruct (re_match param_re (strip raw)) as [[|? [|? ?]]|];
     discriminate).
Qed.

(** The scan of a well-formed body, from its first line to the line
    that follows it: the section stays open, the section tables are
    untouched, the module is the value of the last [Module] line, every
    attribute whose name does not begin like [Exec] takes the value of
    the last line of its name, and the routes are untouched when the
    body has no [Path] line, the lines counted being those outside the
    tagged blocks.  Bare [Exec] lines are merged and tagged blocks are
    taken whole on the way, so that the iterations may be fewer than the
    lines. *)
Lemma run_body (self : NXLogConfigAnalyzer) (n : nat) :
  forall (body pre : list string) (stop : string) (post : list string)
         (st : PState),
    List.length body <= n ->
    well_formed false body = true ->
    is_run_line stop = false ->
    line_i st = List.length pre ->
    truthy_opt (current_section st) = true ->
    exists k,
      let st' := run self (pre ++ body ++ stop :: post)%list k st in
      line_i st' = List.length pre + List.length body
      /\ current_section st' = current_section st
      /\ current_section_name st' = current_section_name st
      /\ sections (flow_mapper st') = sections (flow_mapper st)
      /\ sections_info (flow_mapper st') = sections_info (flow_mapper st)
      /\ section_module st'
         = assigned_from "Module" (section_module st) (outer_lines false body)
      /\ (forall key,
             exec_initial key = false ->
             dict_get (section_details st') key
             = assigned_from key (dict_get (section_details st) key)
                             (outer_lines false body))
      /\ (forallb not_path (outer_lines false body) = true ->
          flow_mapper st' = flow_mapper st).
Proof.
  induction n as [|n IH]; intros body pre stop post st Hlen Hbody Hstop Hi Ht.
  { destruct body; [|cbn in Hlen; lia].
    exists 0. cbn [run List.length]. repeat split. lia. }
  destruct body as [|l body].
  { exists 0. cbn [run List.length]. repeat split. lia. }
  cbn [List.length] in Hlen. cbn [well_formed] in Hbody.
  cbn [app outer_lines].
  assert (Hnth : nth_error (pre ++ l :: body ++ stop :: post)%list (line_i st)
                 = Some l).
  { rewrite Hi. apply nth_error_mid. }
  assert (Hlines : forall (a b : list string),
             ((pre ++ l :: a) ++ b ++ stop :: post)%list
             = (pre ++ l :: (a ++ b) ++ stop :: post)%list).
  { intros a b. rewrite <- !app_assoc. reflexivity. }
  assert (Hpre : forall a : list string,
             List.length (pre ++ l :: a) = List.length pre + 1 + List.length a).
  { intros a. rewrite length_app. cbn [List.length]. lia. }
  destruct (classify l) as [|t nm| | |pn g2|] eqn:Hc; try discriminate Hbody.
  - (* a blank line *)
    destruct (IH body (pre ++ [l])%list stop post (advance st))
      as (k & H1 & H2 & H3 & H4 & H5 & HM & H6 & H7);
      [lia | exact Hbody | exact Hstop
       | cbn [advance line_i]; rewrite Hi, (Hpre []); cbn; lia
       | exact Ht |].
    exists (S k). cbn [run].
    replace (step self (pre ++ l :: body ++ stop :: post)%list st)
      with (advance st) by (unfold step; now rewrite Hnth, Hc).
    rewrite (Hlines [] body) in H1, H2, H3, H4, H5, HM, H6, H7.
    cbn [app] in H1, H2, H3, H4, H5, HM, H6, H7. cbn zeta in *.
    rewrite (Hpre []) in H1. cbn [List.length] in *.
    split; [rewrite H1; lia|].
    split; [exact H2|]. split; [exact H3|]. split; [exact H4|].
    split; [exact H5|]. split; [|split].
    + rewrite HM. unfold assigned_from. cbn [fold_left]. now rewrite Hc.
    + intros key Hkey. rewrite (H6 key Hkey).
      unfold assigned_from. cbn [fold_left]. now rewrite Hc.
    + intros Hnp. cbn [forallb] in Hnp. apply andb_true_iff in Hnp.
      now apply H7.
  - (* a tagged block, to its closing line *)
    destruct (block_split body Hbody)
      as (inner & c & rest & -> & Hinner & Hclose & Hrest & Houter).
    rewrite Houter. rewrite length_app in Hlen. cbn [List.length] in Hlen.
    set (st1 := mkState (current_section st) (current_section_name st)
                  (List.length pre + List.length inner + 2)
                  (with_block_record self st inner)
                  (flow_mapper st) (section_module st) (section_details st)).
    assert (Hstep : step self (pre ++ l :: (inner ++ c :: rest)
                               ++ stop :: post)%list st = st1).
    { rewrite <- app_assoc. cbn [app].
      apply exec_block_step_body;
        [exact Hi | now apply classify_exec_open | exact Hinner | exact Hclose]. }
    assert (Hl2 : ((pre ++ l :: inner ++ [c]) ++ rest ++ stop :: post)%list
                  = (pre ++ l :: (inner ++ c :: rest) ++ stop :: post)%list).
    { rewrite <- !app_assoc. cbn [app]. rewrite <- !app_assoc. reflexivity. }
    assert (Hp2 : List.length (pre ++ l :: inner ++ [c])
                  = List.length pre + List.length inner + 2).
    { rewrite length_app. cbn [List.length]. rewrite length_app.
      cbn [List.length]. lia. }
    destruct (IH rest (pre ++ l :: inner ++ [c])%list stop post st1)
      as (k & H1 & H2 & H3 & H4 & H5 & HM & H6 & H7);
      [lia | exact Hrest | exact Hstop
       | subst st1; cbn [line_i]; now rewrite Hp2
       | exact Ht |].
    exists (S k). cbn [run]. rewrite Hstep.
    rewrite Hl2 in H1, H2, H3, H4, H5, HM, H6, H7.
    cbn zeta in *. rewrite Hp2 in H1. cbn [List.length].
    rewrite length_app. cbn [List.length].
    split; [rewrite H1; lia|].
    split; [exact H2|]. split; [exact H3|]. split; [exact H4|].
    split; [exact H5|]. split; [exact HM|]. split; [exact H6 | exact H7].
  - (* a parameter line *)
    destruct (String.eqb (lower pn) "exec") eqn:Hexec.
    + (* a bare Exec line and the run it starts *)
      destruct (run_prefix body) as (rl & rest & -> & Hrl & Hrest).
      destruct (run_lines_outer rl rest Hrl) as [Hwf Hout].
      rewrite Hwf in Hbody. rewrite Hout.
      rewrite length_app in Hlen.
      assert (Hends : exec_run_ends (rest ++ stop :: post)%list
                      /\ leading_blanks (rest ++ stop :: post)%list = 0).
      { destruct rest as [|x rest]; cbn [app];
          now apply stop_line_ends. }
      destruct Hends as [Hend Hlead].
      destruct (exec_name_plain pn Hexec) as [Hm Hp].
      set (value := strip_quotes
                      (join " | " (strip g2 :: flat_map exec_value rl))).
      set (st1 := mkState (current_section st) (current_section_name st)
                    (List.length pre + 1 + List.length rl)
                    (file_data st
                     ++ [mkRecord (current_section st) (current_section_name st)
                           pn value
                           (describe self pn
                              ("Param" ++ String (ascii_of_nat 232) "tre sp"
                               ++ e_acute ++ "cifique au module"))])%list
                    (flow_mapper st) (section_module st)
                    (dict_set (section_details st) pn value)).
      assert (Hstep : step self (pre ++ l :: (rl ++ rest) ++ stop :: post)%list st
                      = st1).
      { unfold step. rewrite Hnth, Hc, Ht.
        unfold param_step, merged_value. rewrite Hi, Hexec.
        rewrite skipn_mid, <- app_assoc.
        rewrite collect_exec_lines_run, collect_exec_lines_end by assumption.
        cbn [app]. rewrite Hm, Hp, andb_false_r, Hlead. subst st1 value.
        f_equal. lia. }
      destruct (IH rest (pre ++ l :: rl)%list stop post st1)
        as (k & H1 & H2 & H3 & H4 & H5 & HM & H6 & H7);
        [lia | exact Hbody | exact Hstop
         | subst st1; cbn [line_i]; now rewrite Hpre
         | exact Ht |].
      exists (S k). cbn [run]. rewrite Hstep.
      rewrite (Hlines rl rest) in H1, H2, H3, H4, H5, HM, H6, H7.
      cbn zeta in *. rewrite Hpre in H1. cbn [List.length].
      rewrite length_app.
      assert (Hskip : forall key start,
                 exec_initial key = false ->
                 assigned_from key start (l :: rl ++ outer_lines false rest)
                 = assigned_from key start (outer_lines false rest)).
      { intros key start Hkey.
        assert (Hne : String.eqb pn key = false).
        { destruct (String.eqb pn key) eqn:E; [|reflexivity].
          apply String.eqb_eq in E. subst key.
          rewrite (exec_name_initial pn Hexec) in Hkey. discriminate Hkey. }
        change (l :: rl ++ outer_lines false rest)%list
          with ((l :: rl) ++ outer_lines false rest)%list.
        rewrite assigned_from_skip; [reflexivity|].
        cbn [forallb]. unfold is_param at 1. rewrite Hc, Hne. cbn [negb andb].
        now apply run_lines_skip. }
      split; [rewrite H1; lia|].
      split; [exact H2|]. split; [exact H3|]. split; [exact H4|].
      split; [exact H5|]. split; [|split].
      * rewrite HM. subst st1. cbn [section_module].
        now rewrite (Hskip "Module" _ eq_refl).
      * intros key Hkey. rewrite (H6 key Hkey), (Hskip key _ Hkey).
        subst st1. cbn [section_details]. rewrite dict_get_set.
        destruct (String.eqb pn key) eqn:E; [|reflexivity].
        apply String.eqb_eq in E. subst key.
        rewrite (exec_name_initial pn Hexec) in Hkey. discriminate Hkey.
      * intros Hnp. cbn [forallb] in Hnp. apply andb_true_iff in Hnp.
        destruct Hnp as [_ Hnp]. rewrite forallb_app in Hnp.
        apply andb_true_iff in Hnp. now apply H7.
    + (* any other parameter line *)
      pose proof (step_plain_param self _ st l pn g2 Hnth Hc Hexec Ht) as Hstep.
      match type of Hstep with _ = ?s => set (st1 := s) in * end.
      destruct (IH body (pre ++ [l])%list stop post st1)
        as (k & H1 & H2 & H3 & H4 & H5 & HM & H6 & H7);
        [lia | exact Hbody | exact Hstop
         | subst st1; cbn [line_i]; rewrite Hi, (Hpre []); cbn; lia
         | exact Ht |].
      exists (S k). cbn [run]. rewrite Hstep.
      rewrite (Hlines [] body) in H1, H2, H3, H4, H5, HM, H6, H7.
      cbn [app] in H1, H2, H3, H4, H5, HM, H6, H7. cbn zeta in *.
      rewrite (Hpre []) in H1. cbn [List.length] in *.
      assert (Hsec : sections (flow_mapper st1) = sections (flow_mapper st)
                     /\ sections_info (flow_mapper st1)
                        = sections_info (flow_mapper st)).
      { subst st1. cbn [flow_mapper].
        destruct (in_route st && String.eqb pn "Path"); [|now split].
        apply add_route_sections. }
      destruct Hsec as [Hs1 Hs2].
      split; [rewrite H1; lia|].
      split; [exact H2|]. split; [exact H3|].
      split; [now rewrite H4|]. split; [now rewrite H5|]. split; [|split].
      * rewrite HM. subst st1. cbn [section_module].
        unfold assigned_from. cbn [fold_left]. rewrite Hc. reflexivity.
      * intros key Hkey. rewrite (H6 key Hkey).
        subst st1. cbn [section_details]. rewrite dict_get_set.
        unfold assigned_from. cbn [fold_left]. rewrite Hc. reflexivity.
      * intros Hnp. cbn [forallb] in Hnp. apply andb_true_iff in Hnp.
        destruct Hnp as [Hx Hnp]. rewrite (H7 Hnp).
        subst st1. cbn [flow_mapper].
        unfold not_path, is_param in Hx. rewrite Hc in Hx.
        apply negb_true_iff in Hx. now rewrite Hx, andb_false_r.
  - (* a line that is passed over *)
    destruct (IH body (pre ++ [l])%list stop post (advance st))
      as (k & H1 & H2 & H3 & H4 & H5 & HM & H6 & H7);
      [lia | exact Hbody | exact Hstop
       | cbn [advance line_i]; rewrite Hi, (Hpre []); cbn; lia
       | exact Ht |].
    exists (S k). cbn [run].
    replace (step self (pre ++ l :: body ++ stop :: post)%list st)
      with (advance st) by (unfold step; now rewrite Hnth, Hc).
    rewrite (Hlines [] body) in H1, H2, H3, H4, H5, HM, H6, H7.
    cbn [app] in H1, H2, H3, H4, H5, HM, H6, H7. cbn zeta in *.
    rewrite (Hpre []) in H1. cbn [List.length] in *.
    split; [rewrite H1; lia|].
    split; [exact H2|]. split; [exact H3|]. split; [exact H4|].
    split; [exact H5|]. split; [|split].
    + rewrite HM. unfold assigned_from. cbn [fold_left]. now rewrite Hc.
    + intros key Hkey. rewrite (H6 key Hkey).
      unfold assigned_from. cbn [fold_left]. now rewrite Hc.
    + intros Hnp. cbn [forallb] in Hnp. apply andb_true_iff in Hnp.
      now apply H7.
Qed.

Lemma assigned_from_path (key : string) (before after : list string)
      (l_path g2 : string) :
  classify l_path = ParamLine "Path" g2 ->
  String.eqb "Path" key = false ->
  assigned key (before ++ l_path :: after)
  = assigned_from key (assigned key before) after.
Proof.
  intros Hc Hk. unfold assigned, assigned_from.
  rewrite fold_left_app. cbn [fold_left]. now rewrite Hc, Hk.
Qed.

(** C4. A block opened as [Route], scanned from its opening tag to its
    closing tag, whose body is well formed: parameter lines (bare [Exec]
    lines among them), blank lines, lines that the scan passes over and
    closed [<Exec>] blocks.  The route that the block leaves registered
    comes from its last [Path] line and carries the priority and the
    condition of the last [Priority] and [Condition] lines before that
    line, and none where no such line comes before it: a [Priority] or
    [Condition] line after the last [Path] line is not picked up by the
    route, although the section registered at the closing tag holds it
    among its attributes.  The lines counted are those outside the
    tagged blocks. *)
Theorem C4_route_snapshot :
  forall (self : NXLogConfigAnalyzer) (pre before after post : list string)
         (l_open l_path l_close name g2 : string) (st : PState),
    line_i st = List.length pre ->
    classify l_open = OpenTag "Route" name ->
    well_formed false before = true ->
    classify l_path = ParamLine "Path" g2 ->
    well_formed false after = true ->
    forallb not_path (outer_lines false after) = true ->
    classify l_close = CloseTag ->
    let lines :=
      (pre ++ l_open :: before ++ l_path :: after ++ l_close :: post)%list in
    let path := strip_quotes (strip g2) in
    let read_before := outer_lines false before in
    let read :=
      (outer_lines false before ++ l_path :: outer_lines false after)%list in
    exists k,
      let st' := run self lines k st in
      line_i st' = List.length pre + List.length before + List.length after + 3
      /\ current_section st' = None
      /\ (exists r,
             dict_get (routes (flow_mapper st')) name = Some r
             /\ r = _parse_route_path path
                      (mkRoute path (assigned "Priority" read_before)
                               (assigned "Condition" read_before) [] [] [])
             /\ r_path r = path
             /\ r_priority r = assigned "Priority" read_before
             /\ r_condition r = assigned "Condition" read_before)
      /\ (exists e,
             dict_get (sections (flow_mapper st')) name = Some e
             /\ s_type e = "Route"
             /\ dict_get (s_details e) "Priority" = assigned "Priority" read
             /\ dict_get (s_details e) "Condition"
                = assigned "Condition" read).
Proof.
  intros self pre before after post l_open l_path l_close name g2 st
         Hi Hopen Hbefore Hpath Hafter Hnopath Hclose lines path
         read_before read.
  destruct (classify_open_truthy _ _ _ Hopen) as [_ Hname].
  (* the opening tag *)
  set (st1 := open_step st "Route" name).
  assert (S1 : step self lines st = st1).
  { unfold step, lines. rewrite Hi, nth_error_mid, Hopen. reflexivity. }
  (* the body before the last Path line *)
  assert (L2 : lines
               = ((pre ++ [l_open]) ++ before
                  ++ l_path :: after ++ l_close :: post)%list).
  { unfold lines. rewrite <- app_assoc. reflexivity. }
  destruct (run_body self (List.length before) before (pre ++ [l_open])%list
              l_path (after ++ l_close :: post)%list st1)
    as (k2 & B1 & B2 & B3 & _ & _ & _ & B6 & _);
    [lia | exact Hbefore
     | apply (param_line_stops l_path "Path" g2 Hpath); reflexivity
     | subst st1; cbn [open_step line_i]; rewrite Hi, length_app; reflexivity
     | reflexivity |].
  rewrite <- L2 in B1, B2, B3, B6. cbn zeta in B1, B2, B3, B6.
  set (st2 := run self lines k2 st1) in *.
  cbn [st1 open_step current_section current_section_name section_details
       dict_get] in B2, B3, B6.
  rewrite length_app in B1. cbn [List.length] in B1.
  (* the last Path line *)
  assert (L3 : lines
               = ((pre ++ l_open :: before)
                  ++ l_path :: after ++ l_close :: post)%list).
  { unfold lines. rewrite <- app_assoc. reflexivity. }
  assert (N3 : nth_error lines (line_i st2) = Some l_path).
  { rewrite B1, L3.
    replace (List.length pre + 1 + List.length before)
      with (List.length (pre ++ l_open :: before))
      by (rewrite length_app; cbn [List.length]; lia).
    apply nth_error_mid. }
  assert (T2 : truthy_opt (current_section st2) = true)
    by (rewrite B2; reflexivity).
  pose proof (step_plain_param self lines st2 l_path "Path" g2 N3 Hpath
                eq_refl T2) as S3.
  unfold in_route in S3. rewrite B2, B3 in S3.
  rewrite (B6 "Priority" eq_refl), (B6 "Condition" eq_refl) in S3.
  cbn [String.eqb Ascii.eqb Bool.eqb andb or_empty] in S3.
  fold (assigned "Priority" read_before) in S3.
  fold (assigned "Condition" read_before) in S3.
  fold path in S3.
  match type of S3 with _ = ?s => set (st3 := s) in * end.
  (* the body after it *)
  assert (L4 : lines
               = ((pre ++ l_open :: before ++ [l_path]) ++ after
                  ++ l_close :: post)%list).
  { unfold lines. rewrite <- app_assoc. cbn [app]. rewrite <- app_assoc.
    reflexivity. }
  assert (P4 : List.length (pre ++ l_open :: before ++ [l_path])
               = List.length pre + List.length before + 2).
  { rewrite length_app. cbn [List.length]. rewrite length_app.
    cbn [List.length]. lia. }
  destruct (run_body self (List.length after) after
              (pre ++ l_open :: before ++ [l_path])%list
              l_close post st3)
    as (k4 & D1 & D2 & D3 & D4 & _ & _ & D6 & D7);
    [lia | exact Hafter | now apply close_tag_stops
     | subst st3; cbn [line_i]; rewrite B1, P4; lia
     | reflexivity |].
  rewrite <- L4 in D1, D2, D3, D4, D6, D7. cbn zeta in D1, D2, D3, D4, D6, D7.
  set (st4 := run self lines k4 st3) in *.
  specialize (D7 Hnopath).
  cbn [st3 current_section current_section_name flow_mapper section_details]
    in D2, D3, D4, D6, D7.
  rewrite P4 in D1.
  (* the closing tag *)
  assert (N5 : nth_error lines (line_i st4) = Some l_close).
  { rewrite D1, L4, app_assoc.
    replace (List.length pre + List.length before + 2 + List.length after)
      with (List.length ((pre ++ l_open :: before ++ [l_path]) ++ after))
      by (rewrite length_app, P4; lia).
    apply nth_error_mid. }
  assert (S5 : step self lines st4 = close_step st4).
  { unfold step. now rewrite N5, Hclose. }
  assert (R : run self lines (1 + (k2 + (1 + (k4 + 1)))) st = close_step st4).
  { rewrite run_add. cbn [run]. rewrite S1.
    rewrite run_add. fold st2.
    rewrite run_add. cbn [run]. rewrite S3.
    rewrite run_add. fold st4. cbn [run]. exact S5. }
  exists (1 + (k2 + (1 + (k4 + 1)))). cbn zeta. rewrite R.
  assert (F : flow_mapper (close_step st4)
              = add_section (flow_mapper st4) name "Route"
                            (section_module st4) (section_details st4)).
  { cbn [close_step flow_mapper]. rewrite D2, D3.
    cbn [truthy_opt or_empty]. rewrite Hname. reflexivity. }
  rewrite F. split; [cbn [close_step line_i]; lia|].
  split; [reflexivity|]. split.
  - eexists. split.
    { unfold add_section. cbn [routes]. rewrite D7.
      unfold add_route, set_routes. cbn [routes].
      now rewrite dict_get_set, String.eqb_refl. }
    split; [reflexivity|].
    exact (parse_route_path_fields path
             (mkRoute path (assigned "Priority" read_before)
                      (assigned "Condition" read_before) [] [] [])).
  - eexists. split.
    { unfold add_section. cbn [sections].
      now rewrite dict_get_set, String.eqb_refl. }
    split; [reflexivity|].
    cbn [s_details].
    rewrite (D6 "Priority" eq_refl), (D6 "Condition" eq_refl).
    rewrite !dict_get_set. cbn [String.eqb Ascii.eqb Bool.eqb].
    rewrite (B6 "Priority" eq_refl), (B6 "Condition" eq_refl).
    subst read.
    rewrite (assigned_from_path "Priority" _ (outer_lines false after)
               l_path g2 Hpath eq_refl).
    rewrite (assigned_from_path "Condition" _ (outer_lines false after)
               l_path g2 Hpath eq_refl).
    split; reflexivity.
Qed.

(** C4 at a block with a blank line, a tagged block that holds a line
    [Priority 99], a bare [Exec] run and a first [Path] before the last
    [Path] line, and with [Priority] and [Condition] after it: the route
    has neither, the section has both. *)
Lemma C4_route_snapshot_witness :
  let lines :=
    ["<Route r1>"; EmptyString; "<Exec>"; "Priority 99"; "</Exec>";
     "Exec log_info('a');"; "Exec log_info('b');";
     "Path old1 => old2"; "Path in1 => out1"; "Priority 10";
     "Condition $x == 1"; "</Route>"; "<Input in1>"] in
  exists k,
    let st' := run (mkAnalyzer []) lines k initial_state in
    line_i st' = 12
    /\ current_section st' = None
    /\ (exists r,
           dict_get (routes (flow_mapper st')) "r1" = Some r
           /\ r = _parse_route_path "in1 => out1"
                    (mkRoute "in1 => out1" None None [] [] [])
           /\ r_path r = "in1 => out1"
           /\ r_priority r = None
           /\ r_condition r = None)
    /\ (exists e,
           dict_get (sections (flow_mapper st')) "r1" = Some e
           /\ s_type e = "Route"
           /\ dict_get (s_details e) "Priority" = Some "10"
           /\ dict_get (s_details e) "Condition" = Some "$x == 1").
Proof.
  apply (C4_route_snapshot (mkAnalyzer []) []
           [EmptyString; "<Exec>"; "Priority 99"; "</Exec>";
            "Exec log_info('a');"; "Exec log_info('b');";
            "Path old1 => old2"]
           ["Priority 10"; "Condition $x == 1"] ["<Input in1>"]
           "<Route r1>" "Path in1 => out1" "</Route>" "r1" "in1 => out1"
           initial_state);
    vm_compute; reflexivity.
Defined.

(** C4, as stated, fails: in [path_again_doc] a [Path] line stands
    before the [Priority] line of the block, and the route is registered
    with the priority 10, by the [Path] line that comes again after
    it. *)
Lemma C4_counterexample :
  lines_of path_again_doc
  = ["<Route r1>"; "Path in1 => out1"; "Priority 10"; "Path in1 => out1";
     "</Route>"; EmptyString]
  /\ priorities (snd (parse_config_file (mkAnalyzer []) path_again_doc))
     = ([("r1", Some "10")], ["10"], [Some "10"]).
Proof. split; vm_compute; reflexivity. Qed.

(** The route of [snapshot_doc] has the priority and the condition that
    stand before its [Path] line, the section those that stand after. *)
Example snapshot_doc_values :
  snapshots (snd (parse_config_file (mkAnalyzer []) snapshot_doc))
  = ([("r1", (Some "5", Some "$a == 2"))],
     [("r1", (Some "10", Some "$x == 1"))]).
Proof. vm_compute. reflexivity. Qed.

(** ** A closed section in the two parsers *)






(** ** Repeating the analysis, and the order of a set *)

Lemma set_mem_listing (listing : pyset -> list string) (s : pyset) (x : string) :
  enumerates listing -> set_mem x (listing s) = set_mem x s.
Proof.
  intros H. destruct (set_mem x s) eqn:E.
  - apply set_mem_In. apply set_mem_In in E.
    eapply Permutation_in; [apply Permutation_sym, H | exact E].
  - apply set_mem_false. apply set_mem_false in E. intros Hin. apply E.
    eapply Permutation_in; [apply H | exact Hin].
Qed.

Lemma node_line_listing (listing : pyset -> list string) (s : pyset)
      (name : string) (info : SectionInfo) :
  enumerates listing -> node_line (listing s) name info = node_line s name info.
Proof.
  intros H. unfold node_line. now rewrite (set_mem_listing listing s name H).
Qed.

Lemma analyzed_twice (m : FlowMapper) :
  routes (analyzed (analyzed m)) = routes (analyzed m)
  /\ flows (analyzed (analyzed m)) = flows (analyzed m)
  /\ sections_info (analyzed (analyzed m)) = sections_info (analyzed m)
  /\ unconnected_sections (analyzed (analyzed m))
     = unconnected_sections (analyzed m)
  /\ graphviz_content (analyzed (analyzed m)) = graphviz_content (analyzed m).
Proof.
  pose proof (analyzed_again (fun names => names) m) as H.
  unfold analyze_flows in H. cbn [snd] in H.
  pose proof (f_equal a_flows H) as Hf.
  pose proof (f_equal a_unconnected H) as Hu.
  pose proof (f_equal a_graphviz H) as Hg.
  cbn [a_flows a_unconnected a_graphviz] in Hf, Hu, Hg.
  repeat split; assumption.
Qed.

(** C6. The analysis and the order of a set.  Under one iteration
    order, analysing again the mapper that was just analysed returns the
    same value, entry for entry, and leaves the same routes, flows,
    section table, unconnected names and diagram in the mapper, whose
    sections only get the names of their routes appended once more.
    Under two iteration orders the flows, the sections, the statistics
    and the diagram are the same, and the two lists of unconnected names
    hold the same names.  The diagram is the text of the returned
    sections, flows and unconnected names, the last read by membership
    only, in which the edge of a flow has the palette colour at the rank
    of its route in first-seen order, taken cyclically: for seven routes
    the seventh has the colour of the first. *)
Theorem C6_analysis_repeatable :
  forall (listing listing' : pyset -> list string),
    enumerates listing ->
    enumerates listing' ->
    forall m : FlowMapper,
      let m1 := fst (analyze_flows listing m) in
      let result := snd (analyze_flows listing m) in
      let m2 := fst (analyze_flows listing m1) in
      let again := snd (analyze_flows listing m1) in
      let other := snd (analyze_flows listing' m) in
      again = result
      /\ (routes m2 = routes m1
          /\ flows m2 = flows m1
          /\ sections_info m2 = sections_info m1
          /\ unconnected_sections m2 = unconnected_sections m1
          /\ graphviz_content m2 = graphviz_content m1
          /\ forall name,
              dict_get (sections m2) name
              = option_map (add_marks (marks (routes m) name))
                           (dict_get (sections m1) name))
      /\ (a_flows other = a_flows result
          /\ a_sections other = a_sections result
          /\ a_stats other = a_stats result
          /\ a_graphviz other = a_graphviz result
          /\ Permutation (a_unconnected other) (a_unconnected result))
      /\ a_graphviz result
         = join nl (diagram_lines (route_color (a_flows result))
                                  (a_sections result) (a_unconnected result)
                                  (a_flows result))
      /\ a_graphviz (snd (analyze_flows listing palette_mapper))
         = join nl palette_diagram.
Proof.
  intros listing listing' Hl Hl' m m1 result m2 again other.
  split; [apply analyzed_again|].
  split.
  { destruct (analyzed_twice m) as (H1 & H2 & H3 & H4 & H5).
    repeat split; try assumption.
    intros name. apply (analyzed_sections_get (analyzed m) name). }
  split.
  { repeat split.
    eapply Permutation_trans; [apply Hl' | apply Permutation_sym, Hl]. }
  split.
  - subst result. unfold analyze_flows.
    cbn [snd a_graphviz a_sections a_unconnected a_flows].
    change (graphviz_content (analyzed m))
      with (_generate_graphviz (sections_info m)
              (unconnected_sections (analyzed m)) (flows (analyzed m))).
    change (sections_info (analyzed m)) with (sections_info m).
    unfold _generate_graphviz, diagram_lines.
    rewrite edge_lines_colors.
    rewrite (map_ext
               (fun kv => node_line (listing (unconnected_sections (analyzed m)))
                                    (fst kv) (snd kv))
               (fun kv => node_line (unconnected_sections (analyzed m))
                                    (fst kv) (snd kv)))
      by (intros kv; now apply node_line_listing).
    reflexivity.
  - vm_compute. reflexivity.
Qed.

(** C6 at [spare_mapper], under the order of insertion and under the
    reverse order. *)
Lemma C6_analysis_repeatable_witness :
  let listing := fun names : pyset => names in
  let m := spare_mapper in
  let m1 := fst (analyze_flows listing m) in
  let result := snd (analyze_flows listing m) in
  let m2 := fst (analyze_flows listing m1) in
  let again := snd (analyze_flows listing m1) in
  let other := snd (analyze_flows (@rev string) m) in
  again = result
  /\ (routes m2 = routes m1
      /\ flows m2 = flows m1
      /\ sections_info m2 = sections_info m1
      /\ unconnected_sections m2 = unconnected_sections m1
      /\ graphviz_content m2 = graphviz_content m1
      /\ forall name,
          dict_get (sections m2) name
          = option_map (add_marks (marks (routes m) name))
                       (dict_get (sections m1) name))
  /\ (a_flows other = a_flows result
      /\ a_sections other = a_sections result
      /\ a_stats other = a_stats result
      /\ a_graphviz other = a_graphviz result
      /\ Permutation (a_unconnected other) (a_unconnected result))
  /\ a_graphviz result
     = join nl (diagram_lines (route_color (a_flows result))
                              (a_sections result) (a_unconnected result)
                              (a_flows result))
  /\ a_graphviz (snd (analyze_flows listing palette_mapper))
     = join nl palette_diagram.
Proof.
  apply (C6_analysis_repeatable (fun names => names) (@rev string)).
  - intros s. apply Permutation_refl.
  - intros s. apply Permutation_sym, Permutation_rev.
Defined.

(** C6, as stated, fails: the list of unconnected names is made from
    a set, and two iteration orders of that set give it in two orders,
    here the order of insertion and its reverse for the two unconnected
    sections of [spare_doc]. *)
Lemma C6_counterexample :
  a_unconnected (snd (analyze_flows (fun names => names) spare_mapper))
  = ["spare"; "r1"]
  /\ a_unconnected (snd (analyze_flows (@rev string) spare_mapper))
     = ["r1"; "spare"].
Proof. split; vm_compute; reflexivity. Qed.
